(** * Package-requirements handler of ubuntu-make

    A shallow embedding of [umake/network/requirements_handler.py]
    (class [RequirementsHandler]) and the properties of its bucket
    evaluators, of the openjdk equivalence check, of the install task and
    of the completion dispatch.

    Modelling conventions.
    - Python [str] values are [string]s over ASCII; [\d] is [0-9], [\w] is
      [A-Za-z0-9_], and [.] is any character but the line feed.  The
      exchange file holds the bytes the forked child wrote; reading it in
      text mode decodes them with the codec of the locale, an oracle that
      can fail, and translates the line ends.
    - A method that reads or writes [self], the bucket list or the outside
      world is a function from a handler state to an outcome and a new
      state.  A raised exception keeps the state reached when it was raised,
      as Python does.
    - The bucket is one mutable list shared by the caller, the queued task
      and the result: every evaluator takes the list and gives back the list
      as the call left it.
    - Everything apt, dpkg and the java binaries do is read from an
      environment record (oracles).
    - [depth] bounds the nesting of the calls an evaluator makes to itself
      or to a sibling, to make the definitions structural.  A run that this
      bound stops has the outcome [Hang].  The evaluators never hang once
      [depth] leaves room for one nested call ([evaluators_finish],
      [depth_irrelevant]).
    - The reload of the package database retries by calling itself, one
      frame of the interpreter's stack for every attempt.  Its argument,
      which the install task passes on, is the number of attempts the stack
      has room for where the reload is called; the call after those raises
      RecursionError.  The reload never hangs. *)

From Stdlib Require Import String Ascii.
From stdpp Require Import base option list gmap strings.

Local Open Scope string_scope.

(** ** Strings as Python uses them *)

Module PyStr.

Definition dquote : ascii := "034"%char.
Definition newline : ascii := "010"%char.

(** [sub in s] *)
Fixpoint contains (sub s : string) : bool :=
  String.prefix sub s ||
  match s with
  | EmptyString => false
  | String _ s' => contains sub s'
  end.

(** [s[n:]] *)
Fixpoint skip (n : nat) (s : string) : string :=
  match n, s with
  | O, _ => s
  | S n', String _ s' => skip n' s'
  | S _, EmptyString => EmptyString
  end.

(** Puts a character in front of the first piece of a split. *)
Definition cons_head (c : ascii) (pieces : list string) : list string :=
  match pieces with
  | h :: t => String c h :: t
  | [] => [String c EmptyString]
  end.

(** [s.split(sep, -1)] for a one-character separator. *)
Fixpoint split_char (sep : ascii) (s : string) : list string :=
  match s with
  | EmptyString => [EmptyString]
  | String c rest =>
      if Ascii.eqb c sep then EmptyString :: split_char sep rest
      else cons_head c (split_char sep rest)
  end.

(** [s.split(' | ')]: the separator is matched leftmost first and the
    scan resumes after it. *)
Fixpoint split_alt (s : string) : list string :=
  match s with
  | EmptyString => [EmptyString]
  | String c rest =>
      match rest with
      | String c2 (String c3 rest') =>
          if Ascii.eqb c " " && Ascii.eqb c2 "|" && Ascii.eqb c3 " "
          then EmptyString :: split_alt rest'
          else cons_head c (split_alt rest)
      | _ => cons_head c (split_alt rest)
      end
  end.

(** The longest prefix whose characters satisfy [p], and what follows it. *)
Fixpoint span (p : ascii -> bool) (s : string) : string * string :=
  match s with
  | EmptyString => (EmptyString, EmptyString)
  | String c rest =>
      if p c then let '(a, b) := span p rest in (String c a, b)
      else (EmptyString, s)
  end.

Definition in_range (lo hi c : ascii) : bool :=
  (N_of_ascii lo <=? N_of_ascii c)%N && (N_of_ascii c <=? N_of_ascii hi)%N.

(** [\d] *)
Definition is_digit (c : ascii) : bool := in_range "0" "9" c.

(** [\w] *)
Definition is_word (c : ascii) : bool :=
  is_digit c || in_range "a" "z" c || in_range "A" "Z" c || Ascii.eqb c "_".

(** [[\d\.]] *)
Definition is_digit_or_dot (c : ascii) : bool := is_digit c || Ascii.eqb c ".".

(** [a >= b] on [str]: code points compared left to right, a proper prefix
    being smaller. *)
Definition str_ge (a b : string) : bool := String.leb b a.

Definition carriage_return : ascii := "013"%char.

(** What text mode with universal newlines gives for a text: a carriage
    return, alone or followed by a line feed, is read as one line feed. *)
Fixpoint universal_newlines (s : string) : string :=
  match s with
  | EmptyString => EmptyString
  | String c rest =>
      if Ascii.eqb c carriage_return then
        match rest with
        | String c2 rest' =>
            if Ascii.eqb c2 newline
            then String newline (universal_newlines rest')
            else String newline (universal_newlines rest)
        | EmptyString => String newline EmptyString
        end
      else String c (universal_newlines rest)
  end.

(** A byte below 128, and a text of such bytes. *)
Definition is_ascii (c : ascii) : bool := (N_of_ascii c <? 128)%N.

Fixpoint is_ascii_text (s : string) : bool :=
  match s with
  | EmptyString => true
  | String c rest => is_ascii c && is_ascii_text rest
  end.

(** [l.remove(x)]: drops the first element equal to [x]. *)
Fixpoint list_remove (x : string) (l : list string) : list string :=
  match l with
  | [] => []
  | y :: t => if String.eqb y x then t else y :: list_remove x t
  end.

End PyStr.

(** ** Regular expressions of [check_java_equiv] *)

Module Regex.
Import PyStr.

(** [openjdk-(\d+)-(j\w\w)] anchored at the start of [s].  [\d+] takes the
    whole run of digits: giving digits back never helps, the next character
    would be a digit where [-] is required. *)
Definition match_openjdk_here (s : string) : option (string * string) :=
  if String.prefix "openjdk-" s then
    let '(digits, rest) := span is_digit (skip 8 s) in
    match digits, rest with
    | String _ _, String d (String j (String c1 (String c2 _))) =>
        if Ascii.eqb d "-" && Ascii.eqb j "j" && is_word c1 && is_word c2
        then Some (digits, String j (String c1 (String c2 EmptyString)))
        else None
    | _, _ => None
    end
  else None.

(** [re.search(r"openjdk-(\d+)-(j\w\w)", s)]: groups 1 and 2 of the leftmost
    match. *)
Fixpoint search_openjdk (s : string) : option (string * string) :=
  match match_openjdk_here s with
  | Some g => Some g
  | None =>
      match s with
      | EmptyString => None
      | String _ s' => search_openjdk s'
      end
  end.

(** Is there a double quote before the end of the line?  This is what is
    left of the pattern after the number: any characters, then the quote. *)
Fixpoint quote_on_line (s : string) : bool :=
  match s with
  | EmptyString => false
  | String c rest =>
      if Ascii.eqb c dquote then true
      else if Ascii.eqb c newline then false
      else quote_on_line rest
  end.

Definition version_prefix : string := "version " ++ String dquote EmptyString.

(** The java pattern (the word version, a space, a double quote, group 1
    [([\d\.]+)], any characters, a double quote) anchored at the start of
    [s]. *)
Definition match_jre_here (s : string) : option string :=
  if String.prefix version_prefix s then
    let '(num, rest) := span is_digit_or_dot (skip 9 s) in
    match num with
    | String _ _ => if quote_on_line rest then Some num else None
    | EmptyString => None
    end
  else None.

(** [re.search] of the java pattern in [s]: group 1 of the leftmost match. *)
Fixpoint search_jre_version (s : string) : option string :=
  match match_jre_here s with
  | Some g => Some g
  | None =>
      match s with
      | EmptyString => None
      | String _ s' => search_jre_version s'
      end
  end.

(** [re.search(r"([\d\.]+).*", s)]: group 1, the first run of digits and
    dots. *)
Fixpoint search_jdk_version (s : string) : option string :=
  match s with
  | EmptyString => None
  | String c rest =>
      if is_digit_or_dot c then Some (fst (span is_digit_or_dot s))
      else search_jdk_version rest
  end.

End Regex.

(** ** Exceptions, outcomes and the state monad *)

Inductive exn_class :=
  | TypeError | ValueError | UnboundLocalError | KeyError
  | FileNotFoundError | SystemError | ZeroDivisionError
  | RecursionError      (* a RuntimeError: the stack is full *)
  | UnicodeDecodeError  (* a ValueError: bytes the codec cannot decode *)
  | OtherException      (* some other subclass of Exception *)
  | BaseException.      (* a bare BaseException *)

(** An exception object; [str(e)] is [exn_msg e]. *)
Record exn := Exn { exn_cls : exn_class; exn_msg : string }.

(** [isinstance(e, Exception)] *)
Definition is_Exception (e : exn) : bool :=
  match exn_cls e with
  | BaseException => false
  | _ => true
  end.

(** What a call does: it returns, it raises, or it is still running when
    the bound of the model is spent. *)
Inductive outcome (A : Type) :=
  | Ret (a : A)
  | Raise (e : exn)
  | Hang.
Arguments Ret {A} a.
Arguments Raise {A} e.
Arguments Hang {A}.

Definition M (S A : Type) : Type := S -> outcome A * S.

Definition ret {S A} (a : A) : M S A := fun s => (Ret a, s).
Definition raise {S A} (e : exn) : M S A := fun s => (Raise e, s).
Definition hang {S A} : M S A := fun s => (Hang, s).
Definition bind {S A B} (m : M S A) (k : A -> M S B) : M S B :=
  fun s =>
    match m s with
    | (Ret a, s') => k a s'
    | (Raise e, s') => (Raise e, s')
    | (Hang, s') => (Hang, s')
    end.
Definition gets {S A} (f : S -> A) : M S A := fun s => (Ret (f s), s).
Definition modify {S} (f : S -> S) : M S unit := fun s => (Ret tt, f s).

Notation "'let*' x ':=' m 'in' k" := (bind m (fun x => k))
  (at level 10, x name, k at level 200).

(** ** The package database, the environment and the handler *)

(** An [apt.Package] as far as the handler reads it. *)
Record package := Package { is_installed : bool; is_upgradable : bool }.

(** [subprocess.check_output] of a version command. *)
Inductive probe :=
  | ProbeOutput (out : string)
  | ProbeMissing                (* FileNotFoundError: no such command *)
  | ProbeFails (e : exn).       (* any other exception *)

(** One call of [cache.open()]. *)
Inductive open_result :=
  | OpenOk (db : gmap string package)
  | OpenBusy (msg : string)     (* SystemError: something else holds the lock *)
  | OpenFails (e : exn).        (* an exception that is no SystemError *)

(** What [cache.commit] does, in order, as seen from the handler. *)
Inductive commit_event :=
  | CPulse (current_bytes current_items total_bytes total_items : Z)
  | CStatus (percent : Z)
  | CWrite (txt : string)       (* output of the forked child *)
  | CError (msg : string)       (* apt calls [install_progress.error] *)
  | CFinish                     (* apt calls [finish_update] *)
  | CRaise (e : exn).           (* commit raises by itself *)

Record env := Env {
  current_arch : string;                (* get_current_arch() *)
  java_probe : probe;                   (* java -version *)
  javac_probe : probe;                  (* javac -version *)
  cache_open : nat -> open_result;      (* the k-th call of cache.open() *)
  cache_update : option exn;            (* cache.update() raising *)
  key_error : string -> string;         (* text of cache[name] on a miss *)
  mark_raises : string -> option exn;   (* mark_install, mark_upgrade *)
  commit_events : list commit_event;    (* cache.commit(...) *)
  locale_decode : string -> option string;
      (* bytes.decode in the encoding of the locale; None: it raises *)
  commit_frames : nat
      (* frames between the call of commit and the progress methods *)
}.

(** A progress report; the percentage is kept as a fraction. *)
Record report := Report {
  step : nat;
  percentage : Z * Z;
  pkg_size_download : option Z
}.

(** [RequirementsResult] *)
Record RequirementsResult := Result {
  result_bucket : list string;
  result_error : option string
}.

Inductive event :=
  | EAddArch (arch : string)
  | EUpdate
  | EMarkInstall (name : string)
  | EMarkUpgrade (name : string)
  | ECommit
  | ESubmit
  | EProgress (r : report)
  | EInstalled (r : RequirementsResult).

(** The handler and the part of the world it changes.  [trace] has the
    latest event first. *)
Record hstate := HState {
  cache : gmap string package;
  foreign_archs : list string;
  jre_installed_version : option string;
  jdk_installed_version : option string;
  opens : nat;                  (* calls of cache.open() so far *)
  slept : nat;                  (* seconds spent in time.sleep *)
  exchange : option string;     (* bytes of the file apt_fd names *)
  trace : list event
}.

Definition set_cache (db : gmap string package) (h : hstate) : hstate :=
  HState db (foreign_archs h) (jre_installed_version h)
    (jdk_installed_version h) (opens h) (slept h) (exchange h) (trace h).
Definition set_foreign_archs (l : list string) (h : hstate) : hstate :=
  HState (cache h) l (jre_installed_version h)
    (jdk_installed_version h) (opens h) (slept h) (exchange h) (trace h).
Definition set_jre (v : option string) (h : hstate) : hstate :=
  HState (cache h) (foreign_archs h) v
    (jdk_installed_version h) (opens h) (slept h) (exchange h) (trace h).
Definition set_jdk (v : option string) (h : hstate) : hstate :=
  HState (cache h) (foreign_archs h) (jre_installed_version h)
    v (opens h) (slept h) (exchange h) (trace h).
Definition set_opens (n : nat) (h : hstate) : hstate :=
  HState (cache h) (foreign_archs h) (jre_installed_version h)
    (jdk_installed_version h) n (slept h) (exchange h) (trace h).
Definition set_slept (n : nat) (h : hstate) : hstate :=
  HState (cache h) (foreign_archs h) (jre_installed_version h)
    (jdk_installed_version h) (opens h) n (exchange h) (trace h).
Definition set_exchange (f : option string) (h : hstate) : hstate :=
  HState (cache h) (foreign_archs h) (jre_installed_version h)
    (jdk_installed_version h) (opens h) (slept h) f (trace h).
Definition log (e : event) (h : hstate) : hstate :=
  HState (cache h) (foreign_archs h) (jre_installed_version h)
    (jdk_installed_version h) (opens h) (slept h) (exchange h) (e :: trace h).

(** [name in self.cache] *)
Definition in_cache (name : string) (h : hstate) : bool :=
  match cache h !! name with
  | Some _ => true
  | None => false
  end.

(** [name in self.cache and self.cache[name].is_installed] *)
Definition installed_in_cache (name : string) (h : hstate) : bool :=
  match cache h !! name with
  | Some p => is_installed p
  | None => false
  end.

(** [self.cache[name].is_upgradable], for a name in the cache *)
Definition upgradable_in_cache (name : string) (h : hstate) : bool :=
  match cache h !! name with
  | Some p => is_upgradable p
  | None => false
  end.

(** Subscripting [None], as [re.search(...)[1]] does without a match. *)
Definition none_subscript : exn :=
  Exn TypeError "'NoneType' object is not subscriptable".

(** A local variable read before any assignment. *)
Definition unbound_local (name : string) : exn :=
  Exn UnboundLocalError
    ("cannot access local variable '" ++ name ++
     "' where it is not associated with a value").

(** Unpacking into two names a list that has not two elements. *)
Definition unpack_error : exn :=
  Exn ValueError "too many values to unpack (expected 2)".

Section Handler.

Variable E : env.

(** ** [check_java_equiv] *)

(** [not self.jre_installed_version]: unset or empty. *)
Definition unset (v : option string) : bool :=
  match v with
  | None => true
  | Some s => String.eqb s EmptyString
  end.

(** The version text of one flavour: probed when the attribute is unset,
    stored, and then searched with the flavour's pattern.  [None] is the
    early [return False] of the missing command. *)
Definition installed_version_of
    (attr : hstate -> option string) (store : option string -> hstate -> hstate)
    (p : probe) (search : string -> option string) : M hstate (option string) :=
  let* v := gets attr in
  let* probed :=
    (if unset v then
       match p with
       | ProbeOutput out =>
           let* _ := modify (store (Some out)) in ret (Some out)
       | ProbeMissing => ret None
       | ProbeFails e => raise e
       end
     else ret v) in
  match probed with
  | None => ret None
  | Some text =>
      match search text with
      | Some g => ret (Some g)
      | None => raise none_subscript
      end
  end.

Definition check_java_equiv (pkg_name : string) : M hstate bool :=
  match Regex.search_openjdk pkg_name with
  | None => raise none_subscript
  | Some (required_version, required_release) =>
      let* installed :=
        (if String.eqb required_release "jre" then
           installed_version_of jre_installed_version set_jre
             (java_probe E) Regex.search_jre_version
         else if String.eqb required_release "jdk" then
           installed_version_of jdk_installed_version set_jdk
             (javac_probe E) Regex.search_jdk_version
         else raise (unbound_local "installed_version")) in
      match installed with
      | None => ret false
      | Some installed_version =>
          ret (PyStr.str_ge installed_version required_version)
      end
  end.

(** ** The bucket evaluators *)

(** An evaluator runs on the bucket it was given and on the handler. *)
Definition bstate : Type := list string * hstate.

Definition liftH {A} (m : M hstate A) : M bstate A :=
  fun s => let '(o, h') := m (snd s) in (o, (fst s, h')).

Definition get_bucket : M bstate (list string) := gets fst.
Definition get_handler : M bstate hstate := gets snd.
Definition modify_bucket (f : list string -> list string) : M bstate unit :=
  modify (fun s => (f (fst s), snd s)).

(** A call [self.evaluator([package])]: the evaluator runs on a list of
    its own, which is dropped when it returns. *)
Definition on_fresh {A} (evaluator : M bstate A) (l : list string)
  : M bstate A :=
  fun s => let '(o, s') := evaluator (l, snd s) in (o, (fst s, snd s')).

(** The inner loop over [pkg_name.split(' | ')]: the first alternative
    that passes [presence] replaces the alternation, at the end of the
    bucket, and becomes [pkg_name]. *)
Fixpoint resolve (presence : M bstate bool) (pkg_name : string)
    (alternatives : list string) : M bstate string :=
  match alternatives with
  | [] => ret pkg_name
  | package :: rest =>
      let* ok := on_fresh presence [package] in
      if ok then
        let* _ := modify_bucket (fun b =>
                    (PyStr.list_remove pkg_name b ++ [package])%list) in
        ret package
      else resolve presence pkg_name rest
  end.

Definition resolve_alternation (presence : M bstate bool) (pkg_name : string)
  : M bstate string :=
  if PyStr.contains " | " pkg_name
  then resolve presence pkg_name (PyStr.split_alt pkg_name)
  else ret pkg_name.

(** [(pkg_without_arch_name, arch) = pkg_name.split(":", -1)] *)
Definition unpack_arch {S} (pkg_name : string) : M S (string * string) :=
  match PyStr.split_char ":" pkg_name with
  | [pkg_without_arch_name; arch] => ret (pkg_without_arch_name, arch)
  | _ => raise unpack_error
  end.

(** The native architecture suffix is stripped before the lookup. *)
Definition strip_native_arch {S} (pkg_name : string) : M S string :=
  if PyStr.contains ":" pkg_name then
    let* pa := unpack_arch pkg_name in
    if String.eqb (snd pa) (current_arch E) then ret (fst pa)
    else ret pkg_name
  else ret pkg_name.

(** [for pkg_name in bucket]: the list iterator reads index [i] of the
    list as it is now, and stops when the index is past the end.  The body
    keeps the length of the bucket, so [n] rounds, the length at the start,
    exhaust it. *)
Fixpoint for_bucket (body : string -> bool -> M bstate bool)
    (n i : nat) (flag : bool) : M bstate bool :=
  match n with
  | O => ret flag
  | S n' =>
      let* bucket := get_bucket in
      match bucket !! i with
      | None => ret flag
      | Some pkg_name =>
          let* flag' := body pkg_name flag in
          for_bucket body n' (S i) flag'
      end
  end.

Definition for_whole_bucket (body : string -> bool -> M bstate bool)
  : M bstate bool :=
  let* bucket := get_bucket in
  for_bucket body (length bucket) 0 true.

Definition installed_body (presence : M bstate bool)
    (pkg_name : string) (is_installed : bool) : M bstate bool :=
  let* pkg_name := resolve_alternation presence pkg_name in
  let* pkg_name := strip_native_arch pkg_name in
  let* h := get_handler in
  if negb (installed_in_cache pkg_name h) then
    if PyStr.contains "openjdk" pkg_name
    then liftH (check_java_equiv pkg_name)
    else ret false
  else ret is_installed.

(** [is_bucket_installed]; [depth] bounds the nesting of the calls the
    method makes to itself. *)
Fixpoint is_bucket_installed (depth : nat) : M bstate bool :=
  match depth with
  | O => hang
  | S d => for_whole_bucket (installed_body (is_bucket_installed d))
  end.

Definition available_body (presence : M bstate bool)
    (pkg_name : string) (all_in_cache : bool) : M bstate bool :=
  let* pkg_name := resolve_alternation presence pkg_name in
  let* h := get_handler in
  if negb (in_cache pkg_name h) then
    let* skip :=
      (if PyStr.contains ":" pkg_name then
         let* pa := unpack_arch pkg_name in
         if String.eqb (snd pa) (current_arch E) && in_cache (fst pa) h
         then ret true
         else if negb (existsb (String.eqb (snd pa)) (foreign_archs h))
         then ret true
         else ret false
       else ret false) in
    if skip : bool then ret all_in_cache
    else if PyStr.contains "openjdk" pkg_name then
      let* ok := liftH (check_java_equiv pkg_name) in
      if ok : bool then ret all_in_cache else ret false
    else ret false
  else ret all_in_cache.

Fixpoint is_bucket_available (depth : nat) : M bstate bool :=
  match depth with
  | O => hang
  | S d => for_whole_bucket (available_body (is_bucket_available d))
  end.

Definition uptodate_body (presence : M bstate bool)
    (pkg_name : string) (is_installed_and_uptodate : bool) : M bstate bool :=
  let* pkg_name := resolve_alternation presence pkg_name in
  let* pkg_name := strip_native_arch pkg_name in
  let* h := get_handler in
  let flag :=
    if negb (installed_in_cache pkg_name h) then false
    else if upgradable_in_cache pkg_name h then false
    else is_installed_and_uptodate in
  if PyStr.contains "openjdk" pkg_name then
    let* ok := liftH (check_java_equiv pkg_name) in
    if ok : bool then ret true else ret flag
  else ret flag.

(** [is_bucket_uptodate]; [depth] bounds the nesting of the calls of
    [is_bucket_available] it starts. *)
Definition is_bucket_uptodate (depth : nat) : M bstate bool :=
  for_whole_bucket (uptodate_body (is_bucket_available depth)).

(** ** The install task *)

(** Modelled from the spec: [add_foreign_arch] of [umake.tools], which is
    not among the sources.  An architecture that is neither the current one
    nor enabled yet is enabled, and the call tells whether it enabled one. *)
Definition add_foreign_arch (arch : string) : M hstate bool :=
  let* h := gets id in
  if existsb (String.eqb arch) (foreign_archs h)
     || String.eqb arch (current_arch E)
  then ret false
  else
    let* _ := modify (fun h =>
                set_foreign_archs (foreign_archs h ++ [arch])%list h) in
    let* _ := modify (log (EAddArch arch)) in
    ret true.

(** The stack of the interpreter is full. *)
Definition recursion_error : exn :=
  Exn RecursionError "maximum recursion depth exceeded".

(** [_force_reload_apt_cache].  The retry is a call of the method from
    within the handler of SystemError, so every failed attempt leaves a
    frame on the stack.  [fuel] is the number of attempts the stack has
    room for where the reload is called (the recursion limit, 1000 unless
    it was changed, less the frames in use).  The call after those raises
    RecursionError, which is no SystemError and leaves through every
    frame. *)
Fixpoint _force_reload_apt_cache (fuel : nat) : M hstate unit :=
  match fuel with
  | O => raise recursion_error
  | S f =>
      let* k := gets opens in
      let* _ := modify (set_opens (S k)) in
      match cache_open E k with
      | OpenOk db => modify (set_cache db)
      | OpenBusy _ =>
          let* _ := modify (fun h => set_slept (1 + slept h) h) in
          _force_reload_apt_cache f
      | OpenFails e => raise e
      end
  end.

(** [self.cache.update()] *)
Definition update_cache : M hstate unit :=
  match cache_update E with
  | Some e => raise e
  | None => modify (log EUpdate)
  end.

(** The loop that enables the foreign architectures of the bucket.  [or]
    does not evaluate its right side once [need_cache_reload] is true. *)
Fixpoint enable_archs (bucket : list string) (need_cache_reload : bool)
  : M hstate bool :=
  match bucket with
  | [] => ret need_cache_reload
  | pkg_name :: rest =>
      if PyStr.contains ":" pkg_name then
        let arch := List.last (PyStr.split_char ":" pkg_name) EmptyString in
        let* need :=
          (if need_cache_reload then ret true else add_foreign_arch arch) in
        enable_archs rest need
      else enable_archs rest need_cache_reload
  end.

(** [except Exception as msg: raise BaseException(message)] *)
Definition wrap_mark_error {A} (pkg_name : string) (m : M hstate A)
  : M hstate A :=
  fun h =>
    match m h with
    | (Raise e, h') =>
        if is_Exception e
        then (Raise (Exn BaseException
                       ("Can't mark for install " ++ pkg_name ++ ": "
                        ++ exn_msg e)), h')
        else (Raise e, h')
    | r => r
    end.

Definition mark_one (pkg_name : string) : M hstate unit :=
  let* pkg_name := strip_native_arch pkg_name in
  wrap_mark_error pkg_name
    (let* h := gets id in
     match cache h !! pkg_name with
     | None => raise (Exn KeyError (key_error E pkg_name))
     | Some pkg =>
         match mark_raises E pkg_name with
         | Some e => raise e
         | None =>
             if is_installed pkg && is_upgradable pkg
             then modify (log (EMarkUpgrade pkg_name))
             else modify (log (EMarkInstall pkg_name))
         end
     end).

Fixpoint mark_all (bucket : list string) : M hstate unit :=
  match bucket with
  | [] => ret tt
  | pkg_name :: rest => let* _ := mark_one pkg_name in mark_all rest
  end.

Definition STATUS_DOWNLOADING : nat := 0.
Definition STATUS_INSTALLING : nat := 1.

(** One thing apt does during [commit], through [_FetchProgress] and
    [_InstallProgress].  The progress methods run [commit_frames] frames
    deeper than the task, with that much less room for the reload. *)
Definition commit_step (fuel : nat) (ev : commit_event) : M hstate unit :=
  match ev with
  | CPulse current_bytes current_items total_bytes total_items =>
      if (total_bytes + total_items =? 0)%Z
      then raise (Exn ZeroDivisionError "float division by zero")
      else modify (log (EProgress
             (Report STATUS_DOWNLOADING
                ((current_bytes + current_items) * 100,
                 total_bytes + total_items)%Z
                (Some total_bytes))))
  | CStatus percent =>
      modify (log (EProgress (Report STATUS_INSTALLING (percent, 1%Z) None)))
  | CWrite txt =>
      modify (fun h =>
        set_exchange (option_map (fun c => c ++ txt) (exchange h)) h)
  | CError msg =>
      let* _ := _force_reload_apt_cache (fuel - commit_frames E) in
      raise (Exn BaseException msg)
  | CFinish => _force_reload_apt_cache (fuel - commit_frames E)
  | CRaise e => raise e
  end.

Fixpoint run_commit (fuel : nat) (evs : list commit_event) : M hstate unit :=
  match evs with
  | [] => ret tt
  | ev :: rest => let* _ := commit_step fuel ev in run_commit fuel rest
  end.

(** [self.cache.commit(...)] *)
Definition commit (fuel : nat) : M hstate unit :=
  let* _ := modify (log ECommit) in
  run_commit fuel (commit_events E).

(** [_really_install_bucket] up to the commit: the exchange file is made,
    the bucket is evaluated again, the foreign architectures are enabled
    and the packages are marked.  The value tells whether anything was
    staged: False is the early [return True] of a bucket that is up to
    date. *)
Definition stage_bucket (fuel depth : nat) : M bstate bool :=
  let* _ := liftH (modify (set_exchange (Some EmptyString))) in
  let* uptodate := is_bucket_uptodate depth in
  if uptodate : bool then ret false
  else
    let* bucket := get_bucket in
    let* need_cache_reload := liftH (enable_archs bucket false) in
    let* _ :=
      (if need_cache_reload : bool then
         liftH (let* _ := _force_reload_apt_cache fuel in
                let* _ := update_cache in
                _force_reload_apt_cache fuel)
       else ret tt) in
    let* _ := liftH (mark_all bucket) in
    ret true.

Definition _really_install_bucket (fuel depth : nat) : M bstate bool :=
  let* staged := stage_bucket fuel depth in
  if staged : bool then
    let* _ := liftH (commit fuel) in
    ret true
  else ret true.

(** ** Submission and completion *)

Definition subprocess_output : string :=
  String PyStr.newline "Subprocess output: ".

Definition unicode_decode_error : exn :=
  Exn UnicodeDecodeError "codec can't decode bytes".

(** [f.read()] on a file opened by [open(name)]: text mode, the encoding
    of the locale, universal newlines.  An empty file reads as the empty
    text under every codec. *)
Definition read_text (content : string) : option string :=
  if String.eqb content EmptyString then Some EmptyString
  else option_map PyStr.universal_newlines (locale_decode E content).

(** [_on_done], called with what the future holds.  The exchange file is
    read only when the task raised.  Of what the read can raise only
    FileNotFoundError is suppressed: a decoding error leaves [_on_done]
    before the file is removed and before the callback is called. *)
Definition _on_done (task : outcome bool) : M bstate unit :=
  let* bucket := get_bucket in
  let* h := get_handler in
  let* error :=
    match task with
    | Raise e =>
        match exchange h with
        | Some content =>
            match read_text content with
            | Some subprocess_content =>
                if String.eqb subprocess_content EmptyString
                then ret (Some (exn_msg e))
                else ret (Some (exn_msg e ++ subprocess_output
                                ++ subprocess_content))
            | None => raise unicode_decode_error
            end
        | None => ret (Some (exn_msg e))  (* FileNotFoundError suppressed *)
        end
    | _ => ret None
    end in
  match exchange h with
  | None => raise (Exn FileNotFoundError "No such file or directory")
  | Some _ =>
      let* _ := liftH (modify (set_exchange None)) in
      liftH (modify (log (EInstalled (Result bucket error))))
  end.

(** [install_bucket], up to its return: the bucket is evaluated on the
    caller's thread and the task is handed to the executor. *)
Definition install_bucket (depth : nat) : M bstate bool :=
  let* uptodate := is_bucket_uptodate depth in
  let* _ := liftH (modify (log ESubmit)) in
  ret (negb uptodate).

(** The executor's worker on one submitted task: the task runs, the future
    keeps what it returned or raised, and the done callback is called.  An
    [Exception] out of a done callback is logged by the futures module and
    dropped. *)
Definition run_task (fuel depth : nat) : M bstate unit :=
  fun s =>
    match _really_install_bucket fuel depth s with
    | (Hang, s') => (Hang, s')
    | (task, s') =>
        match _on_done task s' with
        | (Raise e, s'') =>
            if is_Exception e then (Ret tt, s'') else (Raise e, s'')
        | r => r
        end
    end.

(** A call of [install_bucket] followed by the worker running its task. *)
Definition install_bucket_and_run (fuel depth : nat) : M bstate bool :=
  let* pkg_to_install := install_bucket depth in
  let* _ := run_task fuel depth in
  ret pkg_to_install.

End Handler.

(** Calls of the completion callback, and operations that change the
    package database, in a trace. *)
Definition is_installed_event (e : event) : bool :=
  match e with EInstalled _ => true | _ => false end.

Definition is_mutating_event (e : event) : bool :=
  match e with
  | EAddArch _ | EUpdate | EMarkInstall _ | EMarkUpgrade _ | ECommit => true
  | _ => false
  end.

Definition callbacks (t : list event) : list event :=
  List.filter is_installed_event t.
Definition mutations (t : list event) : list event :=
  List.filter is_mutating_event t.

(** ** The comparison of versions the specification describes *)

Module Spec.

(** The number a run of decimal digits writes. *)
Definition number_of (s : string) : N :=
  fold_left (fun acc c => (acc * 10 + (N_of_ascii c - 48))%N)
    (list_ascii_of_string s) 0%N.

(** The numeric components of a dotted version. *)
Definition components (v : string) : list N :=
  List.map number_of (PyStr.split_char "." v).

(** Component by component, the first difference decides; a version that
    runs out first is the smaller one. *)
Fixpoint components_ge (a b : list N) : bool :=
  match a, b with
  | _, [] => true
  | [], _ :: _ => false
  | x :: a', y :: b' =>
      if (x <? y)%N then false
      else if (y <? x)%N then true
      else components_ge a' b'
  end.

(** installed >= required, as the specification words it: numerically,
    component by component. *)
Definition version_ge (installed required : string) : bool :=
  components_ge (components installed) (components required).

End Spec.

(** ** Worlds used in the examples *)

Module Examples.

(** The first line [java -version] prints for version [v]. *)
Definition java_output (v : string) : string :=
  "openjdk version " ++ String PyStr.dquote v
  ++ String PyStr.dquote " 2019-01-15".

Definition no_db : gmap string package := ∅.

(** The ASCII codec, the encoding of the C locale: a byte of 128 or more
    cannot be decoded. *)
Definition ascii_codec (content : string) : option string :=
  if PyStr.is_ascii_text content then Some content else None.

(** A host of architecture [arch] where [java -version] does [java], there
    is no [javac], the package database opens at once and commit does
    [evs]. *)
Definition host (arch : string) (java : probe) (evs : list commit_event)
  : env :=
  Env arch java ProbeMissing (fun _ => OpenOk no_db) None
    (fun name => name) (fun _ => None) evs ascii_codec 0.

(** A handler that was just created over the database [db]. *)
Definition handler (db : gmap string package) : hstate :=
  HState db [] None None 0 0 None [].

Definition installed_pkg : package := Package true false.

(** openjdk-11-doc is installed and has no newer version. *)
Definition doc_db : gmap string package :=
  {[ "openjdk-11-doc" := installed_pkg ]}.

(** A 64-bit host with java 11.0.2 and no foreign architecture. *)
Definition amd64 : env :=
  host "amd64" (ProbeOutput (java_output "11.0.2")) [].

(** The same host with java 17.0.1. *)
Definition amd64_java17 : env :=
  host "amd64" (ProbeOutput (java_output "17.0.1")) [].

(** A host where another process holds the lock of the package database
    for good: every [cache.open()] raises SystemError. *)
Definition locked : env :=
  Env "amd64" ProbeMissing ProbeMissing
    (fun _ => OpenBusy "E:Could not get lock /var/lib/dpkg/lock")
    None (fun name => name) (fun _ => None) [] ascii_codec 0.

(** Only b is installed. *)
Definition only_b : gmap string package := {[ "b" := installed_pkg ]}.

(** foo can be installed; dpkg fails while it is unpacked. *)
Definition foo_db : gmap string package := {[ "foo" := Package false false ]}.

Definition dpkg_fails : env :=
  host "amd64" ProbeMissing
    [CWrite "dpkg: error processing archive foo.deb";
     CRaise (Exn SystemError
               "E:Sub-process /usr/bin/dpkg returned an error code (1)")].

Definition dpkg_error : exn :=
  Exn SystemError "E:Sub-process /usr/bin/dpkg returned an error code (1)".

(** dpkg draws its progress line again after a carriage return, and then
    fails. *)
Definition progress_line : string :=
  "Unpacking foo" ++ String PyStr.carriage_return "Setting up foo".

Definition dpkg_fails_after_progress : env :=
  host "amd64" ProbeMissing [CWrite progress_line; CRaise dpkg_error].

(** The child writes a message in Latin-1, with a byte that is no text in
    ASCII, nor in UTF-8 before a letter, and then dpkg fails. *)
Definition garbled : string := "dpkg: " ++ String "233"%char "chec".

Definition dpkg_fails_garbled : env :=
  host "amd64" ProbeMissing [CWrite garbled; CRaise dpkg_error].


(** The package database is locked for two attempts and then cannot be
    read at all. *)
Definition permission_denied : exn := Exn OtherException "Permission denied".

Definition locked_then_denied : env :=
  Env "amd64" ProbeMissing ProbeMissing
    (fun k => if Nat.ltb k 2 then OpenBusy "locked"
              else OpenFails permission_denied)
    None (fun name => name) (fun _ => None) [] ascii_codec 0.

End Examples.

(** ** States of the reload loop *)

Definition is_busy (r : open_result) : bool :=
  match r with OpenBusy _ => true | _ => false end.

(** The handler after [k] failed attempts to open the cache: [k] more calls
    of [cache.open()], [k] more seconds slept. *)
Definition retrying (k : nat) (h : hstate) : hstate :=
  HState (cache h) (foreign_archs h) (jre_installed_version h)
    (jdk_installed_version h) (k + opens h) (k + slept h) (exchange h)
    (trace h).

(** The handler after [k] failed attempts and one that read [db]. *)
Definition reloaded (k : nat) (db : gmap string package) (h : hstate)
  : hstate :=
  HState db (foreign_archs h) (jre_installed_version h)
    (jdk_installed_version h) (S (k + opens h)) (k + slept h) (exchange h)
    (trace h).

(** The first [k] calls of [cache.open()] from [h] on raise SystemError. *)
Definition busy_until (E : env) (h : hstate) (k : nat) : Prop :=
  forall j, j < k -> is_busy (cache_open E (j + opens h)) = true.

(** ** Specifiers *)

(** The name a specifier is looked up under once the native architecture
    is stripped; [None] when the unpacking of the split raises. *)
Definition looked_up (E : env) (pkg_name : string) : option string :=
  if PyStr.contains ":" pkg_name then
    match PyStr.split_char ":" pkg_name with
    | [pkg_without_arch_name; arch] =>
        Some (if String.eqb arch (current_arch E)
              then pkg_without_arch_name else pkg_name)
    | _ => None
    end
  else Some pkg_name.

(** A package name: no space, no colon, and outside the openjdk rule. *)
Definition is_name (s : string) : bool :=
  negb (PyStr.contains " " s) && negb (PyStr.contains ":" s)
  && negb (PyStr.contains "openjdk" s).

(** The alternation of two specifiers. *)
Definition alternation (a b : string) : string := a ++ " | " ++ b.


(** A bare or architecture-qualified specifier outside the openjdk rule. *)
Definition is_simple (E : env) (pkg_name : string) : bool :=
  negb (PyStr.contains " | " pkg_name) &&
  match looked_up E pkg_name with
  | Some name => negb (PyStr.contains "openjdk" name)
  | None => false
  end.

(** Installed and not upgradable, under the looked-up name. *)
Definition is_current (E : env) (h : hstate) (pkg_name : string) : bool :=
  match looked_up E pkg_name with
  | Some name => installed_in_cache name h && negb (upgradable_in_cache name h)
  | None => false
  end.

(** ** Text inside a text *)

(** [a] occurs in [b]. *)
Definition occurs_in (a b : string) : Prop :=
  exists before after, b = before ++ a ++ after.

(** ** Relations between the states before and after a call *)

(** Nothing but the two cached version texts has changed. *)
Definition same_world (h h' : hstate) : Prop :=
  cache h' = cache h /\ foreign_archs h' = foreign_archs h /\
  opens h' = opens h /\ slept h' = slept h /\
  exchange h' = exchange h /\ trace h' = trace h.

(** No completion callback was called, and the exchange file, if there was
    one, is still there. *)
Definition quiet (h h' : hstate) : Prop :=
  callbacks (trace h') = callbacks (trace h) /\
  (is_Some (exchange h) -> is_Some (exchange h')).

(** Every run of [m] relates the state it starts in to the state it ends
    in, whatever the outcome. *)
Definition keeps {S A} (R : S -> S -> Prop) (m : M S A) : Prop :=
  forall s o s', m s = (o, s') -> R s s'.

Definition on_handler (R : hstate -> hstate -> Prop) (s s' : bstate) : Prop :=
  R (snd s) (snd s').

(** ** The result the completion callback gets *)

(** The [error] field for a finished task and the text read from the
    exchange file. *)
Definition error_text (task : outcome bool) (content : string)
  : option string :=
  match task with
  | Raise e =>
      Some (if String.eqb content EmptyString then exn_msg e
            else exn_msg e ++ subprocess_output ++ content)
  | _ => None
  end.

(** The state in which the completion callback returns: the exchange file
    is gone and the call is in the trace. *)
Definition called_back (task : outcome bool) (content : string)
    (bucket : list string) (h : hstate) : hstate :=
  log (EInstalled (Result bucket (error_text task content)))
    (set_exchange None h).

(** An architecture-qualified specifier. *)
Definition qualified (name arch : string) : string := name ++ ":" ++ arch.

(** What a caller sees of an evaluation: the outcome and the handler. *)
Definition seen {A} (r : outcome A * bstate) : outcome A * hstate :=
  (fst r, snd (snd r)).

(** ** Calls that come to an end *)

(** [m] returns or raises from every state: the bound of the model is
    never what stops it. *)
Definition finishes {S A} (m : M S A) : Prop :=
  forall s, fst (m s) <> Hang.

(** The presence test comes to an end on every bucket of one specifier
    that is no alternation. *)
Definition ends_on_pieces (presence : M bstate bool) : Prop :=
  forall p h, PyStr.contains " | " p = false ->
    fst (presence ([p], h)) <> Hang.

(** Two presence tests that agree on specifiers that are no alternation. *)
Definition agree_on_pieces (P Q : M bstate bool) : Prop :=
  forall p h, PyStr.contains " | " p = false -> P ([p], h) = Q ([p], h).

(** The bucket has as many elements after as before. *)
Definition same_length (s s' : bstate) : Prop :=
  length (fst s') = length (fst s).

(** ** What the evaluators decide on one specifier *)

(** Installed, under the looked-up name. *)
Definition is_present (E : env) (h : hstate) (pkg_name : string) : bool :=
  match looked_up E pkg_name with
  | Some name => installed_in_cache name h
  | None => false
  end.

(** No alternation, no "openjdk", and a split that unpacks. *)
Definition is_plain (E : env) (pkg_name : string) : bool :=
  negb (PyStr.contains " | " pkg_name)
  && negb (PyStr.contains "openjdk" pkg_name)
  && match looked_up E pkg_name with Some _ => true | None => false end.

(** In the cache as it is written, or qualified with the current
    architecture and in the cache under the bare name, or qualified with an
    architecture that is not enabled. *)
Definition is_reachable (E : env) (h : hstate) (pkg_name : string) : bool :=
  in_cache pkg_name h ||
  (PyStr.contains ":" pkg_name &&
   match PyStr.split_char ":" pkg_name with
   | [pkg_without_arch_name; arch] =>
       String.eqb arch (current_arch E) && in_cache pkg_without_arch_name h
       || negb (existsb (String.eqb arch) (foreign_archs h))
   | _ => false
   end).

(** Every character is a decimal digit. *)
Fixpoint all_digits (s : string) : bool :=
  match s with
  | EmptyString => true
  | String c rest => PyStr.is_digit c && all_digits rest
  end.

(** The value of a decimal digit. *)
Definition digit_of (c : ascii) : N := (N_of_ascii c - 48)%N.

(** ** Marking *)

(** The package of the specifier is in the cache and marking it does not
    raise. *)
Definition markable (E : env) (h : hstate) (pkg_name : string) : bool :=
  match looked_up E pkg_name with
  | Some name =>
      match cache h !! name, mark_raises E name with
      | Some _, None => true
      | _, _ => false
      end
  | None => false
  end.

(** What marking the specifier adds to the trace. *)
Definition mark_event_of (E : env) (h : hstate) (pkg_name : string) : event :=
  match looked_up E pkg_name with
  | Some name =>
      match cache h !! name with
      | Some pkg =>
          if is_installed pkg && is_upgradable pkg
          then EMarkUpgrade name else EMarkInstall name
      | None => EMarkInstall name
      end
  | None => EMarkInstall pkg_name
  end.

(** The handler after [k] failed attempts to open the cache and one more
    attempt that raised something else. *)
Definition reload_failed (k : nat) (h : hstate) : hstate :=
  HState (cache h) (foreign_archs h) (jre_installed_version h)
    (jdk_installed_version h) (S (k + opens h)) (k + slept h) (exchange h)
    (trace h).

Definition is_commit_event (e : event) : bool :=
  match e with ECommit => true | _ => false end.

(** The events of the trace that satisfy [p] are the same before and
    after. *)
Definition trace_kept (p : event -> bool) (h h' : hstate) : Prop :=
  List.filter p (trace h') = List.filter p (trace h).

(** [p] holds of none of the events the staging of a bucket logs. *)
Definition not_staging (p : event -> bool) : Prop :=
  (forall arch, p (EAddArch arch) = false) /\ p EUpdate = false /\
  (forall name, p (EMarkInstall name) = false) /\
  (forall name, p (EMarkUpgrade name) = false).

(** ** [setup.py]: [get_requirements] *)

Module Setup.

(** A comment or an empty line: [line.startswith("#") or line == ""]. *)
Definition is_tag_line (line : string) : bool :=
  String.prefix "#" line || String.eqb line EmptyString.

(** The loop over the lines of requirements.txt, from the value
    [tag_detected] has when the loop gets to [lines]. *)
Fixpoint gather (tag_to_detect : string) (lines : list string)
    (tag_detected : bool) : list string :=
  match lines with
  | [] => []
  | line :: rest =>
      if is_tag_line line
      then gather tag_to_detect rest (String.prefix tag_to_detect line)
      else if tag_detected
           then line :: gather tag_to_detect rest tag_detected
           else gather tag_to_detect rest tag_detected
  end.

(** [get_requirements(tag_to_detect)] on a requirements.txt that has the
    lines [lines]. *)
Definition get_requirements (tag_to_detect : string) (lines : list string)
  : list string :=
  gather tag_to_detect lines false.

End Setup.

(** ** [umake/frameworks]: download links and the release of the host *)

Module Frameworks.

(** The loop of the json parsers: every asset that matches overwrites
    [url] and sets [in_download]. *)
Definition keep_matching (matches : string -> bool)
    (state : option string * bool) (link : string) : option string * bool :=
  if matches link then (Some link, true) else state.

(** [AdoptOpenJDK.parse_download_link]; [line] is the list of assets,
    each given by its [asset["binary"]["package"]["link"]]. *)
Definition adoptopenjdk_parse_download_link (line : list string)
    (in_download : bool) : option string * bool :=
  fold_left (keep_matching (PyStr.contains "jdk_x64_linux")) line
    (None, in_download).

(** [Fritzing.ubuntu_version], from what [get_current_distro_version()]
    gives. *)
Definition ubuntu_version (distro_version : string) : string :=
  if String.ltb (hd EmptyString (PyStr.split_char "." distro_version)) "18"
  then "xenial" else "bionic".

(** [Fritzing.parse_download_link]; [assets] is [line["assets"]], each
    asset given by its [browser_download_url]. *)
Definition fritzing_parse_download_link (distro_version : string)
    (assets : list string) (in_download : bool) : option string * bool :=
  fold_left
    (keep_matching (fun url =>
       PyStr.contains (ubuntu_version distro_version
                       ++ ".linux.AMD64.tar.bz2") url
       && negb (PyStr.contains ".md5" url)))
    assets (None, in_download).

End Frameworks.

(** An event of [commit] that reports progress or output and raises
    nothing. *)
Definition is_progress (ev : commit_event) : bool :=
  match ev with
  | CPulse _ _ total_bytes total_items =>
      negb (total_bytes + total_items =? 0)%Z
  | CStatus _ | CWrite _ => true
  | CError _ | CFinish | CRaise _ => false
  end.

(** ** Reading the exchange file *)

(** The text [_on_done] reads from the exchange file of [h]: [None] when
    the file is not there or its bytes cannot be decoded. *)
Definition exchange_text (E : env) (h : hstate) : option string :=
  match exchange h with
  | Some content => read_text E content
  | None => None
  end.

(** The exchange file is there or not, with the same bytes, before and
    after. *)
Definition file_kept (h h' : hstate) : Prop := exchange h' = exchange h.

(** * Properties *)

(** Unfolds the monad so that a run can be rewritten step by step. *)
Ltac munfold :=
  unfold for_whole_bucket, for_bucket, get_bucket, get_handler,
    modify_bucket, liftH, on_fresh, bind, ret, raise, hang, gets, modify in *.

Section JavaPartial.

Variable E : env.

Lemma check_java_equiv_no_match pkg_name h :
  Regex.search_openjdk pkg_name = None ->
  check_java_equiv E pkg_name h = (Raise none_subscript, h).
Proof. intros Hnone. unfold check_java_equiv. now rewrite Hnone. Qed.

Lemma resolve_alternation_plain presence pkg_name (s : bstate) :
  PyStr.contains " | " pkg_name = false ->
  resolve_alternation presence pkg_name s = (Ret pkg_name, s).
Proof. intros H. unfold resolve_alternation. now rewrite H. Qed.

Lemma strip_native_arch_plain {S} pkg_name (s : S) :
  PyStr.contains ":" pkg_name = false ->
  strip_native_arch E pkg_name s = (Ret pkg_name, s).
Proof. intros H. unfold strip_native_arch. now rewrite H. Qed.

End JavaPartial.

(** C9: [check_java_equiv] raises TypeError on every name that contains
    "openjdk" and that the openjdk pattern does not match, where a boolean
    was to be returned.  The three evaluators raise with it on a bucket
    holding such a name (taken here without alternation or colon):
    [is_bucket_installed] when the name is not installed,
    [is_bucket_available] when it is not in the cache, and
    [is_bucket_uptodate] in every case. *)
Theorem check_java_equiv_partial (E : env) (pkg_name : string) (h : hstate)
    (d : nat) :
  PyStr.contains "openjdk" pkg_name = true ->
  Regex.search_openjdk pkg_name = None ->
  check_java_equiv E pkg_name h = (Raise none_subscript, h) /\
  (PyStr.contains " | " pkg_name = false ->
   PyStr.contains ":" pkg_name = false ->
   (installed_in_cache pkg_name h = false ->
    is_bucket_installed E (S d) ([pkg_name], h)
    = (Raise none_subscript, ([pkg_name], h))) /\
   (in_cache pkg_name h = false ->
    is_bucket_available E (S d) ([pkg_name], h)
    = (Raise none_subscript, ([pkg_name], h))) /\
   is_bucket_uptodate E d ([pkg_name], h)
   = (Raise none_subscript, ([pkg_name], h))).
Proof.
  intros Hjdk Hnone.
  pose proof (check_java_equiv_no_match E pkg_name h Hnone) as Hraise.
  split; [exact Hraise|]. intros Halt Hcolon.
  split; [|split].
  - intros Hinst. cbn [is_bucket_installed]. munfold. cbn.
    unfold installed_body. munfold.
    rewrite resolve_alternation_plain by assumption.
    rewrite strip_native_arch_plain by assumption.
    cbn. rewrite Hinst. cbn. rewrite Hjdk. cbn. rewrite Hraise. reflexivity.
  - intros Hin. cbn [is_bucket_available]. munfold. cbn.
    unfold available_body. munfold.
    rewrite resolve_alternation_plain by assumption.
    cbn. rewrite Hin. cbn. rewrite Hcolon, Hjdk. cbn. rewrite Hraise.
    reflexivity.
  - unfold is_bucket_uptodate. munfold. cbn.
    unfold uptodate_body. munfold.
    rewrite resolve_alternation_plain by assumption.
    rewrite strip_native_arch_plain by assumption.
    cbn. rewrite Hjdk. cbn. rewrite Hraise. reflexivity.
Qed.

(** ** C6: the comparison in [check_java_equiv] *)

(** For the jre flavour, with the version not probed yet: what the method
    returns is the comparison of the two texts as [str]. *)
Lemma check_java_equiv_jre (E : env) pkg_name h required out v :
  Regex.search_openjdk pkg_name = Some (required, "jre") ->
  jre_installed_version h = None ->
  java_probe E = ProbeOutput out ->
  Regex.search_jre_version out = Some v ->
  check_java_equiv E pkg_name h
  = (Ret (PyStr.str_ge v required), set_jre (Some out) h).
Proof.
  intros Hreq Hjre Hprobe Hv. unfold check_java_equiv, installed_version_of.
  rewrite Hreq. cbn. munfold. rewrite Hjre, Hprobe. cbn. now rewrite Hv.
Qed.

(** C6, at the failing input: java 11.0.2 is installed and openjdk-9-jre
    is required.  [check_java_equiv] compares the texts "11.0.2" and "9" and
    answers False, where the numeric comparison of the specification says
    that 11.0.2 is at least 9. *)
Theorem check_java_equiv_11_against_9 :
  let E := Examples.host "amd64"
             (ProbeOutput (Examples.java_output "11.0.2")) [] in
  let h := Examples.handler Examples.no_db in
  check_java_equiv E "openjdk-9-jre" h
  = (Ret false, set_jre (Some (Examples.java_output "11.0.2")) h)
  /\ Spec.version_ge "11.0.2" "9" = true.
Proof. split; reflexivity. Qed.

(** ** C8: the reload loop *)

Section Reload.

Variable E : env.

Lemma retrying_0 h : retrying 0 h = h.
Proof. now destruct h. Qed.

Lemma reload_busy_step fuel h :
  is_busy (cache_open E (opens h)) = true ->
  _force_reload_apt_cache E (S fuel) h
  = _force_reload_apt_cache E fuel (retrying 1 h).
Proof.
  intros Hbusy. cbn [_force_reload_apt_cache]. munfold.
  destruct (cache_open E (opens h)); try discriminate. reflexivity.
Qed.

Lemma busy_until_shift h k :
  busy_until E h (S k) -> busy_until E (retrying 1 h) k.
Proof.
  intros Hb j Hj. cbn. replace (j + S (opens h)) with (S j + opens h) by lia.
  apply Hb. lia.
Qed.

Lemma retrying_retrying k h : retrying k (retrying 1 h) = retrying (S k) h.
Proof. unfold retrying. cbn. f_equal; lia. Qed.

(** [k] busy attempts cost [k] frames of the stack, [k] calls and [k]
    seconds. *)
Lemma reload_busy_prefix k : forall fuel h,
  busy_until E h k ->
  _force_reload_apt_cache E (k + fuel) h
  = _force_reload_apt_cache E fuel (retrying k h).
Proof.
  induction k as [|k IH]; intros fuel h Hb.
  - now rewrite retrying_0.
  - cbn [Nat.add]. rewrite reload_busy_step by (apply (Hb 0); lia).
    rewrite IH by now apply busy_until_shift.
    now rewrite retrying_retrying.
Qed.

Lemma reload_opens k db fuel h :
  busy_until E h k ->
  cache_open E (k + opens h) = OpenOk db ->
  k < fuel ->
  _force_reload_apt_cache E fuel h = (Ret tt, reloaded k db h).
Proof.
  intros Hb Hok Hlt.
  replace fuel with (k + S (fuel - S k)) by lia.
  rewrite reload_busy_prefix by assumption.
  cbn [_force_reload_apt_cache]. munfold. cbn. now rewrite Hok.
Qed.

Lemma reload_never_opens n h :
  busy_until E h n ->
  _force_reload_apt_cache E n h = (Raise recursion_error, retrying n h).
Proof.
  intros Hb. replace n with (n + 0) at 1 by lia.
  now rewrite reload_busy_prefix.
Qed.

Lemma reloaded_retrying k db h :
  reloaded k db (retrying 1 h) = reloaded (S k) db h.
Proof. unfold reloaded, retrying. cbn. f_equal; lia. Qed.

Lemma reload_returns_inv fuel : forall h h',
  _force_reload_apt_cache E fuel h = (Ret tt, h') ->
  exists k db,
    k < fuel /\ busy_until E h k /\ cache_open E (k + opens h) = OpenOk db
    /\ h' = reloaded k db h.
Proof.
  induction fuel as [|fuel IH]; intros h h' Hrun; [discriminate|].
  destruct (cache_open E (opens h)) as [db|msg|e] eqn:Hopen.
  - exists 0, db. split; [lia|]. split; [intros j Hj; lia|].
    split; [exact Hopen|].
    cbn [_force_reload_apt_cache] in Hrun. munfold.
    rewrite Hopen in Hrun. injection Hrun as <-. now destruct h.
  - rewrite reload_busy_step in Hrun by now rewrite Hopen.
    destruct (IH _ _ Hrun) as (k & db & Hlt & Hb & Hok & ->).
    exists (S k), db. split; [lia|]. split; [|split].
    + intros [|j] Hj; [cbn; now rewrite Hopen|].
      specialize (Hb j ltac:(lia)). cbn in Hb.
      now replace (S j + opens h) with (j + S (opens h)) by lia.
    + cbn in Hok. now replace (S k + opens h) with (k + S (opens h)) by lia.
    + apply reloaded_retrying.
  - cbn [_force_reload_apt_cache] in Hrun. munfold.
    rewrite Hopen in Hrun. discriminate.
Qed.

End Reload.

(** C8: each time [cache.open()] raises SystemError the reload sleeps one
    second and tries again, but not without a bound: the retry is a call of
    the reload from within itself, and the stack has room for [fuel]
    attempts.  After [k] such failures and a success, with [k] below
    [fuel], it has returned, having slept [k] seconds.  After [fuel]
    failures in a row it has slept [fuel] seconds and raises
    RecursionError, whatever the next attempt would have done.  It returns
    exactly when an attempt the stack has room for succeeds after failures
    of that kind only. *)
Theorem force_reload_stops_at_recursion_limit (E : env) (h : hstate) :
  (forall k db fuel,
     busy_until E h k -> cache_open E (k + opens h) = OpenOk db -> k < fuel ->
     _force_reload_apt_cache E fuel h = (Ret tt, reloaded k db h)) /\
  (forall fuel,
     busy_until E h fuel ->
     _force_reload_apt_cache E fuel h
     = (Raise recursion_error, retrying fuel h)) /\
  (forall fuel h',
     _force_reload_apt_cache E fuel h = (Ret tt, h') <->
     exists k db,
       k < fuel /\ busy_until E h k /\
       cache_open E (k + opens h) = OpenOk db /\ h' = reloaded k db h).
Proof.
  split; [|split].
  - intros k db fuel. apply reload_opens.
  - intros fuel. apply reload_never_opens.
  - intros fuel h'. split.
    + apply reload_returns_inv.
    + intros (k & db & Hlt & Hb & Hok & ->). now apply reload_opens.
Qed.

(** ** Strings *)

Section Strings.
Import PyStr.

Lemma append_cons c s t : String c s ++ t = String c (s ++ t).
Proof. reflexivity. Qed.

Lemma append_empty t : EmptyString ++ t = t.
Proof. reflexivity. Qed.

Lemma prefix_cons a b s t :
  String.prefix (String a s) (String b t)
  = Ascii.eqb a b && String.prefix s t.
Proof.
  cbn. destruct (ascii_dec a b) as [->|Hne].
  - now rewrite Ascii.eqb_refl.
  - apply Ascii.eqb_neq in Hne. now rewrite Hne.
Qed.

Lemma prefix_app s t : String.prefix s (s ++ t) = true.
Proof.
  induction s as [|c s IH]; [now destruct t|].
  rewrite append_cons. now rewrite prefix_cons, Ascii.eqb_refl.
Qed.

Lemma contains_cons sub c s :
  contains sub (String c s) = String.prefix sub (String c s) || contains sub s.
Proof. reflexivity. Qed.

Lemma contains_app sub a b : contains sub (a ++ sub ++ b) = true.
Proof.
  induction a as [|c a IH].
  - rewrite append_empty. pose proof (prefix_app sub b) as Hp.
    destruct (sub ++ b) eqn:Heq.
    + change (contains sub EmptyString)
        with (String.prefix sub EmptyString || false).
      now rewrite Hp.
    + rewrite contains_cons, Hp. reflexivity.
  - rewrite append_cons, contains_cons, IH. apply orb_true_r.
Qed.

Lemma contains_space_cons c s :
  contains " " (String c s) = Ascii.eqb " " c || contains " " s.
Proof.
  rewrite contains_cons, prefix_cons. now destruct s, (Ascii.eqb " " c).
Qed.

(** Without a space there is no separator. *)
Lemma no_space_no_alt s : contains " " s = false -> contains " | " s = false.
Proof.
  induction s as [|c s IH]; [reflexivity|].
  rewrite contains_space_cons. intros [Hc Hs]%orb_false_elim.
  rewrite contains_cons, prefix_cons, Hc, (IH Hs). reflexivity.
Qed.

Lemma split_alt_none s : contains " | " s = false -> split_alt s = [s].
Proof.
  induction s as [|c s IH]; [reflexivity|].
  rewrite contains_cons. intros [Hp Hs]%orb_false_elim.
  specialize (IH Hs). cbn [split_alt].
  destruct s as [|c2 [|c3 s']]; [reflexivity| now rewrite IH |].
  rewrite !prefix_cons in Hp.
  replace (String.prefix EmptyString s') with true in Hp by now destruct s'.
  rewrite andb_true_r in Hp.
  rewrite (Ascii.eqb_sym c), (Ascii.eqb_sym c2), (Ascii.eqb_sym c3).
  rewrite <- andb_assoc, Hp. now rewrite IH.
Qed.

Lemma split_alt_alternation a b :
  contains " " a = false ->
  split_alt (alternation a b) = a :: split_alt b.
Proof.
  unfold alternation. induction a as [|c a IH]; intros Ha; [reflexivity|].
  rewrite contains_space_cons in Ha.
  apply orb_false_elim in Ha as [Hc Ha]. specialize (IH Ha).
  rewrite Ascii.eqb_sym in Hc.
  rewrite append_cons. cbn [split_alt].
  destruct a as [|c2 [|c3 a']];
    rewrite ?append_cons, ?append_empty in *;
    change (" | " ++ b) with (String " " (String "|" (String " " b))) in *;
    rewrite Hc; cbn [andb]; rewrite IH; reflexivity.
Qed.


End Strings.

(** ** Evaluating specifiers that are no alternation *)

Section Simple.

Variable E : env.

Lemma strip_native_arch_spec {S} pkg_name (s : S) :
  strip_native_arch E pkg_name s
  = match looked_up E pkg_name with
    | Some name => (Ret name, s)
    | None => (Raise unpack_error, s)
    end.
Proof.
  unfold strip_native_arch, looked_up, unpack_arch.
  destruct (PyStr.contains ":" pkg_name); [|reflexivity].
  destruct (PyStr.split_char ":" pkg_name) as [|a [|b [|c l]]]; try reflexivity.
  munfold. cbn. now destruct (String.eqb b (current_arch E)).
Qed.

(** A body that leaves bucket and handler alone turns the loop into a fold
    over the part of the bucket that is still ahead. *)
Lemma for_bucket_pure body (f : string -> bool -> bool) bucket h :
  (forall p fl, p ∈ bucket ->
     body p fl (bucket, h) = (Ret (f p fl), (bucket, h))) ->
  forall n i fl,
    for_bucket body n i fl (bucket, h)
    = (Ret (fold_left (fun a p => f p a) (take n (drop i bucket)) fl),
       (bucket, h)).
Proof.
  intros Hbody. induction n as [|n IH]; intros i fl; [reflexivity|].
  cbn [for_bucket]. unfold bind at 1, get_bucket, gets. cbn [fst].
  destruct (bucket !! i) as [p|] eqn:Hi.
  - unfold bind. rewrite Hbody by (eapply list_elem_of_lookup_2, Hi).
    rewrite IH. now rewrite (drop_S _ _ _ Hi).
  - apply lookup_ge_None in Hi. now rewrite drop_ge by lia.
Qed.

Lemma for_whole_bucket_pure body (f : string -> bool -> bool) bucket h :
  (forall p fl, p ∈ bucket ->
     body p fl (bucket, h) = (Ret (f p fl), (bucket, h))) ->
  for_whole_bucket body (bucket, h)
  = (Ret (fold_left (fun a p => f p a) bucket true), (bucket, h)).
Proof.
  intros Hbody. unfold for_whole_bucket, bind at 1, get_bucket, gets.
  cbn [fst]. rewrite (for_bucket_pure body f) by assumption.
  now rewrite drop_0, firstn_all.
Qed.

Lemma uptodate_body_simple presence pkg_name flag (s : bstate) :
  is_simple E pkg_name = true ->
  uptodate_body E presence pkg_name flag s
  = (Ret (is_current E (snd s) pkg_name && flag), s).
Proof.
  unfold is_simple, is_current. intros [Halt Hname]%andb_prop.
  apply negb_true_iff in Halt.
  unfold uptodate_body. unfold bind at 1.
  rewrite resolve_alternation_plain by assumption.
  unfold bind at 1. rewrite strip_native_arch_spec.
  destruct (looked_up E pkg_name) as [name|]; [|discriminate].
  apply negb_true_iff in Hname. munfold. rewrite Hname.
  destruct s as [b h]. cbn [snd].
  destruct (installed_in_cache name h), (upgradable_in_cache name h);
    reflexivity.
Qed.

Lemma fold_current_false (f : string -> bool) bucket :
  fold_left (fun a p => f p && a) bucket false = false.
Proof.
  induction bucket as [|p l IH]; [reflexivity|].
  cbn. now rewrite andb_false_r.
Qed.

Lemma fold_current (f : string -> bool) bucket :
  fold_left (fun a p => f p && a) bucket true = forallb f bucket.
Proof.
  induction bucket as [|p l IH]; [reflexivity|].
  cbn. rewrite andb_true_r. destruct (f p); [exact IH|].
  apply fold_current_false.
Qed.

(** On a bucket of simple specifiers [is_bucket_uptodate] changes nothing
    and tells whether every specifier is installed and not upgradable. *)
Lemma is_bucket_uptodate_simple depth bucket h :
  forallb (is_simple E) bucket = true ->
  is_bucket_uptodate E depth (bucket, h)
  = (Ret (forallb (is_current E h) bucket), (bucket, h)).
Proof.
  intros Hsimple. unfold is_bucket_uptodate.
  rewrite (for_whole_bucket_pure _ (fun p fl => is_current E h p && fl)).
  - now rewrite fold_current.
  - intros p fl Hp. rewrite uptodate_body_simple; [reflexivity|].
    rewrite forallb_forall in Hsimple. apply Hsimple.
    now apply list_elem_of_In.
Qed.

End Simple.

(** C3, amended: in a bucket of bare and architecture-qualified specifiers
    outside the openjdk rule, one specifier that is absent from the cache,
    not installed, or installed and upgradable makes [is_bucket_uptodate]
    return False, and the bucket is left as it was. *)
Theorem is_bucket_uptodate_false_on_stale (E : env) (depth : nat)
    (bucket : list string) (h : hstate) (pkg_name : string) :
  forallb (is_simple E) bucket = true ->
  pkg_name ∈ bucket ->
  is_current E h pkg_name = false ->
  is_bucket_uptodate E depth (bucket, h) = (Ret false, (bucket, h)).
Proof.
  intros Hsimple Hin Hstale.
  rewrite is_bucket_uptodate_simple by assumption.
  f_equal. f_equal. apply not_true_is_false. intros Hall.
  rewrite forallb_forall in Hall.
  rewrite Hall in Hstale by now apply list_elem_of_In.
  discriminate.
Qed.

(** ** Resolving an alternation *)

Section Resolve.

Variable E : env.

Lemma is_name_parts s :
  is_name s = true ->
  PyStr.contains " " s = false /\ PyStr.contains ":" s = false
  /\ PyStr.contains "openjdk" s = false.
Proof.
  unfold is_name. intros [[H1 H2]%andb_prop H3]%andb_prop.
  now rewrite !negb_true_iff in *.
Qed.

Lemma is_bucket_installed_name d p h :
  is_name p = true ->
  is_bucket_installed E (S d) ([p], h)
  = (Ret (installed_in_cache p h), ([p], h)).
Proof.
  intros (Hsp & Hcolon & Hjdk)%is_name_parts.
  cbn [is_bucket_installed]. munfold. cbn. unfold installed_body. munfold.
  rewrite resolve_alternation_plain by now apply no_space_no_alt.
  rewrite strip_native_arch_plain by assumption.
  cbn. rewrite Hjdk. now destruct (installed_in_cache p h).
Qed.

Lemma is_bucket_available_name d p h :
  is_name p = true ->
  is_bucket_available E (S d) ([p], h) = (Ret (in_cache p h), ([p], h)).
Proof.
  intros (Hsp & Hcolon & Hjdk)%is_name_parts.
  cbn [is_bucket_available]. munfold. cbn. unfold available_body. munfold.
  rewrite resolve_alternation_plain by now apply no_space_no_alt.
  cbn. rewrite Hcolon, Hjdk. now destruct (in_cache p h).
Qed.

Lemma is_bucket_uptodate_name d p h :
  is_name p = true ->
  is_bucket_uptodate E d ([p], h)
  = (Ret (installed_in_cache p h && negb (upgradable_in_cache p h)),
     ([p], h)).
Proof.
  intros (Hsp & Hcolon & Hjdk)%is_name_parts.
  unfold is_bucket_uptodate. munfold. cbn. unfold uptodate_body. munfold.
  rewrite resolve_alternation_plain by now apply no_space_no_alt.
  rewrite strip_native_arch_plain by assumption.
  cbn. rewrite Hjdk.
  now destruct (installed_in_cache p h), (upgradable_in_cache p h).
Qed.

(** The second of two alternatives is chosen when it is the first one to
    pass the presence test. *)
Lemma resolve_second presence alt a b bucket h :
  presence ([a], h) = (Ret false, ([a], h)) ->
  presence ([b], h) = (Ret true, ([b], h)) ->
  resolve presence alt [a; b] (bucket, h)
  = (Ret b, ((PyStr.list_remove alt bucket ++ [b])%list, h)).
Proof.
  intros Ha Hb. cbn [resolve]. munfold. cbn [fst snd].
  rewrite Ha. cbn [fst snd]. now rewrite Hb.
Qed.

Lemma resolve_alternation_second presence a b bucket h :
  is_name a = true -> is_name b = true ->
  presence ([a], h) = (Ret false, ([a], h)) ->
  presence ([b], h) = (Ret true, ([b], h)) ->
  resolve_alternation presence (alternation a b) (bucket, h)
  = (Ret b, ((PyStr.list_remove (alternation a b) bucket ++ [b])%list, h)).
Proof.
  intros (Ha & _)%is_name_parts (Hb & _)%is_name_parts Hpa Hpb.
  unfold resolve_alternation.
  replace (PyStr.contains " | " (alternation a b)) with true
    by (symmetry; apply (contains_app " | " a b)).
  rewrite split_alt_alternation by assumption.
  rewrite split_alt_none by now apply no_space_no_alt.
  now apply resolve_second.
Qed.

Lemma list_remove_single x : PyStr.list_remove x [x] = [].
Proof. cbn. now rewrite String.eqb_refl. Qed.

(** One round of the loop is all a bucket of one element gets. *)
Lemma for_whole_bucket_single body x h o b' h' :
  body x true ([x], h) = (Ret o, (b', h')) ->
  for_whole_bucket body ([x], h) = (Ret o, (b', h')).
Proof.
  intros Hbody. munfold. cbn. now rewrite Hbody.
Qed.

Lemma installed_body_alternation presence a b bucket h flag :
  is_name a = true -> is_name b = true ->
  presence ([a], h) = (Ret false, ([a], h)) ->
  presence ([b], h) = (Ret true, ([b], h)) ->
  installed_in_cache b h = true ->
  installed_body E presence (alternation a b) flag (bucket, h)
  = (Ret flag,
     ((PyStr.list_remove (alternation a b) bucket ++ [b])%list, h)).
Proof.
  intros Ha Hb Hpa Hpb Hib.
  destruct (is_name_parts b Hb) as (Hsp & Hcolon & Hjdk).
  unfold installed_body. unfold bind at 1.
  rewrite resolve_alternation_second by assumption.
  unfold bind at 1. rewrite strip_native_arch_plain by assumption.
  munfold. cbn [fst snd]. now rewrite Hib.
Qed.

Lemma available_body_alternation presence a b bucket h flag :
  is_name a = true -> is_name b = true ->
  presence ([a], h) = (Ret false, ([a], h)) ->
  presence ([b], h) = (Ret true, ([b], h)) ->
  in_cache b h = true ->
  available_body E presence (alternation a b) flag (bucket, h)
  = (Ret flag,
     ((PyStr.list_remove (alternation a b) bucket ++ [b])%list, h)).
Proof.
  intros Ha Hb Hpa Hpb Hib.
  unfold available_body. unfold bind at 1.
  rewrite resolve_alternation_second by assumption.
  munfold. cbn [fst snd]. now rewrite Hib.
Qed.

Lemma uptodate_body_alternation presence a b bucket h flag :
  is_name a = true -> is_name b = true ->
  presence ([a], h) = (Ret false, ([a], h)) ->
  presence ([b], h) = (Ret true, ([b], h)) ->
  uptodate_body E presence (alternation a b) flag (bucket, h)
  = (Ret (installed_in_cache b h && negb (upgradable_in_cache b h) && flag),
     ((PyStr.list_remove (alternation a b) bucket ++ [b])%list, h)).
Proof.
  intros Ha Hb Hpa Hpb.
  destruct (is_name_parts b Hb) as (Hsp & Hcolon & Hjdk).
  unfold uptodate_body. unfold bind at 1.
  rewrite resolve_alternation_second by assumption.
  unfold bind at 1. rewrite strip_native_arch_plain by assumption.
  munfold. cbn [fst snd]. rewrite Hjdk.
  now destruct (installed_in_cache b h), (upgradable_in_cache b h).
Qed.

End Resolve.

(** C4: in the bucket that holds the one alternation of the names [a] and
    [b], where [b] alone passes the presence test of the evaluator, one
    evaluation leaves the bucket [[b]] and a second one leaves [[b]] as it
    is.  The presence test is "installed" for [is_bucket_installed] and
    "in the cache" for [is_bucket_available] and [is_bucket_uptodate]. *)
Theorem alternation_resolved_once (E : env) (d : nat) (h : hstate)
    (a b : string) :
  is_name a = true -> is_name b = true ->
  (installed_in_cache a h = false -> installed_in_cache b h = true ->
   is_bucket_installed E (S (S d)) ([alternation a b], h)
   = (Ret true, ([b], h)) /\
   is_bucket_installed E (S (S d)) ([b], h) = (Ret true, ([b], h))) /\
  (in_cache a h = false -> in_cache b h = true ->
   is_bucket_available E (S (S d)) ([alternation a b], h)
   = (Ret true, ([b], h)) /\
   is_bucket_available E (S (S d)) ([b], h) = (Ret true, ([b], h))) /\
  (in_cache a h = false -> in_cache b h = true ->
   let current :=
     installed_in_cache b h && negb (upgradable_in_cache b h) in
   is_bucket_uptodate E (S d) ([alternation a b], h)
   = (Ret current, ([b], h)) /\
   is_bucket_uptodate E (S d) ([b], h) = (Ret current, ([b], h))).
Proof.
  intros Ha Hb.
  split; [|split].
  - intros Hia Hib.
    assert (Hb1 : is_bucket_installed E (S d) ([b], h)
                  = (Ret true, ([b], h)))
      by (rewrite is_bucket_installed_name by assumption; now rewrite Hib).
    split; [|now rewrite is_bucket_installed_name, Hib].
    change (is_bucket_installed E (S (S d)))
      with (for_whole_bucket
              (installed_body E (is_bucket_installed E (S d)))).
    apply for_whole_bucket_single.
    rewrite (installed_body_alternation E _ a b); try assumption.
    + now rewrite list_remove_single.
    + rewrite is_bucket_installed_name by assumption. now rewrite Hia.
  - intros Hia Hib.
    assert (Hb1 : is_bucket_available E (S d) ([b], h)
                  = (Ret true, ([b], h)))
      by (rewrite is_bucket_available_name by assumption; now rewrite Hib).
    split; [|now rewrite is_bucket_available_name, Hib].
    change (is_bucket_available E (S (S d)))
      with (for_whole_bucket
              (available_body E (is_bucket_available E (S d)))).
    apply for_whole_bucket_single.
    rewrite (available_body_alternation E _ a b); try assumption.
    + now rewrite list_remove_single.
    + rewrite is_bucket_available_name by assumption. now rewrite Hia.
  - intros Hia Hib current.
    split; [|now rewrite is_bucket_uptodate_name].
    unfold is_bucket_uptodate. apply for_whole_bucket_single.
    rewrite (uptodate_body_alternation E _ a b); try assumption.
    + now rewrite list_remove_single, andb_true_r.
    + rewrite is_bucket_available_name by assumption. now rewrite Hia.
    + rewrite is_bucket_available_name by assumption. now rewrite Hib.
Qed.

(** ** What the calls leave alone *)

Section Frames.

Context {S : Type} (R : S -> S -> Prop) `{!PreOrder R}.

Lemma keeps_ret {A} (a : A) : keeps R (ret a).
Proof. intros s o s' [= <- <-]. reflexivity. Qed.

Lemma keeps_raise {A} e : keeps R (@raise S A e).
Proof. intros s o s' [= <- <-]. reflexivity. Qed.

Lemma keeps_hang {A} : keeps R (@hang S A).
Proof. intros s o s' [= <- <-]. reflexivity. Qed.

Lemma keeps_gets {A} (f : S -> A) : keeps R (gets f).
Proof. intros s o s' [= <- <-]. reflexivity. Qed.

Lemma keeps_modify (f : S -> S) : (forall s, R s (f s)) -> keeps R (modify f).
Proof. intros Hf s o s' [= <- <-]. apply Hf. Qed.

Lemma keeps_bind {A B} (m : M S A) (k : A -> M S B) :
  keeps R m -> (forall a, keeps R (k a)) -> keeps R (bind m k).
Proof.
  intros Hm Hk s o s' Hrun. unfold bind in Hrun.
  destruct (m s) as [[a|e|] s1] eqn:Hms.
  - transitivity s1; [eapply Hm, Hms | eapply Hk, Hrun].
  - injection Hrun as <- <-. eapply Hm, Hms.
  - injection Hrun as <- <-. eapply Hm, Hms.
Qed.

Lemma keeps_if {A} (c : bool) (m1 m2 : M S A) :
  keeps R m1 -> keeps R m2 -> keeps R (if c then m1 else m2).
Proof. now destruct c. Qed.

End Frames.

#[local] Instance same_world_preorder : PreOrder same_world.
Proof.
  split.
  - intros h. unfold same_world. tauto.
  - intros h1 h2 h3 H12 H23. unfold same_world in *.
    destruct H12 as (? & ? & ? & ? & ? & ?), H23 as (? & ? & ? & ? & ? & ?).
    repeat split; congruence.
Qed.

#[local] Instance quiet_preorder : PreOrder quiet.
Proof.
  split.
  - intros h. unfold quiet. tauto.
  - intros h1 h2 h3 [H12 E12] [H23 E23]. unfold quiet.
    split; [congruence | tauto].
Qed.

#[local] Instance on_handler_preorder R `{!PreOrder R} :
  PreOrder (on_handler R).
Proof.
  split.
  - intros s. unfold on_handler. reflexivity.
  - intros s1 s2 s3. unfold on_handler. apply transitivity.
Qed.

Lemma same_world_quiet h h' : same_world h h' -> quiet h h'.
Proof.
  intros (_ & _ & _ & _ & Hex & Htr). unfold quiet.
  rewrite Hex, Htr. tauto.
Qed.

Lemma keeps_weaken {S A} (R R' : S -> S -> Prop) (m : M S A) :
  (forall s s', R s s' -> R' s s') -> keeps R m -> keeps R' m.
Proof. intros Hsub Hm s o s' Hrun. eapply Hsub, Hm, Hrun. Qed.

Lemma keeps_liftH {A} R (m : M hstate A) :
  keeps R m -> keeps (on_handler R) (liftH m).
Proof.
  intros Hm [b h] o s' Hrun. unfold liftH in Hrun. cbn [fst snd] in Hrun.
  destruct (m h) as [o1 h1] eqn:Hmh. injection Hrun as <- <-.
  unfold on_handler. cbn. eapply Hm, Hmh.
Qed.

Lemma keeps_on_fresh {A} R (m : M bstate A) l :
  keeps (on_handler R) m -> keeps (on_handler R) (on_fresh m l).
Proof.
  intros Hm [b h] o s' Hrun. unfold on_fresh in Hrun. cbn [fst snd] in Hrun.
  destruct (m (l, h)) as [o1 s1] eqn:Hmh. injection Hrun as <- <-.
  unfold on_handler. cbn. apply (Hm _ _ _ Hmh).
Qed.

Lemma keeps_modify_bucket R `{!PreOrder R} f :
  keeps (on_handler R) (modify_bucket f).
Proof. apply keeps_modify. intros s. unfold on_handler. cbn. reflexivity. Qed.

(** One step of a proof that a computation keeps a relation. *)
Ltac keeps_step :=
  lazymatch goal with
  | |- keeps _ (bind _ _) => apply keeps_bind; [apply _| |intros ?]
  | |- keeps _ (ret _) => apply keeps_ret; apply _
  | |- keeps _ (raise _) => apply keeps_raise; apply _
  | |- keeps _ hang => apply keeps_hang; apply _
  | |- keeps _ (gets _) => apply keeps_gets; apply _
  | |- keeps _ get_bucket => apply keeps_gets; apply _
  | |- keeps _ get_handler => apply keeps_gets; apply _
  | |- keeps _ (modify_bucket _) => apply keeps_modify_bucket; apply _
  | |- keeps _ (liftH _) => apply keeps_liftH
  | |- keeps _ (on_fresh _ _) => apply keeps_on_fresh
  | |- keeps _ (match ?x with _ => _ end) =>
      first [apply keeps_if | destruct x]
  end.

Section EvaluatorFrames.

Variable E : env.

Lemma same_world_set_jre v h : same_world h (set_jre v h).
Proof. unfold same_world. now destruct h. Qed.

Lemma same_world_set_jdk v h : same_world h (set_jdk v h).
Proof. unfold same_world. now destruct h. Qed.

Lemma installed_version_of_keeps attr store p search :
  (forall v h, same_world h (store v h)) ->
  keeps same_world (installed_version_of attr store p search).
Proof.
  intros Hstore. unfold installed_version_of.
  repeat keeps_step. now apply keeps_modify.
Qed.

Lemma check_java_equiv_keeps pkg_name :
  keeps same_world (check_java_equiv E pkg_name).
Proof.
  unfold check_java_equiv.
  destruct (Regex.search_openjdk pkg_name) as [[req rel]|];
    [|apply keeps_raise; apply _].
  keeps_step; [|repeat keeps_step].
  repeat lazymatch goal with
  | |- keeps _ (if _ then _ else _) => apply keeps_if
  end.
  - apply installed_version_of_keeps, same_world_set_jre.
  - apply installed_version_of_keeps, same_world_set_jdk.
  - apply keeps_raise; apply _.
Qed.

Context (R : hstate -> hstate -> Prop) `{!PreOrder R}.
Hypothesis R_same_world : forall h h', same_world h h' -> R h h'.

Lemma check_java_equiv_keeps_R pkg_name : keeps R (check_java_equiv E pkg_name).
Proof.
  eapply keeps_weaken; [exact R_same_world | apply check_java_equiv_keeps].
Qed.

Lemma unpack_arch_keeps {S} (Q : S -> S -> Prop) `{!PreOrder Q} pkg_name :
  keeps Q (unpack_arch pkg_name).
Proof. unfold unpack_arch. repeat keeps_step. Qed.

Lemma strip_native_arch_keeps {S} (Q : S -> S -> Prop) `{!PreOrder Q}
    pkg_name :
  keeps Q (strip_native_arch E pkg_name).
Proof.
  unfold strip_native_arch. keeps_step; [|apply keeps_ret; apply _].
  keeps_step; [apply unpack_arch_keeps; apply _|]. repeat keeps_step.
Qed.

Lemma resolve_keeps presence pkg_name alternatives :
  keeps (on_handler R) presence ->
  keeps (on_handler R) (resolve presence pkg_name alternatives).
Proof.
  intros Hp. induction alternatives as [|package rest IH]; cbn [resolve].
  - apply keeps_ret; apply _.
  - keeps_step; [now keeps_step|]. keeps_step; [repeat keeps_step | exact IH].
Qed.

Lemma resolve_alternation_keeps presence pkg_name :
  keeps (on_handler R) presence ->
  keeps (on_handler R) (resolve_alternation presence pkg_name).
Proof.
  intros Hp. unfold resolve_alternation.
  keeps_step; [now apply resolve_keeps | apply keeps_ret; apply _].
Qed.

Lemma for_bucket_keeps body n :
  (forall p fl, keeps (on_handler R) (body p fl)) ->
  forall i fl, keeps (on_handler R) (for_bucket body n i fl).
Proof.
  intros Hbody. induction n as [|n IH]; intros i fl; cbn [for_bucket].
  - apply keeps_ret; apply _.
  - keeps_step; [keeps_step|]. keeps_step; [|apply keeps_ret; apply _].
    keeps_step; [apply Hbody | apply IH].
Qed.

Lemma for_whole_bucket_keeps body :
  (forall p fl, keeps (on_handler R) (body p fl)) ->
  keeps (on_handler R) (for_whole_bucket body).
Proof.
  intros Hbody. unfold for_whole_bucket.
  keeps_step; [keeps_step | now apply for_bucket_keeps].
Qed.

Lemma installed_body_keeps presence p fl :
  keeps (on_handler R) presence ->
  keeps (on_handler R) (installed_body E presence p fl).
Proof.
  intros Hp. unfold installed_body.
  keeps_step; [now apply resolve_alternation_keeps|].
  keeps_step; [apply strip_native_arch_keeps; apply _|].
  keeps_step; [keeps_step|].
  repeat keeps_step. apply check_java_equiv_keeps_R.
Qed.

Lemma available_body_keeps presence p fl :
  keeps (on_handler R) presence ->
  keeps (on_handler R) (available_body E presence p fl).
Proof.
  intros Hp. unfold available_body.
  keeps_step; [now apply resolve_alternation_keeps|].
  keeps_step; [keeps_step|].
  keeps_step; [|apply keeps_ret; apply _].
  keeps_step.
  - keeps_step; [|apply keeps_ret; apply _].
    keeps_step; [apply unpack_arch_keeps; apply _|]. repeat keeps_step.
  - repeat keeps_step. apply check_java_equiv_keeps_R.
Qed.

Lemma uptodate_body_keeps presence p fl :
  keeps (on_handler R) presence ->
  keeps (on_handler R) (uptodate_body E presence p fl).
Proof.
  intros Hp. unfold uptodate_body.
  keeps_step; [now apply resolve_alternation_keeps|].
  keeps_step; [apply strip_native_arch_keeps; apply _|].
  keeps_step; [keeps_step|].
  cbv zeta. keeps_step; [|apply keeps_ret; apply _].
  keeps_step; [keeps_step; apply check_java_equiv_keeps_R|].
  repeat keeps_step.
Qed.

Lemma is_bucket_installed_keeps depth :
  keeps (on_handler R) (is_bucket_installed E depth).
Proof.
  induction depth as [|d IH]; cbn [is_bucket_installed].
  - apply keeps_hang; apply _.
  - apply for_whole_bucket_keeps. intros p fl.
    now apply installed_body_keeps.
Qed.

Lemma is_bucket_available_keeps depth :
  keeps (on_handler R) (is_bucket_available E depth).
Proof.
  induction depth as [|d IH]; cbn [is_bucket_available].
  - apply keeps_hang; apply _.
  - apply for_whole_bucket_keeps. intros p fl.
    now apply available_body_keeps.
Qed.

Lemma is_bucket_uptodate_keeps depth :
  keeps (on_handler R) (is_bucket_uptodate E depth).
Proof.
  unfold is_bucket_uptodate. apply for_whole_bucket_keeps. intros p fl.
  apply uptodate_body_keeps, is_bucket_available_keeps.
Qed.

End EvaluatorFrames.

(** ** What the install task leaves alone *)

Ltac quiet_solve :=
  intros; unfold on_handler, quiet;
  repeat match goal with h : hstate |- _ => destruct h end;
  cbn; try tauto; auto.

Section TaskFrames.

Variable E : env.

(** If [m] establishes [P] and what follows keeps a relation that carries
    [P] along, the whole establishes [P]. *)
Lemma bind_establishes {S A B} (P : S -> Prop) (R : S -> S -> Prop)
    (m : M S A) (k : A -> M S B) :
  (forall s o s', m s = (o, s') -> P s') ->
  (forall a, keeps R (k a)) ->
  (forall s s', R s s' -> P s -> P s') ->
  forall s o s', bind m k s = (o, s') -> P s'.
Proof.
  intros Hm Hk HR s o s' Hrun. unfold bind in Hrun.
  destruct (m s) as [[a|e|] s1] eqn:Hms.
  - eapply HR; [eapply Hk, Hrun | eapply Hm, Hms].
  - injection Hrun as <- <-. eapply Hm, Hms.
  - injection Hrun as <- <-. eapply Hm, Hms.
Qed.

Lemma keeps_wrap_mark_error {A} R pkg_name (m : M hstate A) :
  keeps R m -> keeps R (wrap_mark_error pkg_name m).
Proof.
  intros Hm h o h' Hrun. unfold wrap_mark_error in Hrun.
  destruct (m h) as [[a|e|] h1] eqn:Hmh.
  - injection Hrun as <- <-. eapply Hm, Hmh.
  - destruct (is_Exception e); injection Hrun as <- <-; eapply Hm, Hmh.
  - injection Hrun as <- <-. eapply Hm, Hmh.
Qed.

Lemma add_foreign_arch_keeps arch : keeps quiet (add_foreign_arch E arch).
Proof.
  unfold add_foreign_arch. repeat keeps_step;
    apply keeps_modify; quiet_solve.
Qed.

Lemma force_reload_keeps fuel : keeps quiet (_force_reload_apt_cache E fuel).
Proof.
  induction fuel as [|fuel IH]; cbn [_force_reload_apt_cache].
  - keeps_step.
  - keeps_step; [keeps_step|]. keeps_step; [apply keeps_modify; quiet_solve|].
    keeps_step.
    + apply keeps_modify; quiet_solve.
    + keeps_step; [apply keeps_modify; quiet_solve | exact IH].
    + keeps_step.
Qed.

Lemma update_cache_keeps : keeps quiet (update_cache E).
Proof.
  unfold update_cache. keeps_step; [keeps_step|].
  apply keeps_modify; quiet_solve.
Qed.

Lemma enable_archs_keeps bucket : forall need,
  keeps quiet (enable_archs E bucket need).
Proof.
  induction bucket as [|p l IH]; intros need; cbn [enable_archs].
  - keeps_step.
  - keeps_step; [|apply IH]. cbv zeta. keeps_step; [|apply IH].
    keeps_step; [keeps_step | apply add_foreign_arch_keeps].
Qed.

Lemma mark_one_keeps pkg_name : keeps quiet (mark_one E pkg_name).
Proof.
  unfold mark_one. keeps_step; [apply strip_native_arch_keeps; apply _|].
  apply keeps_wrap_mark_error.
  repeat keeps_step; apply keeps_modify; quiet_solve.
Qed.

Lemma mark_all_keeps bucket : keeps quiet (mark_all E bucket).
Proof.
  induction bucket as [|p l IH]; cbn [mark_all].
  - keeps_step.
  - keeps_step; [apply mark_one_keeps | exact IH].
Qed.

Lemma commit_step_keeps fuel ev : keeps quiet (commit_step E fuel ev).
Proof.
  destruct ev; cbn [commit_step].
  - keeps_step; [keeps_step | apply keeps_modify; quiet_solve].
  - apply keeps_modify; quiet_solve.
  - apply keeps_modify. intros h. unfold quiet. destruct h as [? ? ? ? ? ? x ?].
    cbn. split; [reflexivity|]. destruct x; cbn; [eauto|]. tauto.
  - keeps_step; [apply force_reload_keeps | keeps_step].
  - apply force_reload_keeps.
  - keeps_step.
Qed.

Lemma run_commit_keeps fuel evs : keeps quiet (run_commit E fuel evs).
Proof.
  induction evs as [|ev evs IH]; cbn [run_commit].
  - keeps_step.
  - keeps_step; [apply commit_step_keeps | exact IH].
Qed.

Lemma commit_keeps fuel : keeps quiet (commit E fuel).
Proof.
  unfold commit. keeps_step; [apply keeps_modify; quiet_solve|].
  apply run_commit_keeps.
Qed.

Lemma is_bucket_uptodate_quiet depth :
  keeps (on_handler quiet) (is_bucket_uptodate E depth).
Proof.
  apply is_bucket_uptodate_keeps; [apply _ | apply same_world_quiet].
Qed.

Lemma stage_bucket_keeps fuel depth :
  keeps (on_handler quiet) (stage_bucket E fuel depth).
Proof.
  unfold stage_bucket.
  keeps_step; [keeps_step; apply keeps_modify; quiet_solve|].
  keeps_step; [apply is_bucket_uptodate_quiet|].
  keeps_step; [keeps_step|].
  keeps_step; [keeps_step|].
  keeps_step; [keeps_step; apply enable_archs_keeps|].
  keeps_step.
  - keeps_step; [|keeps_step]. keeps_step.
    keeps_step; [apply force_reload_keeps|].
    keeps_step; [apply update_cache_keeps | apply force_reload_keeps].
  - keeps_step; [keeps_step; apply mark_all_keeps | keeps_step].
Qed.

Lemma really_install_bucket_keeps fuel depth :
  keeps (on_handler quiet) (_really_install_bucket E fuel depth).
Proof.
  unfold _really_install_bucket.
  keeps_step; [apply stage_bucket_keeps|].
  keeps_step; [|keeps_step].
  keeps_step; [keeps_step; apply commit_keeps | keeps_step].
Qed.

(** The exchange file exists when the task ends, whatever the outcome. *)
Lemma stage_bucket_has_file fuel depth s o s' :
  stage_bucket E fuel depth s = (o, s') -> is_Some (exchange (snd s')).
Proof.
  unfold stage_bucket.
  apply (bind_establishes (fun s => is_Some (exchange (snd s)))
           (on_handler quiet)).
  - intros [b h] o1 s1 [= <- <-]. cbn. eauto.
  - intros _. change (keeps (on_handler quiet)
      (let* uptodate := is_bucket_uptodate E depth in
       if uptodate : bool then ret false
       else
         let* bucket := get_bucket in
         let* need_cache_reload := liftH (enable_archs E bucket false) in
         let* _ :=
           (if need_cache_reload : bool then
              liftH (let* _ := _force_reload_apt_cache E fuel in
                     let* _ := update_cache E in
                     _force_reload_apt_cache E fuel)
            else ret tt) in
         let* _ := liftH (mark_all E bucket) in
         ret true)).
    keeps_step; [apply is_bucket_uptodate_quiet|].
    keeps_step; [keeps_step|].
    keeps_step; [keeps_step|].
    keeps_step; [keeps_step; apply enable_archs_keeps|].
    keeps_step.
    + keeps_step; [|keeps_step]. keeps_step.
      keeps_step; [apply force_reload_keeps|].
      keeps_step; [apply update_cache_keeps | apply force_reload_keeps].
    + keeps_step; [keeps_step; apply mark_all_keeps | keeps_step].
  - intros s1 s2 [_ Hfile]. exact Hfile.
Qed.

Lemma really_install_bucket_has_file fuel depth s o s' :
  _really_install_bucket E fuel depth s = (o, s') ->
  is_Some (exchange (snd s')).
Proof.
  unfold _really_install_bucket.
  apply (bind_establishes (fun s => is_Some (exchange (snd s)))
           (on_handler quiet)).
  - apply stage_bucket_has_file.
  - intros staged. keeps_step; [|keeps_step].
    keeps_step; [keeps_step; apply commit_keeps | keeps_step].
  - intros s1 s2 [_ Hfile]. exact Hfile.
Qed.

End TaskFrames.

(** ** Completion: C1, C2 and C7 *)

Section Completion.

Variable E : env.

Lemma read_text_empty : read_text E EmptyString = Some EmptyString.
Proof. reflexivity. Qed.

(** A task that returned: the exchange file is not read. *)
Lemma on_done_returned v content text bucket h :
  exchange h = Some content ->
  _on_done E (Ret v) (bucket, h)
  = (Ret tt, (bucket, called_back (Ret v) text bucket h)).
Proof.
  intros Hfile. unfold _on_done. munfold. cbn [fst snd]. now rewrite Hfile.
Qed.

(** A task that ended, and an exchange file that reads as [text]. *)
Lemma on_done_calls_back task text bucket h :
  exchange_text E h = Some text ->
  _on_done E task (bucket, h)
  = (Ret tt, (bucket, called_back task text bucket h)).
Proof.
  unfold exchange_text. destruct (exchange h) as [content|] eqn:Hfile;
    [|discriminate].
  intros Hread. unfold _on_done. munfold. cbn [fst snd]. rewrite Hfile.
  unfold called_back, error_text.
  destruct task; try reflexivity.
  rewrite Hread. now destruct (String.eqb text EmptyString).
Qed.

(** A task that raised, and an exchange file that cannot be decoded: the
    error of the read leaves [_on_done], the file stays and nothing is
    called. *)
Lemma on_done_unreadable e bucket h :
  is_Some (exchange h) ->
  exchange_text E h = None ->
  _on_done E (Raise e) (bucket, h) = (Raise unicode_decode_error, (bucket, h)).
Proof.
  unfold exchange_text. intros [content Hfile]. rewrite Hfile. intros Hread.
  unfold _on_done. munfold. cbn [fst snd]. now rewrite Hfile, Hread.
Qed.

(** When the task returns, the worker calls the completion callback and
    comes back to its queue. *)
Lemma run_task_returned fuel depth s v text bucket h :
  _really_install_bucket E fuel depth s = (Ret v, (bucket, h)) ->
  run_task E fuel depth s
  = (Ret tt, (bucket, called_back (Ret v) text bucket h)).
Proof.
  intros Hrun.
  destruct (really_install_bucket_has_file E _ _ _ _ _ Hrun)
    as [content Hfile].
  cbn [snd] in Hfile. unfold run_task. rewrite Hrun.
  now rewrite (on_done_returned _ content text).
Qed.

(** The same when the task ends in any way and the exchange file reads as
    [text]. *)
Lemma run_task_calls_back fuel depth s task text bucket h :
  _really_install_bucket E fuel depth s = (task, (bucket, h)) ->
  task <> Hang ->
  exchange_text E h = Some text ->
  run_task E fuel depth s
  = (Ret tt, (bucket, called_back task text bucket h)).
Proof.
  intros Hrun Hends Hread.
  unfold run_task. rewrite Hrun.
  rewrite (on_done_calls_back _ text) by assumption.
  destruct task; [reflexivity | reflexivity | contradiction].
Qed.

(** When the task raised and the exchange file cannot be decoded, the
    worker comes back to its queue without any call of the callback. *)
Lemma run_task_drops_result fuel depth s e bucket h :
  _really_install_bucket E fuel depth s = (Raise e, (bucket, h)) ->
  exchange_text E h = None ->
  run_task E fuel depth s = (Ret tt, (bucket, h)).
Proof.
  intros Hrun Hread.
  pose proof (really_install_bucket_has_file E _ _ _ _ _ Hrun) as Hfile.
  cbn [snd] in Hfile. unfold run_task. rewrite Hrun.
  now rewrite on_done_unreadable.
Qed.

Lemma run_task_hangs fuel depth s s' :
  _really_install_bucket E fuel depth s = (Hang, s') ->
  run_task E fuel depth s = (Hang, s').
Proof. intros Hrun. unfold run_task. now rewrite Hrun. Qed.

Lemma install_bucket_keeps depth :
  keeps (on_handler quiet) (install_bucket E depth).
Proof.
  unfold install_bucket.
  keeps_step; [apply is_bucket_uptodate_quiet|].
  keeps_step; [keeps_step; apply keeps_modify; quiet_solve | keeps_step].
Qed.

Lemma string_app_assoc (a b c : string) : (a ++ b) ++ c = a ++ b ++ c.
Proof.
  induction a as [|x a IH]; [reflexivity|].
  now rewrite !append_cons, IH.
Qed.

Lemma string_app_nil_r (a : string) : a ++ EmptyString = a.
Proof.
  induction a as [|x a IH]; [reflexivity|]. now rewrite append_cons, IH.
Qed.

Lemma occurs_in_error_text e content err :
  error_text (Raise e) content = Some err ->
  occurs_in (exn_msg e) err /\
  (content <> EmptyString -> occurs_in content err).
Proof.
  unfold error_text. intros [= <-].
  destruct (String.eqb_spec content EmptyString) as [->|Hne].
  - split; [|done]. exists EmptyString, EmptyString.
    now rewrite string_app_nil_r.
  - split; intros.
    + exists EmptyString, (subprocess_output ++ content). reflexivity.
    + exists (exn_msg e ++ subprocess_output), EmptyString.
      now rewrite string_app_nil_r, string_app_assoc.
Qed.

(** A text that occurs in another is found by [in]. *)
Lemma occurs_in_contains a b : occurs_in a b -> PyStr.contains a b = true.
Proof. intros (before & after & ->). apply contains_app. Qed.

End Completion.

Lemma callbacks_called_back task content bucket h :
  callbacks (trace (called_back task content bucket h))
  = EInstalled (Result bucket (error_text task content))
    :: callbacks (trace h).
Proof. now destruct h. Qed.

(** C7, amended: when the bucket was staged, [commit] raises [e] and the
    exchange file reads as [text] (its bytes decoded in the encoding of the
    locale, its line ends translated), the worker does not raise; it calls
    the completion callback with an error text that is not None, in which
    the message of [e] occurs and, when [text] is not empty, [text] occurs
    as well. *)
Theorem commit_failure_reported_as_read (E : env) (fuel depth : nat)
    (s : bstate) (bucket : list string) (h h' : hstate) (e : exn)
    (text : string) :
  stage_bucket E fuel depth s = (Ret true, (bucket, h)) ->
  commit E fuel h = (Raise e, h') ->
  exchange_text E h' = Some text ->
  exists err,
    run_task E fuel depth s
    = (Ret tt,
       (bucket,
        log (EInstalled (Result bucket (Some err))) (set_exchange None h')))
    /\ occurs_in (exn_msg e) err
    /\ (text <> EmptyString -> occurs_in text err).
Proof.
  intros Hstage Hcommit Hread.
  assert (Htask : _really_install_bucket E fuel depth s
                  = (Raise e, (bucket, h'))).
  { unfold _really_install_bucket, bind at 1. rewrite Hstage.
    munfold. cbn [fst snd]. now rewrite Hcommit. }
  pose proof (run_task_calls_back E _ _ _ _ text _ _ Htask
                ltac:(discriminate) Hread) as Hdone.
  destruct (error_text (Raise e) text) as [err|] eqn:Herr;
    [|discriminate].
  exists err. split; [|now apply occurs_in_error_text].
  rewrite Hdone. unfold called_back. now rewrite Herr.
Qed.

(** ** C2: a bucket that is up to date *)

Section UpToDate.

Variable E : env.

Lemma is_current_cache h0 h bucket :
  cache h0 = cache h ->
  forallb (is_current E h0) bucket = forallb (is_current E h) bucket.
Proof.
  intros Hcache. induction bucket as [|p l IH]; [reflexivity|].
  cbn [forallb]. rewrite IH. f_equal.
  unfold is_current, installed_in_cache, upgradable_in_cache.
  now rewrite Hcache.
Qed.

(** X6: On a bucket of simple specifiers that are all installed and not
    upgradable, [is_bucket_uptodate] returns True, [install_bucket] returns
    False, and the task calls the completion callback without an error and
    without any operation that changes the package database. *)
Lemma uptodate_bucket_short_circuits fuel depth bucket h :
  forallb (is_simple E) bucket = true ->
  forallb (is_current E h) bucket = true ->
  is_bucket_uptodate E depth (bucket, h) = (Ret true, (bucket, h)) /\
  install_bucket E depth (bucket, h) = (Ret false, (bucket, log ESubmit h)) /\
  (let h1 := set_exchange (Some EmptyString) (log ESubmit h) in
   stage_bucket E fuel depth (bucket, log ESubmit h)
   = (Ret false, (bucket, h1)) /\
   run_task E fuel depth (bucket, log ESubmit h)
   = (Ret tt, (bucket, called_back (Ret true) EmptyString bucket h1)) /\
   mutations (trace (called_back (Ret true) EmptyString bucket h1))
   = mutations (trace h)).
Proof.
  intros Hsimple Hcurrent.
  assert (Hup : forall h0, cache h0 = cache h ->
            is_bucket_uptodate E depth (bucket, h0)
            = (Ret true, (bucket, h0))).
  { intros h0 Hcache. rewrite is_bucket_uptodate_simple by assumption.
    now rewrite (is_current_cache h0 h), Hcurrent. }
  split; [now apply Hup|]. split.
  { unfold install_bucket, bind at 1. rewrite Hup by reflexivity.
    reflexivity. }
  cbv zeta.
  assert (Hstage : stage_bucket E fuel depth (bucket, log ESubmit h)
            = (Ret false,
               (bucket, set_exchange (Some EmptyString) (log ESubmit h)))).
  { unfold stage_bucket, bind at 1. cbn [liftH modify fst snd].
    unfold bind at 1. rewrite Hup by now destruct h. reflexivity. }
  split; [exact Hstage|]. split.
  - unfold run_task, _really_install_bucket, bind at 1. rewrite Hstage.
    cbn [ret].
    erewrite (on_done_returned E true EmptyString EmptyString)
      by now destruct h.
    reflexivity.
  - now destruct h.
Qed.

End UpToDate.

(** C2, at the failing input: openjdk-11-doc is in the cache, installed
    and not upgradable, and it is the one specifier of the bucket.
    [is_bucket_uptodate] raises TypeError where the specification has it return
    True, and [install_bucket] raises with it, before anything is handed to
    the executor. *)
Theorem uptodate_raises_on_openjdk_doc :
  let E := Examples.amd64 in
  let h := Examples.handler Examples.doc_db in
  let bucket := ["openjdk-11-doc"] in
  forallb (is_current E h) bucket = true /\
  is_bucket_uptodate E 2 (bucket, h) = (Raise none_subscript, (bucket, h)) /\
  install_bucket E 2 (bucket, h) = (Raise none_subscript, (bucket, h)).
Proof. repeat split; vm_compute; reflexivity. Qed.

(** ** C5: architecture-qualified specifiers *)

Section Arch.
Import PyStr.

Variable E : env.

Lemma contains_char_cons x c s :
  contains (String x EmptyString) (String c s)
  = Ascii.eqb x c || contains (String x EmptyString) s.
Proof.
  rewrite contains_cons, prefix_cons.
  now destruct s, (Ascii.eqb x c).
Qed.

Lemma contains_char_app x a b :
  contains (String x EmptyString) (a ++ b)
  = contains (String x EmptyString) a || contains (String x EmptyString) b.
Proof.
  induction a as [|c a IH].
  - rewrite append_empty. reflexivity.
  - rewrite append_cons, !contains_char_cons, IH. apply orb_assoc.
Qed.

Lemma split_char_none x s :
  contains (String x EmptyString) s = false -> split_char x s = [s].
Proof.
  induction s as [|c s IH]; [reflexivity|].
  rewrite contains_char_cons. intros [Hc Hs]%orb_false_elim.
  cbn [split_char]. rewrite Ascii.eqb_sym, Hc, (IH Hs). reflexivity.
Qed.

Lemma split_char_app x a b :
  contains (String x EmptyString) a = false ->
  split_char x (a ++ String x b) = a :: split_char x b.
Proof.
  induction a as [|c a IH]; intros Ha.
  - rewrite append_empty. cbn [split_char]. now rewrite Ascii.eqb_refl.
  - rewrite contains_char_cons in Ha.
    apply orb_false_elim in Ha as [Hc Ha].
    rewrite append_cons. cbn [split_char].
    rewrite Ascii.eqb_sym, Hc, (IH Ha). reflexivity.
Qed.

Lemma looked_up_bare name :
  contains ":" name = false -> looked_up E name = Some name.
Proof. intros H. unfold looked_up. now rewrite H. Qed.

Lemma split_qualified name arch :
  contains ":" name = false -> contains ":" arch = false ->
  contains ":" (qualified name arch) = true /\
  split_char ":" (qualified name arch) = [name; arch].
Proof.
  intros Hn Ha. unfold qualified. split.
  - apply (contains_app ":" name arch).
  - change (":" ++ arch) with (String ":" arch).
    rewrite split_char_app by assumption. now rewrite split_char_none.
Qed.

Lemma looked_up_native name :
  contains ":" name = false -> contains ":" (current_arch E) = false ->
  looked_up E (qualified name (current_arch E)) = Some name.
Proof.
  intros Hn Ha. destruct (split_qualified _ _ Hn Ha) as [Hc Hs].
  unfold looked_up. now rewrite Hc, Hs, String.eqb_refl.
Qed.

Lemma qualified_no_alt name arch :
  contains " " name = false -> contains " " arch = false ->
  contains " | " (qualified name arch) = false.
Proof.
  intros Hn Ha. apply no_space_no_alt. unfold qualified.
  rewrite !contains_char_app, Hn, Ha. reflexivity.
Qed.

(** [is_bucket_installed] on one specifier that is no alternation depends
    on the specifier through the name it is looked up under only. *)
Lemma is_bucket_installed_single d pkg_name name h :
  contains " | " pkg_name = false ->
  looked_up E pkg_name = Some name ->
  seen (is_bucket_installed E (S d) ([pkg_name], h))
  = if installed_in_cache name h then (Ret true, h)
    else if contains "openjdk" name then check_java_equiv E name h
    else (Ret false, h).
Proof.
  intros Halt Hname. cbn [is_bucket_installed]. munfold. cbn.
  unfold installed_body. munfold.
  rewrite resolve_alternation_plain by assumption.
  rewrite strip_native_arch_spec, Hname. cbn.
  destruct (installed_in_cache name h); [reflexivity|]. cbn.
  destruct (contains "openjdk" name); [|reflexivity]. cbn.
  now destruct (check_java_equiv E name h) as [[| |] ?].
Qed.

Lemma is_bucket_uptodate_single d pkg_name name h :
  contains " | " pkg_name = false ->
  looked_up E pkg_name = Some name ->
  seen (is_bucket_uptodate E d ([pkg_name], h))
  = let flag :=
      installed_in_cache name h && negb (upgradable_in_cache name h) in
    if contains "openjdk" name then
      match check_java_equiv E name h with
      | (Ret ok, h') => (Ret (ok || flag), h')
      | (Raise e, h') => (Raise e, h')
      | (Hang, h') => (Hang, h')
      end
    else (Ret flag, h).
Proof.
  intros Halt Hname. unfold is_bucket_uptodate. munfold. cbn.
  unfold uptodate_body. munfold.
  rewrite resolve_alternation_plain by assumption.
  rewrite strip_native_arch_spec, Hname. cbn.
  destruct (contains "openjdk" name); cbn.
  - destruct (check_java_equiv E name h) as [[[|]| |] ?]; cbn;
      try reflexivity;
      now destruct (installed_in_cache name h),
                   (upgradable_in_cache name h).
  - now destruct (installed_in_cache name h), (upgradable_in_cache name h).
Qed.

(** X7: The part of C5 that holds for [is_bucket_installed] and
    [is_bucket_uptodate]: a name qualified with the current architecture is
    evaluated as the bare name is. *)
Lemma native_arch_suffix_stripped d name h :
  contains " " name = false -> contains ":" name = false ->
  contains " " (current_arch E) = false ->
  contains ":" (current_arch E) = false ->
  seen (is_bucket_installed E (S d) ([qualified name (current_arch E)], h))
  = seen (is_bucket_installed E (S d) ([name], h)) /\
  seen (is_bucket_uptodate E d ([qualified name (current_arch E)], h))
  = seen (is_bucket_uptodate E d ([name], h)).
Proof.
  intros Hsn Hcn Hsa Hca.
  pose proof (qualified_no_alt _ _ Hsn Hsa) as Hq.
  pose proof (no_space_no_alt _ Hsn) as Hn.
  split.
  - rewrite (is_bucket_installed_single d _ name) by
      (try apply looked_up_native; assumption).
    now rewrite (is_bucket_installed_single d name name) by
      (try apply looked_up_bare; assumption).
  - rewrite (is_bucket_uptodate_single d _ name) by
      (try apply looked_up_native; assumption).
    now rewrite (is_bucket_uptodate_single d name name) by
      (try apply looked_up_bare; assumption).
Qed.

(** X8: The part of C5 on foreign architectures: a name qualified with an
    architecture that is neither the current one nor enabled, and that the
    cache does not know, does not make [is_bucket_available] say False. *)
Lemma foreign_arch_relaxed d name arch h :
  contains " " name = false -> contains ":" name = false ->
  contains " " arch = false -> contains ":" arch = false ->
  arch <> current_arch E ->
  existsb (String.eqb arch) (foreign_archs h) = false ->
  in_cache (qualified name arch) h = false ->
  is_bucket_available E (S d) ([qualified name arch], h)
  = (Ret true, ([qualified name arch], h)).
Proof.
  intros Hsn Hcn Hsa Hca Hne Hforeign Hin.
  destruct (split_qualified _ _ Hcn Hca) as [Hc Hs].
  cbn [is_bucket_available]. munfold. cbn.
  unfold available_body, unpack_arch. munfold.
  rewrite resolve_alternation_plain by now apply qualified_no_alt.
  cbn. rewrite Hin. cbn. rewrite Hc, Hs. cbn.
  apply String.eqb_neq in Hne. rewrite Hne, Hforeign. reflexivity.
Qed.

End Arch.

(** C5, at the failing input: on an amd64 host with no foreign
    architecture and an empty cache, [is_bucket_available] says True for
    "x:amd64" and False for "x": the two are not evaluated alike. *)
Theorem native_arch_relaxed_as_foreign :
  let E := Examples.amd64 in
  let h := Examples.handler Examples.no_db in
  current_arch E = "amd64" /\
  is_bucket_available E 2 (["x:amd64"], h) = (Ret true, (["x:amd64"], h)) /\
  is_bucket_available E 2 (["x"], h) = (Ret false, (["x"], h)).
Proof. repeat split; vm_compute; reflexivity. Qed.

(** ** The properties at concrete inputs *)

Lemma check_java_equiv_partial_witness :
  let E := Examples.amd64 in
  let h := Examples.handler Examples.no_db in
  check_java_equiv E "openjdk-11" h = (Raise none_subscript, h) /\
  is_bucket_installed E 1 (["openjdk-11"], h)
  = (Raise none_subscript, (["openjdk-11"], h)) /\
  is_bucket_available E 1 (["openjdk-11"], h)
  = (Raise none_subscript, (["openjdk-11"], h)) /\
  is_bucket_uptodate E 0 (["openjdk-11"], h)
  = (Raise none_subscript, (["openjdk-11"], h)).
Proof.
  intros E h.
  destruct (check_java_equiv_partial E "openjdk-11" h 0 eq_refl eq_refl)
    as (H1 & Hevaluators).
  destruct (Hevaluators eq_refl eq_refl) as (H2 & H3 & H4).
  split; [exact H1|]. split; [exact (H2 eq_refl)|].
  split; [exact (H3 eq_refl) | exact H4].
Defined.

(** C3 as stated fails: openjdk-11-jre is not in the cache, and with
    java 17.0.1 on the path [is_bucket_uptodate] returns True. *)
Lemma uptodate_true_without_package :
  let E := Examples.amd64_java17 in
  let h := Examples.handler Examples.no_db in
  in_cache "openjdk-11-jre" h = false /\
  fst (is_bucket_uptodate E 2 (["openjdk-11-jre"], h)) = Ret true.
Proof. split; vm_compute; reflexivity. Qed.

Lemma is_bucket_uptodate_false_on_stale_witness :
  let E := Examples.amd64 in
  let h := Examples.handler Examples.only_b in
  is_bucket_uptodate E 2 (["b"; "foo:amd64"], h)
  = (Ret false, (["b"; "foo:amd64"], h)).
Proof.
  intros E h.
  apply (is_bucket_uptodate_false_on_stale E 2 _ h "foo:amd64").
  - vm_compute; reflexivity.
  - apply list_elem_of_further, list_elem_of_here.
  - vm_compute; reflexivity.
Defined.

Lemma alternation_resolved_once_witness :
  let E := Examples.amd64 in
  let h := Examples.handler Examples.only_b in
  (is_bucket_installed E 2 (["a | b"], h) = (Ret true, (["b"], h)) /\
   is_bucket_installed E 2 (["b"], h) = (Ret true, (["b"], h))) /\
  (is_bucket_available E 2 (["a | b"], h) = (Ret true, (["b"], h)) /\
   is_bucket_available E 2 (["b"], h) = (Ret true, (["b"], h))) /\
  (is_bucket_uptodate E 1 (["a | b"], h) = (Ret true, (["b"], h)) /\
   is_bucket_uptodate E 1 (["b"], h) = (Ret true, (["b"], h))).
Proof.
  intros E h.
  destruct (alternation_resolved_once E 0 h "a" "b" eq_refl eq_refl)
    as (H1 & H2 & H3).
  split; [exact (H1 eq_refl eq_refl)|].
  split; [exact (H2 eq_refl eq_refl) | exact (H3 eq_refl eq_refl)].
Defined.

Lemma commit_failure_reported_as_read_witness :
  let E := Examples.dpkg_fails in
  let s := (["foo"], Examples.handler Examples.foo_db) in
  let staged := snd (snd (stage_bucket E 1 2 s)) in
  let failed := snd (commit E 1 staged) in
  exists err,
    run_task E 1 2 s
    = (Ret tt,
       (["foo"],
        log (EInstalled (Result ["foo"] (Some err)))
          (set_exchange None failed))) /\
    occurs_in "E:Sub-process /usr/bin/dpkg returned an error code (1)" err /\
    ("dpkg: error processing archive foo.deb" <> EmptyString ->
     occurs_in "dpkg: error processing archive foo.deb" err).
Proof.
  intros E s staged failed.
  apply (commit_failure_reported_as_read E 1 2 s ["foo"] staged failed
           (Exn SystemError
              "E:Sub-process /usr/bin/dpkg returned an error code (1)")
           "dpkg: error processing archive foo.deb").
  - vm_compute; reflexivity.
  - vm_compute; reflexivity.
  - vm_compute; reflexivity.
Defined.

(** What the dpkg failure of the example puts in the result. *)
Example dpkg_failure_text :
  let E := Examples.dpkg_fails in
  let s := (["foo"], Examples.handler Examples.foo_db) in
  callbacks (trace (snd (snd (run_task E 1 2 s))))
  = [EInstalled (Result ["foo"]
       (Some ("E:Sub-process /usr/bin/dpkg returned an error code (1)"
              ++ String PyStr.newline "Subprocess output: "
              ++ "dpkg: error processing archive foo.deb")))].
Proof. vm_compute. reflexivity. Qed.

(** ** C7 as stated: output that is not read as it was written *)

(** C7 as stated fails: the forked child writes a progress line with a
    carriage return in it and then dpkg fails.  The exchange file is not
    empty, the completion callback is called with an error text, and what
    was written to the exchange file does not occur in that text: the file
    is read in text mode, where the carriage return has become a line
    feed. *)
Lemma carriage_return_output_not_reported :
  let E := Examples.dpkg_fails_after_progress in
  let s := (["foo"], Examples.handler Examples.foo_db) in
  let staged := snd (snd (stage_bucket E 1 2 s)) in
  let failed := snd (commit E 1 staged) in
  stage_bucket E 1 2 s = (Ret true, (["foo"], staged)) /\
  commit E 1 staged = (Raise Examples.dpkg_error, failed) /\
  exchange failed = Some Examples.progress_line /\
  Examples.progress_line <> EmptyString /\
  exists err,
    run_task E 1 2 s
    = (Ret tt,
       (["foo"],
        log (EInstalled (Result ["foo"] (Some err)))
          (set_exchange None failed))) /\
    ~ occurs_in Examples.progress_line err.
Proof.
  intros E s staged failed.
  split; [vm_compute; reflexivity|].
  split; [vm_compute; reflexivity|].
  split; [vm_compute; reflexivity|].
  split; [discriminate|].
  eexists. split; [vm_compute; reflexivity|].
  intros Hin%occurs_in_contains. vm_compute in Hin. discriminate.
Qed.

(** ** C1: calls that are never answered *)

(** C1, at two failing inputs.  First: foo can be installed, the forked
    child writes a byte that the encoding of the locale cannot decode, and
    dpkg fails.  [install_bucket] returns True, the task raises, reading
    the exchange file raises in [_on_done] before the callback is called,
    and the worker drops that exception: the completion callback is never
    called, and the exchange file is left behind.  Second: on the bucket
    that holds openjdk-11-doc, [install_bucket] itself raises TypeError
    before anything is handed to the executor, so there is no task and no
    call of the callback either. *)
Theorem callback_lost_on_unreadable_output :
  (let E := Examples.dpkg_fails_garbled in
   let s := (["foo"], Examples.handler Examples.foo_db) in
   exists s1 s2 h,
     install_bucket E 2 s = (Ret true, s1) /\
     _really_install_bucket E 1 2 s1
     = (Raise Examples.dpkg_error, (["foo"], h)) /\
     exchange h = Some Examples.garbled /\
     run_task E 1 2 s1 = (Ret tt, s2) /\
     callbacks (trace (snd s2)) = [] /\
     exchange (snd s2) = Some Examples.garbled) /\
  (let E := Examples.amd64 in
   let s := (["openjdk-11-doc"], Examples.handler Examples.doc_db) in
   exists s',
     install_bucket E 2 s = (Raise none_subscript, s') /\
     trace (snd s') = []).
Proof.
  split.
  - intros E s. do 3 eexists.
    split; [vm_compute; reflexivity|].
    split; [vm_compute; reflexivity|].
    split; [vm_compute; reflexivity|].
    split; [vm_compute; reflexivity|].
    split; vm_compute; reflexivity.
  - intros E s. eexists. split; vm_compute; reflexivity.
Qed.

(** ** A package database that stays locked *)

(** A task that has to reload the cache gives up when the stack is full:
    after [fuel] attempts, each followed by a sleep of one second, it
    raises RecursionError out of the first reload. *)
Lemma really_install_bucket_gives_up (E : env) fuel depth bucket h bucket'
    h1 h2 :
  is_bucket_uptodate E depth (bucket, set_exchange (Some EmptyString) h)
  = (Ret false, (bucket', h1)) ->
  enable_archs E bucket' false h1 = (Ret true, h2) ->
  busy_until E h2 fuel ->
  _really_install_bucket E fuel depth (bucket, h)
  = (Raise recursion_error, (bucket', retrying fuel h2)).
Proof.
  intros Hup Harchs Hbusy.
  unfold _really_install_bucket, stage_bucket.
  munfold. cbn [fst snd]. rewrite Hup. cbn [fst snd]. rewrite Harchs.
  cbn [fst snd]. now rewrite reload_never_opens.
Qed.

(** While another process holds the lock of the package database, the
    task of a bucket that needs a foreign architecture sleeps as many
    seconds as the stack has room for attempts, and then the completion
    callback is called, once, with the text of the RecursionError. *)
Example callback_called_under_lock :
  let E := Examples.locked in
  let s := (["x:armhf"], Examples.handler Examples.no_db) in
  exists s1,
    install_bucket E 2 s = (Ret true, s1) /\
    forall fuel, exists s2,
      run_task E fuel 2 s1 = (Ret tt, s2) /\
      slept (snd s2) = fuel /\
      callbacks (trace (snd s2))
      = [EInstalled (Result ["x:armhf"]
           (Some "maximum recursion depth exceeded"))].
Proof.
  intros E s. eexists. split; [vm_compute; reflexivity|].
  intros fuel. eexists. split.
  - eapply (run_task_calls_back E _ _ _ _ EmptyString).
    + eapply really_install_bucket_gives_up.
      * vm_compute; reflexivity.
      * vm_compute; reflexivity.
      * intros j _. reflexivity.
    + discriminate.
    + reflexivity.
  - cbn. split; [lia | reflexivity].
Qed.

(** ** The bounds of the model are not what stops the evaluators *)

Section Pieces.
Import PyStr.

Lemma prefix_empty s : String.prefix EmptyString s = true.
Proof. now destruct s. Qed.

Lemma prefix_trans a : forall b c,
  String.prefix a b = true -> String.prefix b c = true ->
  String.prefix a c = true.
Proof.
  induction a as [|x a IH]; intros b c Hab Hbc; [apply prefix_empty|].
  destruct b as [|y b]; [discriminate|].
  destruct c as [|z c]; [discriminate|].
  rewrite prefix_cons in *.
  apply andb_prop in Hab as [Hxy Hab]. apply andb_prop in Hbc as [Hyz Hbc].
  apply Ascii.eqb_eq in Hxy as ->. rewrite Hyz. cbn [andb]. eauto.
Qed.

Lemma cons_head_prefix c h t rest :
  String.prefix h rest = true ->
  exists h' t', cons_head c (h :: t) = h' :: t' /\
                String.prefix h' (String c rest) = true.
Proof.
  intros Hp. exists (String c h), t. split; [reflexivity|].
  now rewrite prefix_cons, Ascii.eqb_refl.
Qed.

(** The first piece of a split is a prefix of the text. *)
Lemma split_alt_head_bounded n : forall s,
  String.length s < n ->
  exists h t, split_alt s = h :: t /\ String.prefix h s = true.
Proof.
  induction n as [|n IH]; intros s Hlen; [lia|].
  destruct s as [|c rest]; [now exists EmptyString, []|].
  cbn [String.length] in Hlen.
  destruct (IH rest ltac:(lia)) as (h & t & Hsplit & Hp).
  cbn [split_alt].
  destruct rest as [|c2 [|c3 rest']];
    try (rewrite Hsplit; now apply cons_head_prefix).
  destruct (Ascii.eqb c " " && Ascii.eqb c2 "|" && Ascii.eqb c3 " ").
  - now exists EmptyString, (split_alt rest').
  - rewrite Hsplit. now apply cons_head_prefix.
Qed.

Lemma split_alt_head s :
  exists h t, split_alt s = h :: t /\ String.prefix h s = true.
Proof. apply (split_alt_head_bounded (S (String.length s))). lia. Qed.

(** No piece of a split holds the separator. *)
Lemma split_alt_pieces_bounded n : forall s,
  String.length s < n ->
  Forall (fun p => contains " | " p = false) (split_alt s).
Proof.
  induction n as [|n IH]; intros s Hlen; [lia|].
  destruct s as [|c rest]; [now repeat constructor|].
  cbn [String.length] in Hlen.
  assert (Hcons : (String.prefix "| " rest = true -> Ascii.eqb " " c = false)
            -> Forall (fun p => contains " | " p = false)
                 (cons_head c (split_alt rest))).
  { intros Hsep. pose proof (IH rest ltac:(lia)) as Hall.
    destruct (split_alt_head rest) as (h & t & Hsplit & Hp).
    rewrite Hsplit in *. cbn [cons_head].
    apply Forall_cons in Hall as [Hh Ht]. constructor; [|exact Ht].
    rewrite contains_cons, Hh, orb_false_r, prefix_cons.
    destruct (String.prefix "| " h) eqn:Hph; [|apply andb_false_r].
    rewrite Hsep; [reflexivity|]. eapply prefix_trans; eassumption. }
  cbn [split_alt].
  destruct rest as [|c2 [|c3 rest']].
  - apply Hcons. discriminate.
  - apply Hcons. rewrite prefix_cons. cbn. now rewrite andb_false_r.
  - destruct (Ascii.eqb c " ") eqn:Hc; cbn [andb].
    + destruct (Ascii.eqb c2 "|") eqn:Hc2; cbn [andb].
      * destruct (Ascii.eqb c3 " ") eqn:Hc3.
        -- constructor; [reflexivity|].
           apply IH. cbn [String.length] in Hlen. lia.
        -- apply Hcons. rewrite !prefix_cons.
           rewrite (Ascii.eqb_sym " " c3), Hc3.
           now rewrite andb_false_r.
      * apply Hcons. rewrite !prefix_cons.
        now rewrite (Ascii.eqb_sym "|" c2), Hc2.
    + apply Hcons. intros _. now rewrite Ascii.eqb_sym.
Qed.

Lemma split_alt_pieces s :
  Forall (fun p => contains " | " p = false) (split_alt s).
Proof. apply (split_alt_pieces_bounded (S (String.length s))). lia. Qed.

End Pieces.

Section Finishes.

Lemma finishes_ret {S A} (a : A) : finishes (@ret S A a).
Proof. intros s. discriminate. Qed.

Lemma finishes_raise {S A} e : finishes (@raise S A e).
Proof. intros s. discriminate. Qed.

Lemma finishes_gets {S A} (f : S -> A) : finishes (gets f).
Proof. intros s. discriminate. Qed.

Lemma finishes_modify {S} (f : S -> S) : finishes (modify f).
Proof. intros s. discriminate. Qed.

Lemma finishes_bind {S A B} (m : M S A) (k : A -> M S B) :
  finishes m -> (forall a, finishes (k a)) -> finishes (bind m k).
Proof.
  intros Hm Hk s. unfold bind. specialize (Hm s).
  destruct (m s) as [[a|e|] s1]; cbn in *; [apply Hk | discriminate | done].
Qed.

Lemma finishes_if {S A} (c : bool) (m1 m2 : M S A) :
  finishes m1 -> finishes m2 -> finishes (if c then m1 else m2).
Proof. now destruct c. Qed.

Lemma finishes_liftH {A} (m : M hstate A) : finishes m -> finishes (liftH m).
Proof.
  intros Hm [b h]. unfold liftH. cbn [fst snd]. specialize (Hm h).
  now destruct (m h).
Qed.

End Finishes.

Ltac finishes_step :=
  lazymatch goal with
  | |- finishes (bind _ _) => apply finishes_bind; [|intros ?]
  | |- finishes (ret _) => apply finishes_ret
  | |- finishes (raise _) => apply finishes_raise
  | |- finishes (gets _) => apply finishes_gets
  | |- finishes get_bucket => apply finishes_gets
  | |- finishes get_handler => apply finishes_gets
  | |- finishes (modify _) => apply finishes_modify
  | |- finishes (modify_bucket _) => apply finishes_modify
  | |- finishes (liftH _) => apply finishes_liftH
  | |- finishes (match ?x with _ => _ end) =>
      first [apply finishes_if | destruct x]
  end.

Section EvaluatorsFinish.

Variable E : env.

Lemma check_java_equiv_finishes pkg_name :
  finishes (check_java_equiv E pkg_name).
Proof.
  unfold check_java_equiv, installed_version_of. repeat finishes_step.
Qed.

Lemma strip_native_arch_finishes {S} pkg_name :
  finishes (@strip_native_arch E S pkg_name).
Proof. unfold strip_native_arch, unpack_arch. repeat finishes_step. Qed.

Lemma resolve_finishes presence pkg_name alternatives :
  ends_on_pieces presence ->
  Forall (fun p => PyStr.contains " | " p = false) alternatives ->
  finishes (resolve presence pkg_name alternatives).
Proof.
  intros Hp. induction 1 as [|package rest Hpiece _ IH]; cbn [resolve].
  - finishes_step.
  - finishes_step; [|repeat finishes_step; exact IH].
    intros [b h]. unfold on_fresh. cbn [fst snd].
    specialize (Hp package h Hpiece).
    now destruct (presence ([package], h)).
Qed.

Lemma resolve_alternation_finishes presence pkg_name :
  ends_on_pieces presence ->
  finishes (resolve_alternation presence pkg_name).
Proof.
  intros Hp. unfold resolve_alternation. finishes_step; [|finishes_step].
  apply resolve_finishes; [exact Hp | apply split_alt_pieces].
Qed.

Lemma installed_body_finishes presence p fl :
  finishes (resolve_alternation presence p) ->
  finishes (installed_body E presence p fl).
Proof.
  intros Hr. unfold installed_body.
  finishes_step; [exact Hr|].
  finishes_step; [apply strip_native_arch_finishes|].
  repeat finishes_step. apply check_java_equiv_finishes.
Qed.

Lemma available_body_finishes presence p fl :
  finishes (resolve_alternation presence p) ->
  finishes (available_body E presence p fl).
Proof.
  intros Hr. unfold available_body, unpack_arch.
  finishes_step; [exact Hr|].
  repeat finishes_step; apply check_java_equiv_finishes.
Qed.

Lemma uptodate_body_finishes presence p fl :
  finishes (resolve_alternation presence p) ->
  finishes (uptodate_body E presence p fl).
Proof.
  intros Hr. unfold uptodate_body.
  finishes_step; [exact Hr|].
  finishes_step; [apply strip_native_arch_finishes|].
  finishes_step; [finishes_step|]. cbv zeta.
  repeat finishes_step. apply check_java_equiv_finishes.
Qed.

Lemma for_bucket_finishes body n :
  (forall p fl, finishes (body p fl)) ->
  forall i fl, finishes (for_bucket body n i fl).
Proof.
  intros Hbody. induction n as [|n IH]; intros i fl; cbn [for_bucket].
  - finishes_step.
  - finishes_step; [finishes_step|].
    finishes_step; [|finishes_step].
    finishes_step; [apply Hbody | apply IH].
Qed.

Lemma for_whole_bucket_finishes body :
  (forall p fl, finishes (body p fl)) -> finishes (for_whole_bucket body).
Proof.
  intros Hbody. unfold for_whole_bucket.
  finishes_step; [finishes_step | now apply for_bucket_finishes].
Qed.

(** On one specifier that is no alternation the loop makes one round and
    the presence test is not called. *)
Lemma for_whole_bucket_piece (body : M bstate bool -> _) presence p h :
  (forall fl, finishes (body presence p fl)) ->
  fst (for_whole_bucket (body presence) ([p], h)) <> Hang.
Proof.
  intros Hbody. munfold. cbn. specialize (Hbody true ([p], h)).
  now destruct (body presence p true ([p], h)) as [[| |] ?].
Qed.

Lemma resolve_alternation_piece presence p :
  PyStr.contains " | " p = false ->
  finishes (resolve_alternation presence p).
Proof.
  intros Hp. unfold resolve_alternation. rewrite Hp. apply finishes_ret.
Qed.

Lemma is_bucket_installed_ends_on_pieces d :
  ends_on_pieces (is_bucket_installed E (S d)).
Proof.
  intros p h Hp. cbn [is_bucket_installed].
  apply (for_whole_bucket_piece (installed_body E)). intros fl.
  now apply installed_body_finishes, resolve_alternation_piece.
Qed.

Lemma is_bucket_available_ends_on_pieces d :
  ends_on_pieces (is_bucket_available E (S d)).
Proof.
  intros p h Hp. cbn [is_bucket_available].
  apply (for_whole_bucket_piece (available_body E)). intros fl.
  now apply available_body_finishes, resolve_alternation_piece.
Qed.

(** X5: With room for one nested call the evaluators return or raise on
    every bucket: a piece of an alternation is no alternation, so the
    nesting stops there. *)
Lemma evaluators_finish d :
  finishes (is_bucket_installed E (S (S d))) /\
  finishes (is_bucket_available E (S (S d))) /\
  finishes (is_bucket_uptodate E (S d)).
Proof.
  split; [|split].
  - change (is_bucket_installed E (S (S d)))
      with (for_whole_bucket
              (installed_body E (is_bucket_installed E (S d)))).
    apply for_whole_bucket_finishes. intros p fl.
    apply installed_body_finishes, resolve_alternation_finishes,
      is_bucket_installed_ends_on_pieces.
  - change (is_bucket_available E (S (S d)))
      with (for_whole_bucket
              (available_body E (is_bucket_available E (S d)))).
    apply for_whole_bucket_finishes. intros p fl.
    apply available_body_finishes, resolve_alternation_finishes,
      is_bucket_available_ends_on_pieces.
  - unfold is_bucket_uptodate.
    apply for_whole_bucket_finishes. intros p fl.
    apply uptodate_body_finishes, resolve_alternation_finishes,
      is_bucket_available_ends_on_pieces.
Qed.

End EvaluatorsFinish.

(** ** The bounds of the model do not change the results *)

Section Bounds.

Variable E : env.

Lemma resolve_ext P Q pkg_name alternatives :
  agree_on_pieces P Q ->
  Forall (fun p => PyStr.contains " | " p = false) alternatives ->
  forall s, resolve P pkg_name alternatives s
            = resolve Q pkg_name alternatives s.
Proof.
  intros HPQ. induction 1 as [|package rest Hpiece _ IH]; intros s;
    [reflexivity|].
  cbn [resolve]. unfold bind, on_fresh. rewrite (HPQ _ _ Hpiece).
  destruct (Q ([package], snd s)) as [[[|]| |] s1]; try reflexivity.
  apply IH.
Qed.

Lemma resolve_alternation_ext P Q pkg_name s :
  agree_on_pieces P Q ->
  resolve_alternation P pkg_name s = resolve_alternation Q pkg_name s.
Proof.
  intros HPQ. unfold resolve_alternation.
  destruct (PyStr.contains " | " pkg_name); [|reflexivity].
  apply resolve_ext; [exact HPQ | apply split_alt_pieces].
Qed.

Lemma installed_body_ext P Q p fl s :
  agree_on_pieces P Q ->
  installed_body E P p fl s = installed_body E Q p fl s.
Proof.
  intros HPQ. unfold installed_body, bind at 1.
  rewrite (resolve_alternation_ext P Q) by assumption.
  unfold bind at 3. reflexivity.
Qed.

Lemma available_body_ext P Q p fl s :
  agree_on_pieces P Q ->
  available_body E P p fl s = available_body E Q p fl s.
Proof.
  intros HPQ. unfold available_body, bind at 1.
  rewrite (resolve_alternation_ext P Q) by assumption.
  unfold bind at 3. reflexivity.
Qed.

Lemma uptodate_body_ext P Q p fl s :
  agree_on_pieces P Q ->
  uptodate_body E P p fl s = uptodate_body E Q p fl s.
Proof.
  intros HPQ. unfold uptodate_body, bind at 1.
  rewrite (resolve_alternation_ext P Q) by assumption.
  unfold bind at 3. reflexivity.
Qed.

Lemma for_bucket_ext body1 body2 n :
  (forall p fl s, body1 p fl s = body2 p fl s) ->
  forall i fl s, for_bucket body1 n i fl s = for_bucket body2 n i fl s.
Proof.
  intros Hbody. induction n as [|n IH]; intros i fl s; [reflexivity|].
  cbn [for_bucket]. unfold bind, get_bucket, gets.
  destruct (fst s !! i) as [p|]; [|reflexivity].
  rewrite Hbody. destruct (body2 p fl s) as [[| |] s1]; try reflexivity.
  apply IH.
Qed.

Lemma for_whole_bucket_ext body1 body2 s :
  (forall p fl s, body1 p fl s = body2 p fl s) ->
  for_whole_bucket body1 s = for_whole_bucket body2 s.
Proof.
  intros Hbody. unfold for_whole_bucket, bind, get_bucket, gets.
  now apply for_bucket_ext.
Qed.

(** On a piece the evaluation does not depend on the presence test. *)
Lemma for_whole_bucket_piece_ext (body : M bstate bool -> _) P Q p h :
  (forall fl s, body P p fl s = body Q p fl s) ->
  for_whole_bucket (body P) ([p], h) = for_whole_bucket (body Q) ([p], h).
Proof.
  intros Hbody. munfold. cbn. rewrite Hbody.
  now destruct (body Q p true ([p], h)) as [[| |] ?].
Qed.

Lemma is_bucket_installed_depth_piece d :
  agree_on_pieces (is_bucket_installed E (S d)) (is_bucket_installed E 1).
Proof.
  intros p h Hp. cbn [is_bucket_installed].
  apply (for_whole_bucket_piece_ext (installed_body E)). intros fl s.
  unfold installed_body, bind.
  rewrite !resolve_alternation_plain by assumption. reflexivity.
Qed.

Lemma is_bucket_available_depth_piece d :
  agree_on_pieces (is_bucket_available E (S d)) (is_bucket_available E 1).
Proof.
  intros p h Hp. cbn [is_bucket_available].
  apply (for_whole_bucket_piece_ext (available_body E)). intros fl s.
  unfold available_body, bind.
  rewrite !resolve_alternation_plain by assumption. reflexivity.
Qed.

(** A deeper bound gives the same evaluation. *)
Lemma depth_irrelevant d s :
  is_bucket_installed E (S (S d)) s = is_bucket_installed E 2 s /\
  is_bucket_available E (S (S d)) s = is_bucket_available E 2 s /\
  is_bucket_uptodate E (S d) s = is_bucket_uptodate E 1 s.
Proof.
  split; [|split].
  - change (for_whole_bucket (installed_body E (is_bucket_installed E (S d))) s
            = for_whole_bucket (installed_body E (is_bucket_installed E 1)) s).
    apply for_whole_bucket_ext. intros p fl s'.
    apply installed_body_ext, is_bucket_installed_depth_piece.
  - change (for_whole_bucket (available_body E (is_bucket_available E (S d))) s
            = for_whole_bucket (available_body E (is_bucket_available E 1)) s).
    apply for_whole_bucket_ext. intros p fl s'.
    apply available_body_ext, is_bucket_available_depth_piece.
  - unfold is_bucket_uptodate.
    apply for_whole_bucket_ext. intros p fl s'.
    apply uptodate_body_ext, is_bucket_available_depth_piece.
Qed.

End Bounds.

(** ** The rounds of the loop *)

#[local] Instance same_length_preorder : PreOrder same_length.
Proof.
  split.
  - intros s. reflexivity.
  - intros s1 s2 s3. unfold same_length. congruence.
Qed.

Section Rounds.

Variable E : env.

Lemma keeps_liftH_length {A} (m : M hstate A) : keeps same_length (liftH m).
Proof.
  intros [b h] o s' Hrun. unfold liftH in Hrun. cbn [fst snd] in Hrun.
  destruct (m h). now injection Hrun as <- <-.
Qed.

Lemma list_remove_length x l :
  x ∈ l -> S (length (PyStr.list_remove x l)) = length l.
Proof.
  induction l as [|y l IH]; intros Hin; [now apply elem_of_nil in Hin|].
  cbn. destruct (String.eqb_spec y x) as [->|Hne]; [reflexivity|].
  apply elem_of_cons in Hin as [->|Hin]; [done|]. cbn. now rewrite IH.
Qed.

(** Resolving removes one element and appends one. *)
Lemma resolve_length presence pkg_name alternatives : forall s o s',
  pkg_name ∈ fst s ->
  resolve presence pkg_name alternatives s = (o, s') ->
  same_length s s'.
Proof.
  induction alternatives as [|package rest IH]; intros s o s' Hin Hrun.
  - injection Hrun as <- <-. reflexivity.
  - cbn [resolve] in Hrun. unfold bind at 1, on_fresh in Hrun.
    destruct (presence ([package], snd s)) as [[[|]| |] s1].
    + munfold. cbn [fst snd] in Hrun. injection Hrun as <- <-.
      unfold same_length. cbn [fst]. rewrite length_app. cbn.
      rewrite <- (list_remove_length pkg_name (fst s)) by assumption. lia.
    + apply (IH (fst s, snd s1)) in Hrun; [exact Hrun | exact Hin].
    + now injection Hrun as <- <-.
    + now injection Hrun as <- <-.
Qed.

(** A body is the resolution followed by a part that does not touch the
    bucket. *)
Lemma resolved_then_length {A} presence p (rest : string -> M bstate A)
    s o s' :
  (forall q, keeps same_length (rest q)) ->
  p ∈ fst s ->
  bind (resolve_alternation presence p) rest s = (o, s') ->
  same_length s s'.
Proof.
  intros Hrest Hin Hrun. unfold bind in Hrun.
  destruct (resolve_alternation presence p s) as [[q|e|] s1] eqn:Hres.
  - transitivity s1; [|eapply Hrest, Hrun].
    unfold resolve_alternation in Hres.
    destruct (PyStr.contains " | " p).
    + eapply resolve_length; eassumption.
    + now injection Hres as _ <-.
  - injection Hrun as <- <-. unfold resolve_alternation in Hres.
    destruct (PyStr.contains " | " p); [|discriminate].
    eapply resolve_length; eassumption.
  - injection Hrun as <- <-. unfold resolve_alternation in Hres.
    destruct (PyStr.contains " | " p); [|discriminate].
    eapply resolve_length; eassumption.
Qed.

Ltac length_step := first [apply keeps_liftH_length | keeps_step].

Lemma installed_body_length presence p fl s o s' :
  p ∈ fst s ->
  installed_body E presence p fl s = (o, s') -> same_length s s'.
Proof.
  intros Hin. unfold installed_body. apply resolved_then_length; [|exact Hin].
  intros q. length_step; [apply strip_native_arch_keeps; apply _|].
  repeat length_step.
Qed.

Lemma available_body_length presence p fl s o s' :
  p ∈ fst s ->
  available_body E presence p fl s = (o, s') -> same_length s s'.
Proof.
  intros Hin. unfold available_body, unpack_arch.
  apply resolved_then_length; [|exact Hin].
  intros q. repeat length_step.
Qed.

Lemma uptodate_body_length presence p fl s o s' :
  p ∈ fst s ->
  uptodate_body E presence p fl s = (o, s') -> same_length s s'.
Proof.
  intros Hin. unfold uptodate_body. apply resolved_then_length; [|exact Hin].
  intros q. length_step; [apply strip_native_arch_keeps; apply _|].
  length_step; [length_step|]. cbv zeta. repeat length_step.
Qed.

(** Once the index is at the end of the bucket, further rounds do
    nothing: the rounds [for_bucket] is given are all the rounds there
    are. *)
Lemma for_bucket_rounds body k :
  (forall p fl s o s', p ∈ fst s -> body p fl s = (o, s') ->
                       same_length s s') ->
  forall n i fl s,
    i + n = length (fst s) ->
    for_bucket body (n + k) i fl s = for_bucket body n i fl s.
Proof.
  intros Hlen. induction n as [|n IH]; intros i fl s Hi.
  - destruct k as [|k]; [reflexivity|]. cbn [Nat.add for_bucket].
    unfold bind, get_bucket, gets.
    now rewrite (proj2 (lookup_ge_None (fst s) i)) by lia.
  - cbn [Nat.add for_bucket]. unfold bind, get_bucket, gets.
    destruct (fst s !! i) as [p|] eqn:Hp; [|reflexivity].
    destruct (body p fl s) as [[fl'| |] s1] eqn:Hb; try reflexivity.
    apply IH. rewrite (Hlen _ _ _ _ _ (list_elem_of_lookup_2 _ _ _ Hp) Hb).
    lia.
Qed.

(** The three loops end after as many rounds as the bucket has
    elements. *)
Lemma evaluator_rounds presence k s :
  for_bucket (installed_body E presence) (length (fst s) + k) 0 true s
  = for_whole_bucket (installed_body E presence) s /\
  for_bucket (available_body E presence) (length (fst s) + k) 0 true s
  = for_whole_bucket (available_body E presence) s /\
  for_bucket (uptodate_body E presence) (length (fst s) + k) 0 true s
  = for_whole_bucket (uptodate_body E presence) s.
Proof.
  unfold for_whole_bucket. repeat split;
    unfold bind at 1, get_bucket, gets;
    apply for_bucket_rounds; try reflexivity.
  - intros *. apply installed_body_length.
  - intros *. apply available_body_length.
  - intros *. apply uptodate_body_length.
Qed.

End Rounds.

(** ** Whole evaluations on small buckets *)

(** The alternation stood first; the chosen alternative is last. *)
Example resolved_alternative_is_last :
  let E := Examples.amd64 in
  let h := Examples.handler Examples.only_b in
  snd (is_bucket_installed E 2 (["a | b"; "c"], h)) = (["c"; "b"], h) /\
  snd (is_bucket_available E 2 (["a | b"; "c"], h)) = (["c"; "b"], h) /\
  snd (is_bucket_uptodate E 1 (["a | b"; "c"], h)) = (["c"; "b"], h).
Proof. repeat split; vm_compute; reflexivity. Qed.

(** The equivalence rule answers for the whole bucket: foo is not in the
    cache, java 17.0.1 stands for openjdk-11-jre, and the bucket is
    reported up to date. *)
Example java_answers_for_the_bucket :
  let E := Examples.amd64_java17 in
  let h := Examples.handler Examples.no_db in
  fst (is_bucket_uptodate E 1 (["foo"; "openjdk-11-jre"], h)) = Ret true.
Proof. vm_compute. reflexivity. Qed.

(** A release that is neither jre nor jdk leaves [installed_version]
    unassigned. *)
Example check_java_equiv_other_release :
  let E := Examples.amd64 in
  let h := Examples.handler Examples.no_db in
  fst (check_java_equiv E "openjdk-11-jdb" h)
  = Raise (unbound_local "installed_version").
Proof. vm_compute. reflexivity. Qed.

(** * Further properties of the handler *)

(** ** The evaluators as a whole *)

Section Evaluators.

Variable E : env.

(** While the body answers [f] and leaves bucket and handler alone on the
    [n] elements from index [i] on, the loop folds [f] over them and goes
    on from index [i + n]. *)
Lemma for_bucket_prefix body (f : string -> bool -> bool) bucket h n :
  forall i fl m,
    (forall k p fl', i <= k < i + n -> bucket !! k = Some p ->
       body p fl' (bucket, h) = (Ret (f p fl'), (bucket, h))) ->
    for_bucket body (n + m) i fl (bucket, h)
    = for_bucket body m (i + n)
        (fold_left (fun a p => f p a) (take n (drop i bucket)) fl)
        (bucket, h).
Proof.
  induction n as [|n IH]; intros i fl m Hbody.
  - cbn [Nat.add take fold_left]. now rewrite Nat.add_0_r.
  - cbn [Nat.add for_bucket]. unfold bind at 1, get_bucket, gets. cbn [fst].
    destruct (bucket !! i) as [p|] eqn:Hi.
    + unfold bind at 1. rewrite (Hbody i p fl) by (lia || assumption).
      rewrite IH by (intros k q fl' Hk; apply Hbody; lia).
      rewrite (drop_S _ _ _ Hi). cbn [take fold_left].
      now replace (S i + n) with (i + S n) by lia.
    + pose proof (proj1 (lookup_ge_None _ _) Hi) as Hge.
      rewrite drop_ge by lia. cbn [take fold_left].
      destruct m as [|m]; [reflexivity|]. cbn [for_bucket].
      unfold bind at 1, get_bucket, gets. cbn [fst].
      now rewrite (proj2 (lookup_ge_None bucket (i + S n))) by lia.
Qed.

Lemma installed_body_simple presence pkg_name flag (s : bstate) :
  is_simple E pkg_name = true ->
  installed_body E presence pkg_name flag s
  = (Ret (is_present E (snd s) pkg_name && flag), s).
Proof.
  unfold is_simple, is_present. intros [Halt Hname]%andb_prop.
  apply negb_true_iff in Halt.
  unfold installed_body. unfold bind at 1.
  rewrite resolve_alternation_plain by assumption.
  unfold bind at 1. rewrite strip_native_arch_spec.
  destruct (looked_up E pkg_name) as [name|]; [|discriminate].
  apply negb_true_iff in Hname. munfold. rewrite Hname.
  destruct s as [b h]. cbn [snd].
  now destruct (installed_in_cache name h).
Qed.

Lemma available_body_plain presence pkg_name flag (s : bstate) :
  is_plain E pkg_name = true ->
  available_body E presence pkg_name flag s
  = (Ret (is_reachable E (snd s) pkg_name && flag), s).
Proof.
  unfold is_plain, is_reachable, looked_up.
  intros [[Halt Hjdk]%andb_prop Hsplit]%andb_prop.
  apply negb_true_iff in Halt. apply negb_true_iff in Hjdk.
  unfold available_body, unpack_arch. unfold bind at 1.
  rewrite resolve_alternation_plain by assumption.
  destruct s as [b h]. munfold. cbn [fst snd].
  destruct (in_cache pkg_name h); [reflexivity|]. cbn [negb orb].
  destruct (PyStr.contains ":" pkg_name); cbn [andb].
  - destruct (PyStr.split_char ":" pkg_name) as [|x [|y [|z l]]];
      try discriminate.
    cbn [fst snd].
    destruct (String.eqb y (current_arch E) && in_cache x h); cbn [orb];
      [reflexivity|].
    destruct (existsb (String.eqb y) (foreign_archs h)); cbn [negb];
      [|reflexivity].
    now rewrite Hjdk.
  - now rewrite Hjdk.
Qed.

End Evaluators.

(** X1: on a bucket of bare and architecture-qualified specifiers outside
    the openjdk rule, [is_bucket_installed] returns whether every
    specifier is installed under the name it is looked up under, and it
    leaves the bucket and the handler as they were. *)
Theorem is_bucket_installed_on_simple (E : env) (d : nat)
    (bucket : list string) (h : hstate) :
  forallb (is_simple E) bucket = true ->
  is_bucket_installed E (S d) (bucket, h)
  = (Ret (forallb (is_present E h) bucket), (bucket, h)).
Proof.
  intros Hsimple. cbn [is_bucket_installed].
  rewrite (for_whole_bucket_pure _ (fun p fl => is_present E h p && fl)).
  - now rewrite fold_current.
  - intros p fl Hp. rewrite installed_body_simple; [reflexivity|].
    rewrite forallb_forall in Hsimple. apply Hsimple.
    now apply list_elem_of_In.
Qed.

Lemma is_bucket_installed_on_simple_witness :
  let E := Examples.amd64 in
  let h := Examples.handler Examples.only_b in
  is_bucket_installed E 1 (["b:amd64"; "foo"], h)
  = (Ret false, (["b:amd64"; "foo"], h)).
Proof.
  intros E h.
  apply (is_bucket_installed_on_simple E 0 ["b:amd64"; "foo"] h).
  vm_compute; reflexivity.
Defined.

(** X2: on a bucket of specifiers without alternation and without
    "openjdk", [is_bucket_available] returns whether every specifier is
    in the cache as written, or is qualified with the current architecture
    and in the cache under its bare name, or is qualified with an
    architecture that is not enabled; bucket and handler are left as they
    were. *)
Theorem is_bucket_available_on_plain (E : env) (d : nat)
    (bucket : list string) (h : hstate) :
  forallb (is_plain E) bucket = true ->
  is_bucket_available E (S d) (bucket, h)
  = (Ret (forallb (is_reachable E h) bucket), (bucket, h)).
Proof.
  intros Hplain. cbn [is_bucket_available].
  rewrite (for_whole_bucket_pure _ (fun p fl => is_reachable E h p && fl)).
  - now rewrite fold_current.
  - intros p fl Hp. rewrite available_body_plain; [reflexivity|].
    rewrite forallb_forall in Hplain. apply Hplain.
    now apply list_elem_of_In.
Qed.

Lemma is_bucket_available_on_plain_witness :
  let E := Examples.amd64 in
  let h := Examples.handler Examples.only_b in
  is_bucket_available E 1 (["b"; "x:armhf"; "foo"], h)
  = (Ret false, (["b"; "x:armhf"; "foo"], h)).
Proof.
  intros E h.
  apply (is_bucket_available_on_plain E 0 ["b"; "x:armhf"; "foo"] h).
  vm_compute; reflexivity.
Defined.

(** X3: the three evaluators only read the package database: whatever they
    return or raise, the cache, the enabled architectures, the exchange
    file, the reload counters and the trace of package-manager operations
    are as before.  The cached java version texts are all they may write in
    the handler. *)
Theorem evaluators_read_only (E : env) (depth : nat) :
  keeps (on_handler same_world) (is_bucket_installed E depth) /\
  keeps (on_handler same_world) (is_bucket_available E depth) /\
  keeps (on_handler same_world) (is_bucket_uptodate E depth).
Proof.
  split; [|split].
  - apply is_bucket_installed_keeps; [apply _ | auto].
  - apply is_bucket_available_keeps; [apply _ | auto].
  - apply is_bucket_uptodate_keeps; [apply _ | auto].
Qed.

Section Lengths.

Variable E : env.

Lemma for_bucket_length body n :
  (forall p fl s o s', p ∈ fst s -> body p fl s = (o, s') ->
                       same_length s s') ->
  forall i fl, keeps same_length (for_bucket body n i fl).
Proof.
  intros Hlen. induction n as [|n IH]; intros i fl s o s' Hrun.
  - injection Hrun as <- <-. reflexivity.
  - cbn [for_bucket] in Hrun. unfold bind at 1, get_bucket, gets in Hrun.
    cbn [fst] in Hrun.
    destruct (fst s !! i) as [p|] eqn:Hp.
    + unfold bind in Hrun.
      destruct (body p fl s) as [[fl'|e|] s1] eqn:Hb.
      * transitivity s1; [|eapply IH, Hrun].
        eapply Hlen; [eapply list_elem_of_lookup_2, Hp | exact Hb].
      * injection Hrun as <- <-.
        eapply Hlen; [eapply list_elem_of_lookup_2, Hp | exact Hb].
      * injection Hrun as <- <-.
        eapply Hlen; [eapply list_elem_of_lookup_2, Hp | exact Hb].
    + injection Hrun as <- <-. reflexivity.
Qed.

Lemma for_whole_bucket_length body :
  (forall p fl s o s', p ∈ fst s -> body p fl s = (o, s') ->
                       same_length s s') ->
  keeps same_length (for_whole_bucket body).
Proof.
  intros Hlen s o s' Hrun.
  unfold for_whole_bucket, bind, get_bucket, gets in Hrun.
  eapply for_bucket_length; eassumption.
Qed.

End Lengths.

(** X4: an evaluation never changes the number of specifiers of the
    bucket, whether it returns or raises: resolving an alternation takes one
    element out and puts one in. *)
Theorem evaluators_keep_length (E : env) (depth : nat) :
  keeps same_length (is_bucket_installed E depth) /\
  keeps same_length (is_bucket_available E depth) /\
  keeps same_length (is_bucket_uptodate E depth).
Proof.
  split; [|split].
  - destruct depth as [|d]; cbn [is_bucket_installed].
    + apply keeps_hang; apply _.
    + apply for_whole_bucket_length. intros *. apply installed_body_length.
  - destruct depth as [|d]; cbn [is_bucket_available].
    + apply keeps_hang; apply _.
    + apply for_whole_bucket_length. intros *. apply available_body_length.
  - apply for_whole_bucket_length. intros *. apply uptodate_body_length.
Qed.

(** ** Buckets the loop does not read in full *)

Section Skips.

Variable E : env.

Lemma fold_current_from (f : string -> bool) bucket fl :
  fold_left (fun a p => f p && a) bucket fl = forallb f bucket && fl.
Proof.
  revert fl. induction bucket as [|p l IH]; intros fl; [reflexivity|].
  cbn. rewrite IH. now destruct (f p), (forallb f l), fl.
Qed.

Lemma is_name_simple b : is_name b = true -> is_simple E b = true.
Proof.
  intros (Hsp & Hcolon & Hjdk)%is_name_parts. unfold is_simple.
  rewrite (no_space_no_alt _ Hsp), (looked_up_bare E b Hcolon), Hjdk.
  reflexivity.
Qed.

Lemma is_current_name h b :
  is_name b = true ->
  is_current E h b
  = installed_in_cache b h && negb (upgradable_in_cache b h).
Proof.
  intros (_ & Hcolon & _)%is_name_parts. unfold is_current.
  now rewrite (looked_up_bare E b Hcolon).
Qed.

Lemma is_present_name h b :
  is_name b = true -> is_present E h b = installed_in_cache b h.
Proof.
  intros (_ & Hcolon & _)%is_name_parts. unfold is_present.
  now rewrite (looked_up_bare E b Hcolon).
Qed.

(** The loop after its first round has resolved the leading alternation
    of two names to [b]: it goes on at index 1 of the new bucket, which is
    [rest ++ [b]] seen from there. *)
Lemma rounds_after_resolution body (f : string -> bool) q rest b h fl :
  (forall p fl', p ∈ (rest ++ [b])%list ->
     body p fl' ((q :: rest ++ [b])%list, h)
     = (Ret (f p && fl'), ((q :: rest ++ [b])%list, h))) ->
  for_bucket body (S (length rest)) 1 fl ((q :: rest ++ [b])%list, h)
  = (Ret (forallb f (rest ++ [b]) && fl), ((q :: rest ++ [b])%list, h)).
Proof.
  intros Hbody.
  replace (S (length rest)) with (S (length rest) + 0) by lia.
  rewrite (for_bucket_prefix body (fun p a => f p && a)).
  - cbn [for_bucket]. unfold ret. rewrite fold_current_from.
    change (drop 1 (q :: rest ++ [b])) with (rest ++ [b])%list.
    rewrite take_ge by (rewrite length_app; cbn; lia). reflexivity.
  - intros k p fl' Hk Hp. apply Hbody.
    destruct k as [|k]; [lia|]. cbn in Hp.
    eapply list_elem_of_lookup_2, Hp.
Qed.

(** The first round of the loop. *)
Lemma for_whole_bucket_first_round body x l h fl s1 :
  body x true ((x :: l)%list, h) = (Ret fl, s1) ->
  for_whole_bucket body ((x :: l)%list, h)
  = for_bucket body (length l) 1 fl s1.
Proof.
  intros Hbody. unfold for_whole_bucket, get_bucket, bind, gets.
  cbn [fst length for_bucket]. unfold get_bucket, bind, gets. cbn [fst].
  change ((x :: l) !! 0) with (Some x). cbv beta iota.
  now rewrite Hbody.
Qed.

End Skips.

(** X9: when the first specifier of a bucket is an alternation of two
    names that resolves to the second one, the specifier that follows it is
    never examined: [is_bucket_uptodate] and [is_bucket_installed] answer
    for the rest of the bucket and for the chosen alternative only, whatever
    the skipped specifier [q] is. *)
Theorem element_after_alternation_skipped (E : env) (d : nat) (h : hstate)
    (a b q : string) (rest : list string) :
  is_name a = true -> is_name b = true ->
  forallb (is_simple E) rest = true ->
  (in_cache a h = false -> in_cache b h = true ->
   is_bucket_uptodate E (S d) ((alternation a b :: q :: rest)%list, h)
   = (Ret (forallb (is_current E h) (rest ++ [b])),
      ((q :: rest ++ [b])%list, h))) /\
  (installed_in_cache a h = false -> installed_in_cache b h = true ->
   is_bucket_installed E (S (S d)) ((alternation a b :: q :: rest)%list, h)
   = (Ret (forallb (is_present E h) (rest ++ [b])),
      ((q :: rest ++ [b])%list, h))).
Proof.
  intros Ha Hb Hrest.
  assert (Hsimple : forall p, p ∈ (rest ++ [b])%list -> is_simple E p = true).
  { intros p [Hp|Hp%list_elem_of_singleton]%elem_of_app.
    - rewrite forallb_forall in Hrest. now apply Hrest, list_elem_of_In.
    - subst p. now apply is_name_simple. }
  assert (Hremove : PyStr.list_remove (alternation a b)
                      (alternation a b :: q :: rest) = q :: rest).
  { cbn. now rewrite String.eqb_refl. }
  split.
  - intros Hia Hib. unfold is_bucket_uptodate.
    erewrite for_whole_bucket_first_round; cycle 1.
    { rewrite (uptodate_body_alternation E _ a b) by
        (rewrite ?is_bucket_available_name by assumption; congruence).
      rewrite Hremove. reflexivity. }
    cbn [length app].
    rewrite (rounds_after_resolution _ (is_current E h)).
    + rewrite <- (is_current_name E h b Hb), andb_true_r.
      rewrite forallb_app. cbn [forallb].
      now destruct (forallb (is_current E h) rest), (is_current E h b).
    + intros p fl' Hp. now rewrite uptodate_body_simple by now apply Hsimple.
  - intros Hia Hib.
    change (is_bucket_installed E (S (S d)))
      with (for_whole_bucket
              (installed_body E (is_bucket_installed E (S d)))).
    erewrite for_whole_bucket_first_round; cycle 1.
    { rewrite (installed_body_alternation E _ a b) by
        (rewrite ?is_bucket_installed_name by assumption; congruence).
      rewrite Hremove. reflexivity. }
    cbn [length app].
    rewrite (rounds_after_resolution _ (is_present E h)).
    + now rewrite andb_true_r.
    + intros p fl' Hp. now rewrite installed_body_simple by now apply Hsimple.
Qed.

Lemma element_after_alternation_skipped_witness :
  let E := Examples.amd64 in
  let h := Examples.handler Examples.only_b in
  is_bucket_uptodate E 1 (["a | b"; "not-installed"; "b"], h)
  = (Ret true, (["not-installed"; "b"; "b"], h)) /\
  is_bucket_installed E 2 (["a | b"; "not-installed"; "b"], h)
  = (Ret true, (["not-installed"; "b"; "b"], h)).
Proof.
  intros E h.
  destruct (element_after_alternation_skipped E 0 h "a" "b" "not-installed"
              ["b"] eq_refl eq_refl eq_refl) as [Hup Hinst].
  split; [exact (Hup eq_refl eq_refl) | exact (Hinst eq_refl eq_refl)].
Defined.

(** ** C10: where the chosen alternative goes *)

Section Moves.

Variable E : env.











End Moves.




Section Override.

Variable E : env.

(** The loop on a bucket whose last element is [j], after rounds that
    changed nothing: one round on [j] is left. *)
Lemma last_round body (f : string -> bool) pre j h :
  (forall p fl, p ∈ pre ->
     body p fl ((pre ++ [j])%list, h)
     = (Ret (f p && fl), ((pre ++ [j])%list, h))) ->
  for_whole_bucket body ((pre ++ [j])%list, h)
  = bind (body j (forallb f pre)) ret ((pre ++ [j])%list, h).
Proof.
  intros Hbody. unfold for_whole_bucket, bind at 1, get_bucket, gets.
  cbn [fst]. rewrite length_app. cbn [length].
  rewrite (for_bucket_prefix body (fun p a => f p && a)).
  - rewrite drop_0, take_app_length, fold_current. cbn [Nat.add for_bucket].
    unfold bind at 1, get_bucket, gets. cbn [fst].
    rewrite list_lookup_middle by reflexivity. reflexivity.
  - intros k p fl' Hk Hp. apply Hbody.
    rewrite lookup_app_l in Hp by lia. eapply list_elem_of_lookup_2, Hp.
Qed.

End Override.

(** X10: an openjdk requirement at the end of a bucket that
    [check_java_equiv] accepts makes [is_bucket_uptodate] return True
    whatever the specifiers before it are worth, and [is_bucket_installed]
    as well when the openjdk package itself is not installed: the answer of
    [check_java_equiv] is stored over the flag the earlier specifiers
    set. *)
Theorem accepted_openjdk_overrides (E : env) (d : nat) (h h' : hstate)
    (pre : list string) (j : string) :
  forallb (is_simple E) pre = true ->
  PyStr.contains " | " j = false ->
  PyStr.contains ":" j = false ->
  PyStr.contains "openjdk" j = true ->
  check_java_equiv E j h = (Ret true, h') ->
  is_bucket_uptodate E d ((pre ++ [j])%list, h)
  = (Ret true, ((pre ++ [j])%list, h')) /\
  (installed_in_cache j h = false ->
   is_bucket_installed E (S d) ((pre ++ [j])%list, h)
   = (Ret true, ((pre ++ [j])%list, h'))).
Proof.
  intros Hpre Halt Hcolon Hjdk Hjava.
  assert (Hsimple : forall p, p ∈ pre -> is_simple E p = true).
  { intros p Hp. rewrite forallb_forall in Hpre.
    now apply Hpre, list_elem_of_In. }
  split.
  - unfold is_bucket_uptodate.
    rewrite (last_round _ (is_current E h)).
    + unfold bind at 1, uptodate_body, bind at 1.
      rewrite resolve_alternation_plain by assumption.
      unfold bind at 1. rewrite strip_native_arch_plain by assumption.
      munfold. cbn [fst snd]. rewrite Hjdk. cbn [fst snd]. rewrite Hjava.
      reflexivity.
    + intros p fl Hp. now rewrite uptodate_body_simple by now apply Hsimple.
  - intros Hinst. cbn [is_bucket_installed].
    rewrite (last_round _ (is_present E h)).
    + unfold bind at 1, installed_body, bind at 1.
      rewrite resolve_alternation_plain by assumption.
      unfold bind at 1. rewrite strip_native_arch_plain by assumption.
      munfold. cbn [fst snd]. rewrite Hinst. cbn [negb].
      rewrite Hjdk. cbn [fst snd]. rewrite Hjava. reflexivity.
    + intros p fl Hp. now rewrite installed_body_simple by now apply Hsimple.
Qed.

Lemma accepted_openjdk_overrides_witness :
  let E := Examples.amd64_java17 in
  let h := Examples.handler Examples.no_db in
  let h' := set_jre (Some (Examples.java_output "17.0.1")) h in
  is_bucket_uptodate E 1 (["foo"; "openjdk-11-jre"], h)
  = (Ret true, (["foo"; "openjdk-11-jre"], h')) /\
  is_bucket_installed E 1 (["foo"; "openjdk-11-jre"], h)
  = (Ret true, (["foo"; "openjdk-11-jre"], h')).
Proof.
  intros E h h'.
  destruct (accepted_openjdk_overrides E 1 h h' ["foo"] "openjdk-11-jre"
              eq_refl eq_refl eq_refl eq_refl eq_refl) as [Hup Hinst].
  split; [exact Hup | exact (Hinst eq_refl)].
Defined.

(** ** [check_java_equiv]: the probe and the comparison *)

Section JavaProbe.

Variable E : env.

Lemma installed_version_of_missing attr store search h :
  unset (attr h) = true ->
  installed_version_of attr store ProbeMissing search h = (Ret None, h).
Proof.
  intros Hunset. unfold installed_version_of. munfold. now rewrite Hunset.
Qed.

Lemma installed_version_of_cached attr store p search h text :
  attr h = Some text -> text <> EmptyString ->
  installed_version_of attr store p search h
  = match search text with
    | Some g => (Ret (Some g), h)
    | None => (Raise none_subscript, h)
    end.
Proof.
  intros Hattr Htext. unfold installed_version_of. munfold. rewrite Hattr.
  cbn [unset]. apply String.eqb_neq in Htext. rewrite Htext.
  now destruct (search text).
Qed.

End JavaProbe.

(** X11: when the version command of the flavour is missing (and no version
    text is stored yet), [check_java_equiv] returns False for every
    requirement of that flavour; it raises nothing and leaves the handler as
    it was. *)
Theorem check_java_equiv_missing_command (E : env) (pkg_name : string)
    (h : hstate) (required release : string) :
  Regex.search_openjdk pkg_name = Some (required, release) ->
  (release = "jre" /\ unset (jre_installed_version h) = true
   /\ java_probe E = ProbeMissing) \/
  (release = "jdk" /\ unset (jdk_installed_version h) = true
   /\ javac_probe E = ProbeMissing) ->
  check_java_equiv E pkg_name h = (Ret false, h).
Proof.
  intros Hreq [(-> & Hunset & Hprobe)|(-> & Hunset & Hprobe)];
    unfold check_java_equiv; rewrite Hreq; cbn [String.eqb Ascii.eqb];
    cbn; rewrite Hprobe; unfold bind;
    now rewrite installed_version_of_missing.
Qed.

Lemma check_java_equiv_missing_command_witness :
  let E := Examples.host "amd64" ProbeMissing [] in
  let h := Examples.handler Examples.no_db in
  check_java_equiv E "openjdk-11-jre" h = (Ret false, h) /\
  check_java_equiv E "openjdk-11-jdk-headless" h = (Ret false, h).
Proof.
  intros E h. split.
  - apply (check_java_equiv_missing_command E "openjdk-11-jre" h
             "11" "jre" eq_refl).
    left. repeat split.
  - apply (check_java_equiv_missing_command E "openjdk-11-jdk-headless" h
             "11" "jdk" eq_refl).
    right. repeat split.
Defined.

(** X12: the version command of a flavour is run once.  After a call has
    stored the text [java -version] printed, every later call for the jre
    flavour, on any requirement and whatever the command would print now,
    answers from the stored text and leaves the handler as it is; the same
    holds for the jdk flavour and [javac -version]. *)
Theorem check_java_equiv_probes_once (E E' : env) (pkg_name pkg_name' : string)
    (h h1 : hstate) (o : outcome bool) (required required' out : string) :
  out <> EmptyString ->
  (Regex.search_openjdk pkg_name = Some (required, "jre") /\
   Regex.search_openjdk pkg_name' = Some (required', "jre") /\
   unset (jre_installed_version h) = true /\
   java_probe E = ProbeOutput out /\
   check_java_equiv E pkg_name h = (o, h1) ->
   h1 = set_jre (Some out) h /\
   check_java_equiv E' pkg_name' h1
   = match Regex.search_jre_version out with
     | Some v => (Ret (PyStr.str_ge v required'), h1)
     | None => (Raise none_subscript, h1)
     end) /\
  (Regex.search_openjdk pkg_name = Some (required, "jdk") /\
   Regex.search_openjdk pkg_name' = Some (required', "jdk") /\
   unset (jdk_installed_version h) = true /\
   javac_probe E = ProbeOutput out /\
   check_java_equiv E pkg_name h = (o, h1) ->
   h1 = set_jdk (Some out) h /\
   check_java_equiv E' pkg_name' h1
   = match Regex.search_jdk_version out with
     | Some v => (Ret (PyStr.str_ge v required'), h1)
     | None => (Raise none_subscript, h1)
     end).
Proof.
  intros Hout. split.
  - intros (Hreq & Hreq' & Hunset & Hprobe & Hrun).
    assert (Hh1 : h1 = set_jre (Some out) h).
    { unfold check_java_equiv, installed_version_of in Hrun.
      rewrite Hreq in Hrun. cbn in Hrun. munfold.
      rewrite Hunset, Hprobe in Hrun. cbn in Hrun.
      destruct (Regex.search_jre_version out);
        now injection Hrun as _ <-. }
    split; [exact Hh1|]. subst h1.
    unfold check_java_equiv. rewrite Hreq'. cbn [String.eqb Ascii.eqb].
    cbn. unfold bind.
    rewrite (installed_version_of_cached _ _ _ _ _ out) by
      (assumption || now destruct h).
    now destruct (Regex.search_jre_version out).
  - intros (Hreq & Hreq' & Hunset & Hprobe & Hrun).
    assert (Hh1 : h1 = set_jdk (Some out) h).
    { unfold check_java_equiv, installed_version_of in Hrun.
      rewrite Hreq in Hrun. cbn in Hrun. munfold.
      rewrite Hunset, Hprobe in Hrun. cbn in Hrun.
      destruct (Regex.search_jdk_version out);
        now injection Hrun as _ <-. }
    split; [exact Hh1|]. subst h1.
    unfold check_java_equiv. rewrite Hreq'. cbn [String.eqb Ascii.eqb].
    cbn. unfold bind.
    rewrite (installed_version_of_cached _ _ _ _ _ out) by
      (assumption || now destruct h).
    now destruct (Regex.search_jdk_version out).
Qed.

Lemma check_java_equiv_probes_once_witness :
  let E := Examples.amd64_java17 in
  let E' := Examples.host "amd64" ProbeMissing [] in
  let h := Examples.handler Examples.no_db in
  let h1 := set_jre (Some (Examples.java_output "17.0.1")) h in
  check_java_equiv E' "openjdk-8-jre" h1 = (Ret false, h1).
Proof.
  intros E E' h h1.
  assert (Hout : Examples.java_output "17.0.1" <> EmptyString)
    by discriminate.
  destruct (check_java_equiv_probes_once E E' "openjdk-11-jre"
              "openjdk-8-jre" h h1 (Ret true) "11" "8" _ Hout) as [Hjre _].
  destruct Hjre as [_ Hsecond]; [repeat split|exact Hsecond].
Defined.

(** ** When the comparison of texts is the comparison of numbers *)

Section Numeric.
Import PyStr.

Lemma is_digit_bounds c :
  is_digit c = true -> (48 <= N_of_ascii c <= 57)%N.
Proof.
  unfold is_digit, in_range. intros [H1 H2]%andb_prop.
  apply N.leb_le in H1, H2. cbn in H1, H2. lia.
Qed.

Lemma fold_number_shift l : forall acc,
  fold_left (fun acc c => (acc * 10 + digit_of c)%N) l acc
  = (acc * 10 ^ N.of_nat (length l)
     + fold_left (fun acc c => (acc * 10 + digit_of c)%N) l 0)%N.
Proof.
  induction l as [|c l IH]; intros acc.
  - cbn. lia.
  - cbn [fold_left length]. rewrite IH, (IH (0 * 10 + digit_of c)%N).
    rewrite Nat2N.inj_succ, N.pow_succ_r'. lia.
Qed.

Lemma number_of_cons c s :
  Spec.number_of (String c s)
  = (digit_of c * 10 ^ N.of_nat (String.length s) + Spec.number_of s)%N.
Proof.
  unfold Spec.number_of. cbn [list_ascii_of_string fold_left].
  change (fun acc c0 => (acc * 10 + (N_of_ascii c0 - 48))%N)
    with (fun acc c0 => (acc * 10 + digit_of c0)%N).
  rewrite fold_number_shift. f_equal.
  f_equal. f_equal. f_equal.
  induction s as [|x s IH]; [reflexivity|]. cbn. now rewrite IH.
Qed.

Lemma number_of_bound s :
  all_digits s = true ->
  (Spec.number_of s < 10 ^ N.of_nat (String.length s))%N.
Proof.
  induction s as [|c s IH]; [cbn; lia|].
  cbn [all_digits]. intros [Hc Hs]%andb_prop.
  rewrite number_of_cons. cbn [String.length].
  rewrite Nat2N.inj_succ, N.pow_succ_r'.
  pose proof (is_digit_bounds c Hc). specialize (IH Hs).
  unfold digit_of. nia.
Qed.

(** Digit texts of one length compare as the numbers they write. *)
Lemma compare_digits a : forall b,
  all_digits a = true -> all_digits b = true ->
  String.length a = String.length b ->
  String.compare a b = (Spec.number_of a ?= Spec.number_of b)%N.
Proof.
  induction a as [|c a IH]; intros [|d b] Ha Hb Hlen; try discriminate.
  - reflexivity.
  - cbn [all_digits] in Ha, Hb.
    apply andb_prop in Ha as [Hc Ha]. apply andb_prop in Hb as [Hd Hb].
    cbn [String.length] in Hlen. injection Hlen as Hlen.
    cbn [String.compare]. rewrite !number_of_cons, <- Hlen.
    pose proof (is_digit_bounds c Hc). pose proof (is_digit_bounds d Hd).
    pose proof (number_of_bound a Ha) as Hna.
    pose proof (number_of_bound b Hb) as Hnb. rewrite <- Hlen in Hnb.
    unfold Ascii.compare, digit_of.
    destruct (N.compare_spec (N_of_ascii c) (N_of_ascii d)) as [Heq|Hlt|Hgt].
    + rewrite (IH b Ha Hb Hlen), Heq.
      destruct (N.compare_spec (Spec.number_of a) (Spec.number_of b));
        symmetry; [apply N.compare_eq_iff | apply N.compare_lt_iff
                  | apply N.compare_gt_iff]; nia.
    + symmetry. apply N.compare_lt_iff. nia.
    + symmetry. apply N.compare_gt_iff. nia.
Qed.

(** What follows a text of the length of [b] plays no part unless the
    two are equal. *)
Lemma compare_app b : forall a rest,
  String.length a = String.length b ->
  String.compare b (a ++ rest)
  = match String.compare b a with
    | Eq => String.compare EmptyString rest
    | ne => ne
    end.
Proof.
  induction b as [|d b IH]; intros [|c a] rest Hlen; try discriminate.
  - reflexivity.
  - cbn [String.length] in Hlen. injection Hlen as Hlen.
    rewrite append_cons. cbn [String.compare].
    destruct (Ascii.compare d c); try reflexivity. now apply IH.
Qed.

Lemma str_ge_digits major rest required :
  all_digits major = true -> all_digits required = true ->
  String.length major = String.length required ->
  str_ge (major ++ rest) required
  = (Spec.number_of required <=? Spec.number_of major)%N.
Proof.
  intros Hm Hr Hlen. unfold str_ge, String.leb.
  rewrite compare_app by assumption.
  rewrite (compare_digits required major) by (assumption || now symmetry).
  unfold N.leb.
  destruct (Spec.number_of required ?= Spec.number_of major)%N;
    try reflexivity.
  now destruct rest.
Qed.

Lemma span_digits s : forall a b,
  span is_digit s = (a, b) -> all_digits a = true.
Proof.
  induction s as [|c s IH]; intros a b Hspan; cbn in Hspan.
  - now injection Hspan as <- _.
  - destruct (is_digit c) eqn:Hc.
    + destruct (span is_digit s) as [a' b'].
      injection Hspan as <- _. cbn [all_digits]. rewrite Hc. eauto.
    + now injection Hspan as <- _.
Qed.

(** The required version the pattern captures is a text of digits. *)
Lemma search_openjdk_digits pkg_name required release :
  Regex.search_openjdk pkg_name = Some (required, release) ->
  all_digits required = true.
Proof.
  induction pkg_name as [|c s IH]; cbn [Regex.search_openjdk].
  - unfold Regex.match_openjdk_here. cbn. discriminate.
  - destruct (Regex.match_openjdk_here (String c s)) as [[r1 r2]|] eqn:Hhere.
    + intros [= <- <-]. unfold Regex.match_openjdk_here in Hhere.
      destruct (String.prefix "openjdk-" (String c s)); [|discriminate].
      destruct (span is_digit (skip 8 (String c s))) as [digits rest] eqn:Hsp.
      destruct digits as [|x digits]; [discriminate|].
      destruct rest as [|y1 [|y2 [|y3 [|y4 rest]]]]; try discriminate.
      destruct (Ascii.eqb y1 "-" && Ascii.eqb y2 "j" && is_word y3
                && is_word y4); [|discriminate].
      injection Hhere as <- _. eapply span_digits, Hsp.
    + exact IH.
Qed.

End Numeric.

(** X13: when the version text of the installed java starts with as many
    digits as the required version has, [check_java_equiv] compares these
    digits with the required version as numbers: it accepts exactly when
    required <= installed.  (Two-digit majors against a two-digit
    requirement are the case in point.) *)
Theorem check_java_equiv_numeric_on_equal_lengths (E : env)
    (pkg_name : string) (h : hstate) (required out major rest : string) :
  Regex.search_openjdk pkg_name = Some (required, "jre") ->
  jre_installed_version h = None ->
  java_probe E = ProbeOutput out ->
  Regex.search_jre_version out = Some (major ++ rest) ->
  all_digits major = true ->
  String.length major = String.length required ->
  check_java_equiv E pkg_name h
  = (Ret (Spec.number_of required <=? Spec.number_of major)%N,
     set_jre (Some out) h).
Proof.
  intros Hreq Hjre Hprobe Hv Hmajor Hlen.
  rewrite (check_java_equiv_jre E pkg_name h required out (major ++ rest))
    by assumption.
  rewrite str_ge_digits; try assumption; [reflexivity|].
  eapply search_openjdk_digits, Hreq.
Qed.

Lemma check_java_equiv_numeric_on_equal_lengths_witness :
  let E := Examples.amd64_java17 in
  let h := Examples.handler Examples.no_db in
  check_java_equiv E "openjdk-11-jre" h
  = (Ret true, set_jre (Some (Examples.java_output "17.0.1")) h).
Proof.
  intros E h.
  apply (check_java_equiv_numeric_on_equal_lengths E "openjdk-11-jre" h
           "11" (Examples.java_output "17.0.1") "17" ".0.1");
    reflexivity.
Defined.

(** ** The reload loop and errors that are no SystemError *)

(** X14: an exception of [cache.open()] that is no SystemError is not
    retried: after [k] SystemErrors, each followed by a sleep of one second,
    with [k] below the number of attempts the stack has room for, it leaves
    [_force_reload_apt_cache] as it was raised, without a further sleep and
    without a further attempt. *)
Theorem force_reload_raises_other_errors (E : env) (h : hstate)
    (k fuel : nat) (e : exn) :
  busy_until E h k ->
  cache_open E (k + opens h) = OpenFails e ->
  k < fuel ->
  _force_reload_apt_cache E fuel h = (Raise e, reload_failed k h).
Proof.
  intros Hbusy Hfails Hlt.
  replace fuel with (k + S (fuel - S k)) by lia.
  rewrite reload_busy_prefix by assumption.
  cbn [_force_reload_apt_cache]. munfold. cbn. now rewrite Hfails.
Qed.

Lemma force_reload_raises_other_errors_witness :
  let E := Examples.locked_then_denied in
  let h := Examples.handler Examples.no_db in
  _force_reload_apt_cache E 5 h
  = (Raise Examples.permission_denied, reload_failed 2 h).
Proof.
  intros E h.
  apply (force_reload_raises_other_errors E h 2 5
           Examples.permission_denied).
  - intros j Hj. destruct j as [|[|j]]; [reflexivity | reflexivity | lia].
  - reflexivity.
  - lia.
Defined.

(** ** Marking stops at the first failure *)

Section Marking.

Variable E : env.

Lemma markable_log ev h q : markable E (log ev h) q = markable E h q.
Proof. reflexivity. Qed.

Lemma mark_one_markable h q :
  markable E h q = true ->
  mark_one E q h = (Ret tt, log (mark_event_of E h q) h).
Proof.
  unfold markable, mark_event_of, mark_one. unfold bind at 1.
  rewrite strip_native_arch_spec.
  destruct (looked_up E q) as [name|]; [|discriminate].
  unfold wrap_mark_error. munfold. unfold id.
  destruct (cache h !! name) as [pkg|]; [|discriminate].
  destruct (mark_raises E name); [discriminate|]. intros _.
  now destruct (is_installed pkg && is_upgradable pkg).
Qed.

Lemma mark_one_missing h q name :
  looked_up E q = Some name ->
  cache h !! name = None ->
  mark_one E q h
  = (Raise (Exn BaseException
              ("Can't mark for install " ++ name ++ ": "
               ++ key_error E name)), h).
Proof.
  intros Hname Hmiss. unfold mark_one. unfold bind at 1.
  rewrite strip_native_arch_spec, Hname.
  unfold wrap_mark_error. munfold. unfold id. now rewrite Hmiss.
Qed.

End Marking.

(** X15: marking goes through the bucket in order and stops at the first
    specifier whose package the cache does not have: the specifiers before
    it have been marked, for upgrade when installed and upgradable and for
    install otherwise; those after it have not; and what is raised is a
    BaseException whose text names the package, stripped of the native
    architecture. *)
Theorem mark_all_stops_at_missing (E : env) (pre post : list string)
    (p name : string) : forall h,
  forallb (markable E h) pre = true ->
  looked_up E p = Some name ->
  cache h !! name = None ->
  exists h',
    mark_all E (pre ++ p :: post)%list h
    = (Raise (Exn BaseException
                ("Can't mark for install " ++ name ++ ": "
                 ++ key_error E name)), h') /\
    trace h' = (rev (List.map (mark_event_of E h) pre) ++ trace h)%list /\
    cache h' = cache h.
Proof.
  induction pre as [|q pre IH]; intros h Hpre Hname Hmiss.
  - exists h. cbn [app mark_all]. unfold bind.
    rewrite (mark_one_missing E h p name) by assumption. now split.
  - cbn [forallb] in Hpre. apply andb_prop in Hpre as [Hq Hpre].
    destruct (IH (log (mark_event_of E h q) h) Hpre Hname Hmiss)
      as (h' & Hrun & Htrace & Hcache).
    exists h'. cbn [app mark_all]. unfold bind at 1.
    rewrite mark_one_markable by assumption. split; [exact Hrun|].
    split; [|exact Hcache].
    rewrite Htrace. cbn [List.map rev]. rewrite <- app_assoc.
    now destruct h.
Qed.

Lemma mark_all_stops_at_missing_witness :
  let E := Examples.amd64 in
  let h := Examples.handler Examples.foo_db in
  exists h',
    mark_all E ["foo:amd64"; "gone"; "foo"] h
    = (Raise (Exn BaseException "Can't mark for install gone: gone"), h') /\
    trace h' = [EMarkInstall "foo"] /\ cache h' = cache h.
Proof.
  intros E h.
  apply (mark_all_stops_at_missing E ["foo:amd64"] ["foo"] "gone" "gone" h);
    reflexivity.
Defined.

(** ** Staging never commits *)

#[local] Instance trace_kept_preorder p : PreOrder (trace_kept p).
Proof.
  split.
  - intros h. reflexivity.
  - intros h1 h2 h3. unfold trace_kept. congruence.
Qed.

Section Staging.

Variable E : env.
Variable p : event -> bool.
Hypothesis Hp : not_staging p.

Lemma trace_kept_same h h' : trace h' = trace h -> trace_kept p h h'.
Proof. unfold trace_kept. now intros ->. Qed.

Lemma trace_kept_log ev h : p ev = false -> trace_kept p h (log ev h).
Proof. intros Hev. unfold trace_kept. destruct h. cbn. now rewrite Hev. Qed.

Lemma same_world_trace_kept h h' : same_world h h' -> trace_kept p h h'.
Proof. intros (_ & _ & _ & _ & _ & Htr). now apply trace_kept_same. Qed.

Ltac kept_modify :=
  apply keeps_modify; intros [];
  first [ apply trace_kept_same; reflexivity
        | apply trace_kept_log; apply Hp ].

Lemma add_foreign_arch_kept arch :
  keeps (trace_kept p) (add_foreign_arch E arch).
Proof. unfold add_foreign_arch. repeat keeps_step; kept_modify. Qed.

Lemma force_reload_kept fuel :
  keeps (trace_kept p) (_force_reload_apt_cache E fuel).
Proof.
  induction fuel as [|fuel IH]; cbn [_force_reload_apt_cache].
  - keeps_step.
  - keeps_step; [keeps_step|]. keeps_step; [kept_modify|].
    keeps_step.
    + kept_modify.
    + keeps_step; [kept_modify | exact IH].
    + keeps_step.
Qed.

Lemma update_cache_kept : keeps (trace_kept p) (update_cache E).
Proof. unfold update_cache. keeps_step; [keeps_step | kept_modify]. Qed.

Lemma enable_archs_kept bucket : forall need,
  keeps (trace_kept p) (enable_archs E bucket need).
Proof.
  induction bucket as [|q l IH]; intros need; cbn [enable_archs].
  - keeps_step.
  - keeps_step; [|apply IH]. cbv zeta. keeps_step; [|apply IH].
    keeps_step; [keeps_step | apply add_foreign_arch_kept].
Qed.

Lemma mark_one_kept pkg_name : keeps (trace_kept p) (mark_one E pkg_name).
Proof.
  unfold mark_one. keeps_step; [apply strip_native_arch_keeps; apply _|].
  apply keeps_wrap_mark_error. repeat keeps_step; kept_modify.
Qed.

Lemma mark_all_kept bucket : keeps (trace_kept p) (mark_all E bucket).
Proof.
  induction bucket as [|q l IH]; cbn [mark_all].
  - keeps_step.
  - keeps_step; [apply mark_one_kept | exact IH].
Qed.

Lemma stage_bucket_kept fuel depth :
  keeps (on_handler (trace_kept p)) (stage_bucket E fuel depth).
Proof.
  unfold stage_bucket.
  keeps_step; [keeps_step; kept_modify|].
  keeps_step.
  { apply is_bucket_uptodate_keeps; [apply _ | apply same_world_trace_kept]. }
  keeps_step; [keeps_step|].
  keeps_step; [keeps_step|].
  keeps_step; [keeps_step; apply enable_archs_kept|].
  keeps_step.
  - keeps_step; [|keeps_step]. keeps_step.
    keeps_step; [apply force_reload_kept|].
    keeps_step; [apply update_cache_kept | apply force_reload_kept].
  - keeps_step; [keeps_step; apply mark_all_kept | keeps_step].
Qed.

End Staging.

Lemma not_staging_commit : not_staging is_commit_event.
Proof. repeat split. Qed.

(** Nothing writes to the exchange file before the commit. *)

#[local] Instance file_kept_preorder : PreOrder file_kept.
Proof.
  split.
  - intros h. reflexivity.
  - intros h1 h2 h3. unfold file_kept. congruence.
Qed.

Section StagingFile.

Variable E : env.

Lemma same_world_file_kept h h' : same_world h h' -> file_kept h h'.
Proof. now intros (_ & _ & _ & _ & Hfile & _). Qed.

Ltac file_modify := apply keeps_modify; intros []; reflexivity.

Lemma add_foreign_arch_file arch : keeps file_kept (add_foreign_arch E arch).
Proof. unfold add_foreign_arch. repeat keeps_step; file_modify. Qed.

Lemma force_reload_file fuel :
  keeps file_kept (_force_reload_apt_cache E fuel).
Proof.
  induction fuel as [|fuel IH]; cbn [_force_reload_apt_cache].
  - keeps_step.
  - keeps_step; [keeps_step|]. keeps_step; [file_modify|].
    keeps_step.
    + file_modify.
    + keeps_step; [file_modify | exact IH].
    + keeps_step.
Qed.

Lemma update_cache_file : keeps file_kept (update_cache E).
Proof. unfold update_cache. keeps_step; [keeps_step | file_modify]. Qed.

Lemma enable_archs_file bucket : forall need,
  keeps file_kept (enable_archs E bucket need).
Proof.
  induction bucket as [|q l IH]; intros need; cbn [enable_archs].
  - keeps_step.
  - keeps_step; [|apply IH]. cbv zeta. keeps_step; [|apply IH].
    keeps_step; [keeps_step | apply add_foreign_arch_file].
Qed.

Lemma mark_one_file pkg_name : keeps file_kept (mark_one E pkg_name).
Proof.
  unfold mark_one. keeps_step; [apply strip_native_arch_keeps; apply _|].
  apply keeps_wrap_mark_error. repeat keeps_step; file_modify.
Qed.

Lemma mark_all_file bucket : keeps file_kept (mark_all E bucket).
Proof.
  induction bucket as [|q l IH]; cbn [mark_all].
  - keeps_step.
  - keeps_step; [apply mark_one_file | exact IH].
Qed.

(** The exchange file is empty when the staging ends, whatever the
    outcome. *)
Lemma stage_bucket_empty_file fuel depth s o s' :
  stage_bucket E fuel depth s = (o, s') ->
  exchange (snd s') = Some EmptyString.
Proof.
  unfold stage_bucket.
  apply (bind_establishes (fun s => exchange (snd s) = Some EmptyString)
           (on_handler file_kept)).
  - intros [b h] o1 s1 [= <- <-]. reflexivity.
  - intros _. change (keeps (on_handler file_kept)
      (let* uptodate := is_bucket_uptodate E depth in
       if uptodate : bool then ret false
       else
         let* bucket := get_bucket in
         let* need_cache_reload := liftH (enable_archs E bucket false) in
         let* _ :=
           (if need_cache_reload : bool then
              liftH (let* _ := _force_reload_apt_cache E fuel in
                     let* _ := update_cache E in
                     _force_reload_apt_cache E fuel)
            else ret tt) in
         let* _ := liftH (mark_all E bucket) in
         ret true)).
    keeps_step.
    { apply is_bucket_uptodate_keeps; [apply _ | apply same_world_file_kept]. }
    keeps_step; [keeps_step|].
    keeps_step; [keeps_step|].
    keeps_step; [keeps_step; apply enable_archs_file|].
    keeps_step.
    + keeps_step; [|keeps_step]. keeps_step.
      keeps_step; [apply force_reload_file|].
      keeps_step; [apply update_cache_file | apply force_reload_file].
    + keeps_step; [keeps_step; apply mark_all_file | keeps_step].
  - intros s1 s2 Hkept Hfile. unfold on_handler, file_kept in Hkept.
    now rewrite Hkept.
Qed.

End StagingFile.

(** X16: nothing is committed before the whole bucket is staged.  When the
    staging raises (a package that cannot be marked, a reload or an update
    that fails, an evaluation that raises), [commit] is not called, the
    worker does not raise, and the completion callback is called once with
    an error text in which the message of the exception occurs. *)
Theorem staging_failure_never_commits (E : env) (fuel depth : nat)
    (s s1 : bstate) (e : exn) :
  stage_bucket E fuel depth s = (Raise e, s1) ->
  exists s2 err,
    run_task E fuel depth s = (Ret tt, s2) /\
    List.filter is_commit_event (trace (snd s2))
    = List.filter is_commit_event (trace (snd s)) /\
    callbacks (trace (snd s2))
    = EInstalled (Result (fst s2) (Some err)) :: callbacks (trace (snd s)) /\
    occurs_in (exn_msg e) err.
Proof.
  intros Hstage. destruct s1 as [b h1].
  assert (Htask : _really_install_bucket E fuel depth s = (Raise e, (b, h1))).
  { unfold _really_install_bucket, bind. now rewrite Hstage. }
  pose proof (stage_bucket_empty_file E _ _ _ _ _ Hstage) as Hfile.
  cbn [snd] in Hfile.
  assert (Hread : exchange_text E h1 = Some EmptyString)
    by (unfold exchange_text; now rewrite Hfile).
  pose proof (run_task_calls_back E _ _ _ _ EmptyString _ _ Htask
                ltac:(discriminate) Hread) as Hdone.
  pose proof (stage_bucket_kept E is_commit_event not_staging_commit
                fuel depth _ _ _ Hstage) as Hcommits.
  destruct (stage_bucket_keeps E fuel depth _ _ _ Hstage) as [Hcb _].
  unfold on_handler, trace_kept in Hcommits. cbn [snd] in Hcommits, Hcb.
  destruct (error_text (Raise e) EmptyString) as [err|] eqn:Herr;
    [|discriminate].
  exists (b, called_back (Raise e) EmptyString b h1), err.
  split; [exact Hdone|]. cbn [fst snd].
  split; [rewrite <- Hcommits; now destruct h1|].
  split; [|now apply (occurs_in_error_text e EmptyString)].
  now rewrite callbacks_called_back, Herr, Hcb.
Qed.

Lemma staging_failure_never_commits_witness :
  let E := Examples.amd64 in
  let s := (["gone"], Examples.handler Examples.no_db) in
  exists s2 err,
    run_task E 1 2 s = (Ret tt, s2) /\
    List.filter is_commit_event (trace (snd s2)) = [] /\
    callbacks (trace (snd s2)) = [EInstalled (Result (fst s2) (Some err))] /\
    occurs_in "Can't mark for install gone: gone" err.
Proof.
  intros E s.
  apply (staging_failure_never_commits E 1 2 s
           (snd (stage_bucket E 1 2 s))
           (Exn BaseException "Can't mark for install gone: gone")).
  vm_compute; reflexivity.
Defined.

(** ** What the completion callback is told *)

(** X17: when a task ends, and the exchange file can be read as text in
    case the task raised, the worker removes the exchange file and calls the
    completion callback with the bucket as the task left it; the error of
    the result is None exactly when the task returned, and a text when it
    raised. *)
Theorem task_outcome_reported (E : env) (fuel depth : nat) (s : bstate)
    (task : outcome bool) (bucket : list string) (h : hstate) :
  _really_install_bucket E fuel depth s = (task, (bucket, h)) ->
  task <> Hang ->
  (forall e, task = Raise e -> is_Some (exchange_text E h)) ->
  exists h' error,
    run_task E fuel depth s = (Ret tt, (bucket, h')) /\
    exchange h' = None /\
    trace h' = EInstalled (Result bucket error) :: trace h /\
    (error = None <-> exists v, task = Ret v).
Proof.
  intros Hrun Hends Hreads.
  destruct task as [v|e|]; [| |contradiction].
  - exists (called_back (Ret v) EmptyString bucket h), None.
    split; [now apply run_task_returned|].
    split; [now destruct h|]. split; [now destruct h|].
    split; [eauto | reflexivity].
  - destruct (Hreads e eq_refl) as [text Hread].
    exists (called_back (Raise e) text bucket h),
      (error_text (Raise e) text).
    split; [now apply run_task_calls_back|].
    split; [now destruct h|]. split; [now destruct h|].
    cbn [error_text]. split; [discriminate | intros [v [=]]].
Qed.

Lemma task_outcome_reported_witness :
  let E := Examples.dpkg_fails in
  let s := (["foo"], Examples.handler Examples.foo_db) in
  exists h' error,
    run_task E 1 2 s = (Ret tt, (["foo"], h')) /\
    exchange h' = None /\
    trace h'
    = EInstalled (Result ["foo"] error)
      :: trace (snd (snd (_really_install_bucket E 1 2 s))) /\
    (error = None <-> exists v, @Raise bool Examples.dpkg_error = Ret v).
Proof.
  intros E s.
  apply (task_outcome_reported E 1 2 s (Raise Examples.dpkg_error) ["foo"]
           (snd (snd (_really_install_bucket E 1 2 s)))).
  - vm_compute; reflexivity.
  - discriminate.
  - intros e _. vm_compute. eauto.
Defined.

(** X18: a call of [install_bucket] that returns has handed one task to the
    executor, whether or not the bucket needs anything: this is the one
    operation it adds to the trace, and the package database is as before.
    What it returns is the negation of what [is_bucket_uptodate] returns on
    the same bucket. *)
Theorem install_bucket_always_submits (E : env) (depth : nat) (s s' : bstate)
    (pkg_to_install : bool) :
  install_bucket E depth s = (Ret pkg_to_install, s') ->
  trace (snd s') = ESubmit :: trace (snd s) /\
  cache (snd s') = cache (snd s) /\
  foreign_archs (snd s') = foreign_archs (snd s) /\
  exists s1,
    is_bucket_uptodate E depth s = (Ret (negb pkg_to_install), s1) /\
    fst s' = fst s1.
Proof.
  intros Hcall. unfold install_bucket, bind at 1 in Hcall.
  destruct (is_bucket_uptodate E depth s) as [[up| |] [b1 h1]] eqn:Hup;
    try discriminate.
  assert (Hsame : on_handler same_world s (b1, h1))
    by (eapply (is_bucket_uptodate_keeps E same_world); [auto | exact Hup]).
  destruct Hsame as (Hcache & Hforeign & _ & _ & _ & Htrace).
  munfold. cbn [fst snd] in *. injection Hcall as <- <-. cbn [fst snd].
  split; [destruct h1; cbn in *; now rewrite Htrace|].
  split; [now destruct h1|]. split; [now destruct h1|].
  exists (b1, h1). now rewrite negb_involutive.
Qed.

Lemma install_bucket_always_submits_witness :
  let E := Examples.amd64 in
  let s := (["b"], Examples.handler Examples.only_b) in
  let s' := snd (install_bucket E 2 s) in
  trace (snd s') = [ESubmit] /\
  cache (snd s') = Examples.only_b /\
  foreign_archs (snd s') = [] /\
  exists s1,
    is_bucket_uptodate E 2 s = (Ret true, s1) /\ fst s' = fst s1.
Proof.
  intros E s s'.
  apply (install_bucket_always_submits E 2 s s' false).
  vm_compute; reflexivity.
Defined.

(** ** Foreign architectures *)

(** X19: once one architecture has been enabled, the loop over the bucket
    enables no other: with [need_cache_reload] true the handler is left as
    it is, so that a task enables at most one foreign architecture, the
    first one of the bucket that is neither current nor enabled. *)
Theorem enable_archs_enables_one (E : env) (bucket : list string) :
  (forall h, enable_archs E bucket true h = (Ret true, h)) /\
  (forall need h o h',
     enable_archs E bucket need h = (o, h') ->
     length (foreign_archs h') <= S (length (foreign_archs h))).
Proof.
  assert (Hdone : forall l h, enable_archs E l true h = (Ret true, h)).
  { induction l as [|q l IH]; intros h; [reflexivity|].
    cbn [enable_archs]. destruct (PyStr.contains ":" q); [|apply IH].
    cbv zeta. unfold bind at 1, ret. apply IH. }
  split; [apply Hdone|].
  induction bucket as [|q l IH]; intros need h o h' Hrun.
  - injection Hrun as _ <-. lia.
  - cbn [enable_archs] in Hrun.
    destruct (PyStr.contains ":" q); [|eapply IH, Hrun].
    cbv zeta in Hrun. unfold bind at 1 in Hrun.
    destruct need.
    + unfold ret in Hrun. rewrite Hdone in Hrun. injection Hrun as _ <-. lia.
    + unfold add_foreign_arch in Hrun. munfold. unfold id in Hrun.
      destruct (existsb _ (foreign_archs h) || _).
      * eapply IH, Hrun.
      * rewrite Hdone in Hrun. injection Hrun as _ <-.
        destruct h. cbn. rewrite length_app. cbn. lia.
Qed.

(** * Properties of the callers and of [setup.py] *)

(** ** [get_requirements] *)

Section GetRequirements.
Import Setup.

Lemma gather_sublist tag lines : forall detected,
  sublist (gather tag lines detected) lines /\
  Forall (fun line => is_tag_line line = false) (gather tag lines detected).
Proof.
  induction lines as [|line rest IH]; intros detected; cbn [gather].
  - split; constructor.
  - destruct (is_tag_line line) eqn:Htag.
    + destruct (IH (String.prefix tag line)) as [Hsub Hall].
      split; [now apply sublist_cons | exact Hall].
    + destruct detected; destruct (IH true) as [Hs1 Ha1];
        destruct (IH false) as [Hs0 Ha0].
      * split; [now apply sublist_skip | now constructor].
      * split; [now apply sublist_cons | exact Ha0].
Qed.

Lemma gather_everything lines :
  gather EmptyString lines true
  = List.filter (fun line => negb (is_tag_line line)) lines.
Proof.
  induction lines as [|line rest IH]; [reflexivity|].
  cbn [gather List.filter]. destruct (is_tag_line line); cbn [negb].
  - now rewrite prefix_empty.
  - now rewrite IH.
Qed.

Lemma gather_undetected tag lines :
  Forall (fun line => is_tag_line line = false) lines ->
  gather tag lines false = [].
Proof.
  induction 1 as [|line rest Hline _ IH]; [reflexivity|].
  cbn [gather]. now rewrite Hline.
Qed.

Lemma gather_app_undetected tag pre rest :
  Forall (fun line => is_tag_line line = false) pre ->
  gather tag (pre ++ rest) false = gather tag rest false.
Proof.
  induction 1 as [|line pre Hline _ IH]; [reflexivity|].
  cbn [app gather]. now rewrite Hline.
Qed.

End GetRequirements.

(** X20: whatever the tag, [get_requirements] returns lines of the file in
    the order of the file, and none of them is a comment or an empty
    line. *)
Theorem get_requirements_are_requirement_lines (tag_to_detect : string)
    (lines : list string) :
  sublist (Setup.get_requirements tag_to_detect lines) lines /\
  Forall (fun line => Setup.is_tag_line line = false)
    (Setup.get_requirements tag_to_detect lines).
Proof. apply gather_sublist. Qed.

(** X21: requirements are gathered from the first comment or empty line
    on.  With the empty tag, the lines before the first comment or empty
    line are left out and every requirement after it is returned; and with
    any tag a file that has no comment and no empty line gives no
    requirement at all. *)
Theorem get_requirements_starts_at_first_tag_line
    (pre rest : list string) (tag_line : string) :
  Forall (fun line => Setup.is_tag_line line = false) pre ->
  Setup.is_tag_line tag_line = true ->
  Setup.get_requirements EmptyString (pre ++ tag_line :: rest)
  = List.filter (fun line => negb (Setup.is_tag_line line)) rest /\
  (forall tag_to_detect, Setup.get_requirements tag_to_detect pre = []).
Proof.
  intros Hpre Htag. unfold Setup.get_requirements. split.
  - rewrite gather_app_undetected by assumption. cbn [Setup.gather].
    now rewrite Htag, prefix_empty, gather_everything.
  - intros tag. now apply gather_undetected.
Qed.

Lemma get_requirements_starts_at_first_tag_line_witness :
  Setup.get_requirements EmptyString
    ["argcomplete"; "# tests"; "pexpect"; ""; "nose"]
  = ["pexpect"; "nose"] /\
  (forall tag_to_detect,
     Setup.get_requirements tag_to_detect ["argcomplete"] = []).
Proof.
  apply (get_requirements_starts_at_first_tag_line ["argcomplete"]
           ["pexpect"; ""; "nose"] "# tests").
  - repeat constructor.
  - reflexivity.
Defined.

(** ** Download links read from json assets *)

Section Links.
Import Frameworks.

Lemma keep_matching_fold matches links : forall url in_download,
  fold_left (keep_matching matches) links (url, in_download)
  = (match last (List.filter matches links) with
     | Some link => Some link
     | None => url
     end,
     in_download || existsb matches links).
Proof.
  induction links as [|link rest IH]; intros url in_download.
  - cbn. now rewrite orb_false_r.
  - cbn [fold_left List.filter existsb]. unfold keep_matching at 2.
    destruct (matches link) eqn:Hm; rewrite IH; cbn [orb].
    + rewrite orb_true_r. f_equal.
      destruct (List.filter matches rest) as [|x l] eqn:Hf; [reflexivity|].
      rewrite last_cons_cons.
      destruct (last (x :: l)) eqn:Hl; [reflexivity|].
      apply last_None in Hl. discriminate.
    + reflexivity.
Qed.

End Links.

(** X22: the json parsers of AdoptOpenJDK and Fritzing return the last
    asset that matches, not the first, and no url when none matches;
    [in_download] comes back true as soon as one asset matches and is
    otherwise returned as it was given. *)
Theorem parse_download_link_keeps_last_match (distro_version : string)
    (links : list string) (in_download : bool) :
  let jdk := PyStr.contains "jdk_x64_linux" in
  let fritzing := fun url =>
    PyStr.contains (Frameworks.ubuntu_version distro_version
                    ++ ".linux.AMD64.tar.bz2") url
    && negb (PyStr.contains ".md5" url) in
  Frameworks.adoptopenjdk_parse_download_link links in_download
  = (last (List.filter jdk links), in_download || existsb jdk links) /\
  Frameworks.fritzing_parse_download_link distro_version links in_download
  = (last (List.filter fritzing links),
     in_download || existsb fritzing links).
Proof.
  intros jdk fritzing.
  unfold Frameworks.adoptopenjdk_parse_download_link,
    Frameworks.fritzing_parse_download_link.
  rewrite !keep_matching_fold. subst jdk fritzing.
  split; f_equal;
    match goal with |- context [last ?l] => now destruct (last l) end.
Qed.

(** ** The release name Fritzing derives from the version of the host *)

Section Release.
Import PyStr.

Lemma digits_no_dot s : all_digits s = true -> contains "." s = false.
Proof.
  induction s as [|c s IH]; [reflexivity|].
  cbn [all_digits]. intros [Hc Hs]%andb_prop.
  rewrite contains_char_cons, (IH Hs), orb_false_r.
  apply Ascii.eqb_neq. intros <-. discriminate.
Qed.

Lemma split_char_head x a b :
  contains (String x EmptyString) a = false ->
  hd EmptyString (split_char x (a ++ String x b)) = a.
Proof. intros Ha. now rewrite split_char_app. Qed.

End Release.

(** X23: for a version of the host written with a two-digit year before
    the dot, [Fritzing.ubuntu_version] is "xenial" when the year is below 18
    and "bionic" otherwise.  The comparison is one of texts, so the same is
    not true of a year of one or of three digits. *)
Theorem ubuntu_version_on_two_digit_year (year rest : string) :
  all_digits year = true ->
  String.length year = 2 ->
  Frameworks.ubuntu_version (year ++ String "." rest)
  = if (Spec.number_of year <? 18)%N then "xenial" else "bionic".
Proof.
  intros Hdigits Hlen. unfold Frameworks.ubuntu_version.
  rewrite split_char_head by now apply digits_no_dot.
  unfold String.ltb. rewrite (compare_digits year "18") by easy.
  change (Spec.number_of "18") with 18%N. unfold N.ltb.
  now destruct (Spec.number_of year ?= 18)%N.
Qed.

Lemma ubuntu_version_on_two_digit_year_witness :
  Frameworks.ubuntu_version "16.04" = "xenial" /\
  Frameworks.ubuntu_version "20.04" = "bionic".
Proof.
  split.
  - apply (ubuntu_version_on_two_digit_year "16" "04"); reflexivity.
  - apply (ubuntu_version_on_two_digit_year "20" "04"); reflexivity.
Defined.

(** Years of one and of three digits, compared as texts. *)
Example ubuntu_version_other_lengths :
  Frameworks.ubuntu_version "9.10" = "bionic" /\
  Frameworks.ubuntu_version "100.04" = "xenial".
Proof. split; reflexivity. Qed.

(** ** A task that succeeds *)

Section Success.

Variable E : env.

Lemma enable_archs_names bucket h :
  forallb is_name bucket = true ->
  enable_archs E bucket false h = (Ret false, h).
Proof.
  induction bucket as [|q l IH]; [reflexivity|].
  cbn [forallb]. intros [Hq Hl]%andb_prop.
  apply is_name_parts in Hq as (_ & Hcolon & _).
  cbn [enable_archs]. rewrite Hcolon. now apply IH.
Qed.

Lemma mark_all_markable bucket : forall h,
  forallb (markable E h) bucket = true ->
  exists h',
    mark_all E bucket h = (Ret tt, h') /\
    trace h' = (rev (List.map (mark_event_of E h) bucket) ++ trace h)%list /\
    exchange h' = exchange h.
Proof.
  induction bucket as [|q l IH]; intros h Hall.
  - exists h. now repeat split.
  - cbn [forallb] in Hall. apply andb_prop in Hall as [Hq Hl].
    destruct (IH (log (mark_event_of E h q) h) Hl)
      as (h' & Hrun & Htrace & Hfile).
    exists h'. cbn [mark_all]. unfold bind at 1.
    rewrite mark_one_markable by assumption. split; [exact Hrun|].
    split.
    + rewrite Htrace. cbn [List.map rev]. rewrite <- app_assoc.
      now destruct h.
    + rewrite Hfile. now destruct h.
Qed.

Lemma run_commit_progress fuel evs : forall h,
  forallb is_progress evs = true ->
  exists h',
    run_commit E fuel evs h = (Ret tt, h') /\
    mutations (trace h') = mutations (trace h) /\
    callbacks (trace h') = callbacks (trace h) /\
    (is_Some (exchange h) -> is_Some (exchange h')).
Proof.
  induction evs as [|ev evs IH]; intros h Hall.
  - exists h. now repeat split.
  - cbn [forallb] in Hall. apply andb_prop in Hall as [Hev Hevs].
    assert (Hstep : exists h1,
              commit_step E fuel ev h = (Ret tt, h1) /\
              mutations (trace h1) = mutations (trace h) /\
              callbacks (trace h1) = callbacks (trace h) /\
              (is_Some (exchange h) -> is_Some (exchange h1))).
    { destruct ev; try discriminate; cbn [commit_step is_progress] in *.
      - apply negb_true_iff in Hev. rewrite Hev.
        eexists. split; [reflexivity|]. now destruct h.
      - eexists. split; [reflexivity|]. now destruct h.
      - eexists. split; [reflexivity|].
        destruct h as [? ? ? ? ? ? x ?]. cbn. repeat split.
        destruct x; cbn; [eauto | tauto]. }
    destruct Hstep as (h1 & Hrun1 & Hm1 & Hc1 & Hf1).
    destruct (IH h1 Hevs) as (h' & Hrun & Hm & Hc & Hf).
    exists h'. cbn [run_commit]. unfold bind at 1. rewrite Hrun1.
    split; [exact Hrun|]. split; [congruence|]. split; [congruence|].
    tauto.
Qed.

End Success.

(** X24: a bucket of package names that the cache has and that can be
    marked, not up to date as a whole, on a host where [commit] only reports
    progress and output: the task marks every package in the order of the
    bucket, commits once, and the completion callback is called once with no
    error; the exchange file is removed. *)
Theorem install_succeeds (E : env) (fuel depth : nat)
    (bucket : list string) (h : hstate) :
  forallb is_name bucket = true ->
  forallb (markable E h) bucket = true ->
  forallb (is_current E h) bucket = false ->
  forallb is_progress (commit_events E) = true ->
  exists h',
    run_task E fuel depth (bucket, h) = (Ret tt, (bucket, h')) /\
    callbacks (trace h')
    = EInstalled (Result bucket None) :: callbacks (trace h) /\
    mutations (trace h')
    = (ECommit :: mutations (rev (List.map (mark_event_of E h) bucket)
                             ++ trace h))%list /\
    exchange h' = None.
Proof.
  intros Hnames Hmark Hstale Hcommit.
  set (h1 := set_exchange (Some EmptyString) h).
  assert (Hsimple : forallb (is_simple E) bucket = true).
  { apply forallb_forall. intros q Hq. apply is_name_simple.
    rewrite forallb_forall in Hnames. now apply Hnames. }
  assert (Hup : is_bucket_uptodate E depth (bucket, h1)
                = (Ret false, (bucket, h1))).
  { rewrite is_bucket_uptodate_simple by assumption.
    now rewrite (is_current_cache E h1 h), Hstale by now destruct h. }
  destruct (mark_all_markable E bucket h1) as (h2 & Hmarks & Htr2 & Hf2);
    [exact Hmark|].
  assert (Hcm : exists h3,
            commit E fuel h2 = (Ret tt, h3) /\
            mutations (trace h3) = ECommit :: mutations (trace h2) /\
            callbacks (trace h3) = callbacks (trace h2)).
  { destruct (run_commit_progress E fuel (commit_events E) (log ECommit h2)
                Hcommit) as (h3 & Hrun & Hm & Hc & _).
    exists h3. unfold commit, bind, modify. rewrite Hrun.
    split; [reflexivity|]. rewrite Hm, Hc. now destruct h2. }
  destruct Hcm as (h3 & Hcommit3 & Hm3 & Hc3).
  assert (Htask : _really_install_bucket E fuel depth (bucket, h)
                  = (Ret true, (bucket, h3))).
  { unfold _really_install_bucket, stage_bucket.
    munfold. cbn [fst snd]. fold h1. rewrite Hup. cbn [fst snd].
    rewrite enable_archs_names by assumption. cbn [fst snd].
    rewrite Hmarks. cbn [fst snd]. now rewrite Hcommit3. }
  pose proof (run_task_returned E _ _ _ _ EmptyString _ _ Htask) as Hdone.
  destruct (really_install_bucket_keeps E fuel depth _ _ _ Htask)
    as [Hquiet _]. cbn [snd] in Hquiet.
  exists (called_back (Ret true) EmptyString bucket h3).
  split; [exact Hdone|].
  split; [now rewrite callbacks_called_back, Hquiet|].
  split; [|now destruct h3].
  transitivity (mutations (trace h3)); [now destruct h3|].
  rewrite Hm3, Htr2. now destruct h.
Qed.

Lemma install_succeeds_witness :
  let E := Examples.host "amd64" ProbeMissing
             [CPulse 10 1 100 2; CStatus 50; CWrite "Unpacking foo"] in
  let h := Examples.handler Examples.foo_db in
  exists h',
    run_task E 1 2 (["foo"], h) = (Ret tt, (["foo"], h')) /\
    callbacks (trace h') = [EInstalled (Result ["foo"] None)] /\
    mutations (trace h') = [ECommit; EMarkInstall "foo"] /\
    exchange h' = None.
Proof.
  intros E h.
  apply (install_succeeds E 1 2 ["foo"] h); reflexivity.
Defined.

(** ** Earlier properties at concrete inputs *)

Lemma uptodate_bucket_short_circuits_witness :
  let E := Examples.amd64 in
  let h := Examples.handler Examples.only_b in
  let bucket := ["b"; "b:amd64"] in
  is_bucket_uptodate E 2 (bucket, h) = (Ret true, (bucket, h)) /\
  install_bucket E 2 (bucket, h) = (Ret false, (bucket, log ESubmit h)) /\
  (let h1 := set_exchange (Some EmptyString) (log ESubmit h) in
   stage_bucket E 1 2 (bucket, log ESubmit h) = (Ret false, (bucket, h1)) /\
   run_task E 1 2 (bucket, log ESubmit h)
   = (Ret tt, (bucket, called_back (Ret true) EmptyString bucket h1)) /\
   mutations (trace (called_back (Ret true) EmptyString bucket h1))
   = mutations (trace h)).
Proof.
  intros E h bucket.
  apply (uptodate_bucket_short_circuits E 1 2 bucket h); reflexivity.
Defined.

Lemma native_arch_suffix_stripped_witness :
  let E := Examples.amd64 in
  let h := Examples.handler Examples.only_b in
  seen (is_bucket_installed E 1 (["b:amd64"], h))
  = seen (is_bucket_installed E 1 (["b"], h)) /\
  seen (is_bucket_uptodate E 0 (["b:amd64"], h))
  = seen (is_bucket_uptodate E 0 (["b"], h)).
Proof.
  intros E h.
  apply (native_arch_suffix_stripped E 0 "b" h); reflexivity.
Defined.

Lemma foreign_arch_relaxed_witness :
  let E := Examples.amd64 in
  let h := Examples.handler Examples.no_db in
  is_bucket_available E 1 (["x:armhf"], h) = (Ret true, (["x:armhf"], h)).
Proof.
  intros E h.
  apply (foreign_arch_relaxed E 0 "x" "armhf" h);
    try reflexivity. discriminate.
Defined.

(** Two foreign architectures in one bucket: the second is not enabled. *)
Example second_architecture_not_enabled :
  let E := Examples.amd64 in
  let h := Examples.handler Examples.no_db in
  foreign_archs (snd (enable_archs E ["x:armhf"; "y:arm64"] false h))
  = ["armhf"].
Proof. reflexivity. Qed.
